(** * USDA mapping agent: the match resolution pipeline

  A shallow embedding of the Python sources of the ingredient-to-FDC
  resolution pipeline, with the properties of its specification stated
  and proved (or refuted) against the embedded code.

  Conventions used throughout.
  - Python [str] values are [string]s of 8-bit characters; [lower],
    [strip] and [split] act on the ASCII range, every other byte is a
    letter-like character that is left alone.
  - JSON numbers (amounts, scores) are rationals [Q]; the comparisons of
    the source with the literals 65.0, 80.0, 90.0 are exact on them.
  - Python dictionaries looked up by key are [gmap]s; dictionaries whose
    iteration order matters are association lists.
  - A call that can raise is a value of [result]; the log file and
    free-text messages are not part of the model.  Of the clock the model
    keeps what the code depends on: a processing time is the one value
    [elapsed_time], since only its presence matters, and the total time
    of a batch, which the summary divides by, is a rational given from
    outside. *)

From Stdlib Require Import ZArith QArith String Ascii List Lia Permutation.
From Stdlib Require Sorted Lqa.
From stdpp Require Import gmap strings list fin_maps.

Open Scope string_scope.

(** ** Python string primitives *)

Module PyStr.

(** [str.isspace] on one ASCII character: TAB..CR, FS..US and SPACE. *)
Definition is_space (c : ascii) : bool :=
  let n := nat_of_ascii c in
  ((9 <=? n) && (n <=? 13) || (28 <=? n) && (n <=? 31) || (n =? 32))%nat.

Definition lower_char (c : ascii) : ascii :=
  let n := nat_of_ascii c in
  if ((65 <=? n) && (n <=? 90))%nat then ascii_of_nat (n + 32) else c.

(** [s.lower()] *)
Fixpoint lower (s : string) : string :=
  match s with
  | EmptyString => EmptyString
  | String c s' => String (lower_char c) (lower s')
  end.

Fixpoint lstrip (s : string) : string :=
  match s with
  | EmptyString => EmptyString
  | String c s' => if is_space c then lstrip s' else s
  end.

Definition rev_string (s : string) : string :=
  string_of_list_ascii (rev (list_ascii_of_string s)).

Definition rstrip (s : string) : string := rev_string (lstrip (rev_string s)).

(** [s.strip()] *)
Definition strip (s : string) : string := rstrip (lstrip s).

(** [s.startswith(p)] *)
Definition startswith (s p : string) : bool := String.prefix p s.

(** [needle in hay] for strings. *)
Fixpoint contains (needle hay : string) : bool :=
  String.prefix needle hay ||
  match hay with
  | EmptyString => false
  | String _ hay' => contains needle hay'
  end.

Fixpoint last_char (s : string) : option ascii :=
  match s with
  | EmptyString => None
  | String c EmptyString => Some c
  | String _ s' => last_char s'
  end.

(** [s.endswith(c)] for a one-character suffix. *)
Definition endswith_char (s : string) (c : ascii) : bool :=
  match last_char s with
  | Some d => Ascii.eqb d c
  | None => false
  end.

(** [s[:-1]] *)
Fixpoint drop_last (s : string) : string :=
  match s with
  | EmptyString => EmptyString
  | String _ EmptyString => EmptyString
  | String c s' => String c (drop_last s')
  end.

(** [s.replace(old, new)] where both are single characters. *)
Fixpoint replace (old new : ascii) (s : string) : string :=
  match s with
  | EmptyString => EmptyString
  | String c s' => String (if Ascii.eqb c old then new else c) (replace old new s')
  end.

(** [s.split()]: maximal runs of non-space characters, in order.  [cur]
    is the word being read, if any. *)
Fixpoint split_from (cur : option string) (s : string) : list string :=
  match s with
  | EmptyString => match cur with Some w => [w] | None => [] end
  | String c s' =>
      if is_space c then
        match cur with
        | Some w => w :: split_from None s'
        | None => split_from None s'
        end
      else
        split_from (Some (match cur with
                          | Some w => w ++ String c EmptyString
                          | None => String c EmptyString
                          end)) s'
  end.

Definition split (s : string) : list string := split_from None s.

(** Python truthiness of a string. *)
Definition truthy (s : string) : bool :=
  match s with EmptyString => false | _ => true end.

(** [k in d] for a dictionary. *)
Definition py_in {V} (k : string) (d : gmap string V) : bool :=
  match d !! k with Some _ => true | None => false end.

End PyStr.

(** ** tools/mapping_tool.py *)

Module MappingTool.
Import PyStr.

(** One curated mapping entry, as stored in the JSON file: a dictionary
    with these keys, hence truthy. *)
Record Entry := {
  e_fdc_id : Z;
  e_description : string;
  e_data_type : string;
  e_verified : bool;
  e_notes : string
}.

Definition _fuzzy_match (ingredient : string) (mappings : gmap string Entry)
  : option string :=
  let ingredient_lower := strip (lower ingredient) in
  if py_in ingredient_lower mappings then Some ingredient_lower else
  let by_plural :=
    if endswith_char ingredient_lower "s" then
      let singular := drop_last ingredient_lower in
      if py_in singular mappings then Some singular else None
    else
      let plural := ingredient_lower ++ "s" in
      if py_in plural mappings then Some plural else
      let plural_es := ingredient_lower ++ "es" in
      if py_in plural_es mappings then Some plural_es else None in
  match by_plural with
  | Some k => Some k
  | None =>
      let variations :=
        [ replace " " "_" ingredient_lower;
          replace "_" " " ingredient_lower;
          replace "-" " " ingredient_lower;
          replace " " "-" ingredient_lower ] in
      find (fun variation => py_in variation mappings) variations
  end.

Definition search_mappings (ingredient : string) (mappings : gmap string Entry)
  : option Entry :=
  match _fuzzy_match ingredient mappings with
  | Some matched_key =>
      if truthy matched_key then mappings !! matched_key else None
  | None => None
  end.

(** The lookup order in the words of the specification, with the plural
    adjustments the code has: the normalised key; its singular when it
    ends in [s], otherwise its [s] and [es] plurals; then the four
    separator rewrites. *)
Definition candidate_keys (ingredient : string) : list string :=
  let k := strip (lower ingredient) in
  ([k]
   ++ (if endswith_char k "s" then [drop_last k]
       else [(k ++ "s")%string; (k ++ "es")%string])
   ++ [ replace " " "_" k; replace "_" " " k;
        replace "-" " " k; replace " " "-" k ])%list.

Definition berries_store : gmap string Entry :=
  {[ "berries" := {| e_fdc_id := 2346411; e_description := "Berries, NFS";
                     e_data_type := "Survey (FNDDS)"; e_verified := true;
                     e_notes := "" |} ]}.

End MappingTool.

(** ** Exceptions and catalog data *)

Module Py.

(** The exceptions that occur in the modelled code, all of them
    subclasses of [Exception].  [UnboundLocalError] is raised when a local
    variable is read before any assignment to it, [TypeError] when a
    number is added to [None]. *)
Inductive exn : Type :=
| UnboundLocalError (name : string)
| ZeroDivisionError
| TypeError
| ValueError (msg : string)
| OtherException (msg : string).

Inductive result (A : Type) : Type :=
| Returned (a : A)
| Raised (e : exn).

Arguments Returned {A} a.
Arguments Raised {A} e.

End Py.

Module Catalog.

(** [food["foodCategory"]]: a dictionary with an optional description, a
    plain string, or anything else. *)
Inductive FoodCategory : Type :=
| CategoryDict (description : option string)
| CategoryStr (s : string)
| CategoryOther.

(** One row of a catalog search response, with the annotations the
    pipeline adds to it.  A field is [None] when the key is absent. *)
Record Food := {
  f_fdcId : option Z;
  f_fdc_id : option Z;
  f_description : option string;
  f_dataType : option string;
  f_foodCategory : option FoodCategory;
  f_search_tier : option Z;
  f_semantic_match_score : option Q
}.

(** [result["_search_tier"] = tier] *)
Definition set_search_tier (tier : Z) (result : Food) : Food :=
  {| f_fdcId := f_fdcId result;
     f_fdc_id := f_fdc_id result;
     f_description := f_description result;
     f_dataType := f_dataType result;
     f_foodCategory := f_foodCategory result;
     f_search_tier := Some tier;
     f_semantic_match_score := f_semantic_match_score result |}.

(** Python truthiness of an optional integer: present and non-zero. *)
Definition truthy_id (i : option Z) : bool :=
  match i with
  | Some z => negb (z =? 0)%Z
  | None => false
  end.

(** One member of [foodNutrients].  [n_nested] is the value under the key
    ["nutrient"] when it is a non-empty dictionary, as a pair of its
    optional ["name"] and ["unitName"]. *)
Record RawNutrient := {
  n_nested : option (option string * option string);
  n_name : option string;
  n_unitName : option string;
  n_amount : option Q
}.

(** A non-empty detail record of the catalog. *)
Record FoodData := {
  d_fdcId : option Z;
  d_description : option string;
  d_dataType : option string;
  d_brandOwner : option string;
  d_foodNutrients : list RawNutrient
}.

End Catalog.

(** ** tools/scoring_tool.py *)

Module ScoringTool.
Import PyStr Catalog.

Open Scope Z_scope.

Definition compound_indicators : list string :=
  [ "cheese"; "crackers"; "bread"; "cookies"; "cake";
    "soup"; "sauce"; "dressing"; "cereal"; "bar"; "drink";
    "juice"; "spread"; "butter"; "yogurt" ].

Definition processed_forms : list string :=
  [ "dry"; "powdered"; "powder"; "dehydrated"; "canned"; "frozen";
    "concentrated"; "evaporated"; "condensed" ].

(** [x in xs] for a list of strings. *)
Definition in_list (x : string) (xs : list string) : bool :=
  existsb (String.eqb x) xs.

(** The first [if]/[elif] chain: exact description, else prefix. *)
Definition exact_or_prefix_bonus (description query_lower : string) : Z :=
  if String.eqb description query_lower then 500
  else if startswith description query_lower then 300
  else 0.

(** [query_word_list[-1] if query_word_list else ""] *)
Definition main_ingredient_of (query_lower : string) : string :=
  List.last (split query_lower) "".

(** [main_ingredient and description.startswith(main_ingredient)] *)
Definition head_match (description query_lower : string) : bool :=
  let main_ingredient := main_ingredient_of query_lower in
  truthy main_ingredient && startswith description main_ingredient.

(** The second chain: the head word of the query, else the phrase. *)
Definition head_or_phrase_bonus (description query_lower : string) : Z :=
  if head_match description query_lower then
    250 + (if contains query_lower description then 100 else 0)
  else if contains query_lower description then 200
  else 0.

Definition lexical_bonus (description query_lower : string) : Z :=
  exact_or_prefix_bonus description query_lower
  + head_or_phrase_bonus description query_lower.

(** Word-level matching on the sets of words. *)
Definition word_bonus (description query_lower : string) : Z :=
  let query_words : gset string := list_to_set (split query_lower) in
  let desc_words : gset string := list_to_set (split (replace "," " " description)) in
  let matching_words := query_words ∩ desc_words in
  if bool_decide (matching_words = ∅) then 0
  else if bool_decide (matching_words = query_words) then 150
  else Z.of_nat (size matching_words) * 30.

(** Penalties applied when the query has at most two distinct words. *)
Definition compound_penalty (description query_lower : string) : Z :=
  let query_words : gset string := list_to_set (split query_lower) in
  let query_word_count := size query_words in
  let desc_words_list := split (replace "," " " description) in
  let desc_word_count := length desc_words_list in
  if (query_word_count <=? 2)%nat then
    let first_word := List.hd "" desc_words_list in
    (if in_list first_word compound_indicators then -800
     else if existsb (fun indicator => contains indicator description)
                     compound_indicators then -500
     else 0)
    + (if negb (existsb (fun form => contains form query_lower) processed_forms)
          && existsb (fun form => contains form description) processed_forms
       then -300 else 0)
    + (if (query_word_count + 1 <? desc_word_count)%nat then -150 else 0)
  else 0.

Definition data_type_bias (data_type : string) : Z :=
  if String.eqb data_type "Foundation" then 100
  else if String.eqb data_type "SR Legacy" then 50
  else if String.eqb data_type "Survey (FNDDS)" then 25
  else if String.eqb data_type "Branded" then -50
  else 0.

Definition category_text (c : option FoodCategory) : string :=
  match c with
  | None => ""
  | Some (CategoryDict d) => lower (default "" d)
  | Some (CategoryStr s) => lower s
  | Some CategoryOther => ""
  end.

Definition category_bias (query_lower food_category : string) : Z :=
  (if contains "milk" query_lower && contains "dairy" food_category then 50 else 0)
  + (if contains "fruit" query_lower && contains "fruit" food_category then 50 else 0).

(** The score is the float 1000.0 adjusted by integers only, so it is an
    integer; the adjustments are listed in the order of the source. *)
Definition _score_relevance_advanced (food : Food) (query : string) (position : nat) : Z :=
  let description := lower (default "" (f_description food)) in
  let query_lower := lower query in
  1000
  - Z.of_nat position * 10
  + lexical_bonus description query_lower
  + word_bonus description query_lower
  + compound_penalty description query_lower
  + data_type_bias (default "" (f_dataType food))
  + category_bias query_lower (category_text (f_foodCategory food)).

End ScoringTool.

(** ** utils/nutrient_mapper.py and tools/nutrition_extractor_tool.py *)

Module NutrientMapper.
Import PyStr Catalog.

(** [{"amount": ..., "unit": ...}] *)
Record NutrientData := {
  nd_amount : Q;
  nd_unit : string
}.

(** Insertion-ordered dictionaries: lookup, and assignment that keeps the
    position of a key that is already present. *)
Definition dict_get {V} (k : string) (d : list (string * V)) : option V :=
  match find (fun p => String.eqb (fst p) k) d with
  | Some p => Some (snd p)
  | None => None
  end.

Fixpoint dict_set {V} (k : string) (v : V) (d : list (string * V)) : list (string * V) :=
  match d with
  | [] => [(k, v)]
  | (k', v') :: d' =>
      if String.eqb k' k then (k', v) :: d' else (k', v') :: dict_set k v d'
  end.

Definition USDA_NUTRIENT_MAPPINGS : list (string * string) :=
  [
    ("Energy", "nutrient-calories-energy");
    ("Energy (Atwater General Factors)", "nutrient-calories-energy");
    ("Energy (Atwater Specific Factors)", "nutrient-calories-energy");
    ("Protein", "nutrient-protein");
    ("Total lipid (fat)", "nutrient-total-fat");
    ("Carbohydrate, by difference", "nutrient-total-carbohydrates");
    ("Fiber, total dietary", "nutrient-dietary-fiber");
    ("Sugars, total including NLEA", "nutrient-total-sugars");
    ("Sugars, added", "nutrient-total-sugars");
    ("Water", "nutrient-water");
    ("Fatty acids, total saturated", "nutrient-saturated-fat");
    ("Fatty acids, total trans", "nutrient-trans-fat");
    ("Fatty acids, total monounsaturated", "nutrient-monounsaturated-fat");
    ("Fatty acids, total polyunsaturated", "nutrient-polyunsaturated-fat");
    ("Cholesterol", "nutrient-cholesterol");
    ("Alcohol, ethyl", "nutrient-alcohol");
    ("Caffeine", "nutrient-caffeine");
    ("Theobromine", "nutrient-theobromine");
    ("Ash", "nutrient-ash");
    ("Vitamin A, RAE", "nutrient-vitamin-a-rae");
    ("Retinol", "nutrient-retinol");
    ("Vitamin D (D2 + D3)", "nutrient-vitamin-d");
    ("Vitamin E (alpha-tocopherol)", "nutrient-vitamin-e-alpha-tocopherol");
    ("Vitamin K (phylloquinone)", "nutrient-vitamin-k-phylloquinone");
    ("Thiamin", "nutrient-thiamin-b1");
    ("Riboflavin", "nutrient-riboflavin-b2");
    ("Niacin", "nutrient-niacin-b3");
    ("Pantothenic acid", "nutrient-vitamin-b5-pantothenic-acid");
    ("Vitamin B-6", "nutrient-vitamin-b6");
    ("Folate, total", "nutrient-folate-folic-acid");
    ("Folic acid", "nutrient-folate-folic-acid");
    ("Vitamin B-12", "nutrient-vitamin-b12");
    ("Choline, total", "nutrient-choline");
    ("Vitamin C, total ascorbic acid", "nutrient-vitamin-c-ascorbic-acid");
    ("Calcium, Ca", "nutrient-calcium");
    ("Magnesium, Mg", "nutrient-magnesium");
    ("Phosphorus, P", "nutrient-phosphorus");
    ("Potassium, K", "nutrient-potassium");
    ("Sodium, Na", "nutrient-sodium");
    ("Iron, Fe", "nutrient-iron");
    ("Zinc, Zn", "nutrient-zinc");
    ("Copper, Cu", "nutrient-copper");
    ("Selenium, Se", "nutrient-selenium");
    ("Manganese, Mn", "nutrient-manganese");
    ("Fluoride, F", "nutrient-fluoride");
    ("Beta-carotene", "nutrient-beta-carotene");
    ("Alpha-carotene", "nutrient-alpha-carotene");
    ("Cryptoxanthin, beta", "nutrient-cryptoxanthin");
    ("Lycopene", "nutrient-lycopene");
    ("Lutein + zeaxanthin", "nutrient-lutein-zeaxanthin");
    ("4:0", "nutrient-sfa-4-0-butyric");
    ("6:0", "nutrient-sfa-6-0-caproic");
    ("8:0", "nutrient-sfa-8-0-caprylic");
    ("10:0", "nutrient-sfa-10-0-capric");
    ("12:0", "nutrient-sfa-12-0-lauric");
    ("14:0", "nutrient-sfa-14-0-myristic");
    ("16:0", "nutrient-sfa-16-0-palmitic");
    ("18:0", "nutrient-sfa-18-0-stearic");
    ("16:1", "nutrient-mufa-16-1-palmitoleic");
    ("18:1", "nutrient-mufa-18-1-oleic");
    ("20:1", "nutrient-mufa-20-1");
    ("22:1", "nutrient-mufa-22-1");
    ("18:2 n-6 c,c", "nutrient-pufa-18-2-linoleic");
    ("18:3 n-3 c,c,c (ALA)", "nutrient-pufa-18-3-alpha-linolenic");
    ("18:4", "nutrient-pufa-18-4");
    ("20:4 n-6", "nutrient-pufa-20-4-arachidonic");
    ("20:5 n-3 (EPA)", "nutrient-pufa-20-5-epa");
    ("22:5 n-3 (DPA)", "nutrient-pufa-22-5-dpa");
    ("22:6 n-3 (DHA)", "nutrient-pufa-22-6-dha");
    ("Tryptophan", "nutrient-tryptophan");
    ("Threonine", "nutrient-threonine");
    ("Isoleucine", "nutrient-isoleucine");
    ("Leucine", "nutrient-leucine");
    ("Lysine", "nutrient-lysine");
    ("Methionine", "nutrient-methionine");
    ("Phenylalanine", "nutrient-phenylalanine");
    ("Valine", "nutrient-valine");
    ("Arginine", "nutrient-arginine");
    ("Histidine", "nutrient-histidine");
    ("Cystine", "nutrient-cystine");
    ("Tyrosine", "nutrient-tyrosine");
    ("Alanine", "nutrient-alanine");
    ("Aspartic acid", "nutrient-aspartic-acid");
    ("Glutamic acid", "nutrient-glutamic-acid");
    ("Glycine", "nutrient-glycine");
    ("Proline", "nutrient-proline");
    ("Serine", "nutrient-serine")
  ].

Definition map_usda_nutrient_to_standard (usda_nutrient_name : string) : option string :=
  match dict_get usda_nutrient_name USDA_NUTRIENT_MAPPINGS with
  | Some nutrient_id => Some nutrient_id
  | None =>
  let usda_lower := lower usda_nutrient_name in
  match find (fun p => String.eqb (lower (fst p)) usda_lower) USDA_NUTRIENT_MAPPINGS with
  | Some p => Some (snd p)
  | None =>
  if contains "energy" usda_lower || contains "calorie" usda_lower then
    Some "nutrient-calories-energy"
  else if contains "protein" usda_lower then Some "nutrient-protein"
  else if contains "fat" usda_lower && contains "total" usda_lower then
    Some "nutrient-total-fat"
  else if contains "carbohydrate" usda_lower then Some "nutrient-total-carbohydrates"
  else if contains "fiber" usda_lower || contains "fibre" usda_lower then
    Some "nutrient-dietary-fiber"
  else if contains "sugar" usda_lower then Some "nutrient-total-sugars"
  else if contains "sodium" usda_lower then Some "nutrient-sodium"
  else if contains "calcium" usda_lower then Some "nutrient-calcium"
  else if contains "iron" usda_lower then Some "nutrient-iron"
  else if contains "vitamin c" usda_lower || contains "ascorbic" usda_lower then
    Some "nutrient-vitamin-c-ascorbic-acid"
  else None
  end
  end.

(** One step of the loop over [usda_nutrients.items()]. *)
Definition assign_nutrient (result : gmap string (option NutrientData))
    (item : string * NutrientData) : gmap string (option NutrientData) :=
  match map_usda_nutrient_to_standard (fst item) with
  | Some nutrient_id =>
      if truthy nutrient_id && py_in nutrient_id result
      then <[ nutrient_id := Some (snd item) ]> result
      else result
  | None => result
  end.

(** [all_nutrient_ids] is the key list of the definitions table, which the
    source reads from a CSV file that is not part of the code. *)
Definition extract_all_nutrients (usda_nutrients : list (string * NutrientData))
    (all_nutrient_ids : list string) : gmap string (option NutrientData) :=
  let result : gmap string (option NutrientData) :=
    list_to_map ((fun nutrient_id => (nutrient_id, None)) <$> all_nutrient_ids) in
  fold_left assign_nutrient usda_nutrients result.

(** The dictionary [extract_nutrition_data] returns; it always has
    keys, so the tests [if nutrition_data] of its callers hold. *)
Record Nutrition := {
  nu_fdc_id : option Z;
  nu_description : string;
  nu_data_type : string;
  nu_brand_owner : string;
  nu_nutrients : list (string * NutrientData);
  nu_standardized_nutrients : gmap string (option NutrientData);
  nu_common_nutrients : list (string * option NutrientData)
}.

(** [nutrient.get("nutrient", {})], or the member itself when that is
    empty: the optional name and unit name. *)
Definition nutrient_info_of (nutrient : RawNutrient) : option string * option string :=
  match n_nested nutrient with
  | Some info => info
  | None => (n_name nutrient, n_unitName nutrient)
  end.

(** One step of the loop over [food_nutrients]. *)
Definition collect_nutrient (nutrients : list (string * NutrientData))
    (nutrient : RawNutrient) : list (string * NutrientData) :=
  let nutrient_info := nutrient_info_of nutrient in
  let nutrient_name := default "" (fst nutrient_info) in
  let unit := default "" (snd nutrient_info) in
  match n_amount nutrient with
  | Some amount =>
      if truthy nutrient_name
      then dict_set nutrient_name {| nd_amount := amount; nd_unit := unit |} nutrients
      else nutrients
  | None => nutrients
  end.

Definition std_get (standardized : gmap string (option NutrientData)) (k : string)
  : option NutrientData :=
  match standardized !! k with
  | Some v => v
  | None => None
  end.

Definition extract_nutrition_data (all_nutrient_ids : list string) (food_data : FoodData)
  : Nutrition :=
  let nutrients := fold_left collect_nutrient (d_foodNutrients food_data) [] in
  let standardized_nutrients := extract_all_nutrients nutrients all_nutrient_ids in
  {| nu_fdc_id := d_fdcId food_data;
     nu_description := default "" (d_description food_data);
     nu_data_type := default "" (d_dataType food_data);
     nu_brand_owner := default "" (d_brandOwner food_data);
     nu_nutrients := nutrients;
     nu_standardized_nutrients := standardized_nutrients;
     nu_common_nutrients :=
       [ ("calories", std_get standardized_nutrients "nutrient-calories-energy");
         ("protein", std_get standardized_nutrients "nutrient-protein");
         ("fat", std_get standardized_nutrients "nutrient-total-fat");
         ("carbs", std_get standardized_nutrients "nutrient-total-carbohydrates");
         ("fiber", std_get standardized_nutrients "nutrient-dietary-fiber");
         ("sugar", std_get standardized_nutrients "nutrient-total-sugars");
         ("sodium", std_get standardized_nutrients "nutrient-sodium");
         ("calcium", std_get standardized_nutrients "nutrient-calcium");
         ("iron", std_get standardized_nutrients "nutrient-iron");
         ("vitamin_c", std_get standardized_nutrients "nutrient-vitamin-c-ascorbic-acid") ] |}.

(** The ["calories"] entry of [_extract_basic_nutrients] in
    tools/nutritional_similarity_tool.py: the only place where kilojoules
    are divided by 4.184 (here as the exact rational 4184/1000). *)
Definition basic_calories (nutrition_data : Nutrition) : option Q :=
  match std_get (nu_standardized_nutrients nutrition_data) "nutrient-calories-energy" with
  | Some cal_data =>
      if Qeq_bool (nd_amount cal_data) 0 then None
      else if contains "kj" (lower (nd_unit cal_data))
           then Some (nd_amount cal_data / (4184 # 1000))%Q
           else Some (nd_amount cal_data)
  | None => None
  end.

(** A detail record whose only nutrient is 4184 kJ of energy. *)
Definition kilojoule_record : FoodData :=
  {| d_fdcId := Some 170000%Z;
     d_description := Some "Sample food";
     d_dataType := Some "SR Legacy";
     d_brandOwner := None;
     d_foodNutrients :=
       [ {| n_nested := Some (Some "Energy", Some "kJ");
            n_name := None; n_unitName := None;
            n_amount := Some (4184 # 1)%Q |} ] |}.

End NutrientMapper.

(** ** tools/usda_api_tool.py *)

Module UsdaApi.
Import Py PyStr Catalog.

(** What one [session.get] followed by [raise_for_status] and [json]
    does: it yields the decoded body, raises [requests.exceptions.Timeout],
    raises another [RequestException] (connection and HTTP errors), or
    raises something that is not a [RequestException]. *)
Inductive http_reply (A : Type) : Type :=
| HttpOk (body : A)
| HttpTimeout
| HttpRequestException
| HttpRaises (e : exn).

Arguments HttpOk {A} body.
Arguments HttpTimeout {A}.
Arguments HttpRequestException {A}.
Arguments HttpRaises {A} e.

(** A reply that the [except] clauses of the client handle. *)
Definition transport_error {A} (r : http_reply A) : Prop :=
  r = HttpTimeout \/ r = HttpRequestException.

Record USDAApiClient := {
  rate_limit_delay : Q;
  max_retries : nat;
  timeout : Z
}.

(** [USDAApiClient.__init__] once the API key is present. *)
Definition new_client : USDAApiClient :=
  {| rate_limit_delay := 1 # 2; max_retries := 3; timeout := 45 |}.

(** The observable effects of one client operation, in order. *)
Inductive effect : Type :=
| Request (attempt : nat)
| Sleep (seconds : Q).

(** [wait_time = (2 ** attempt) * 2] *)
Definition wait_time (attempt : nat) : Q := inject_Z (2 ^ Z.of_nat attempt * 2).

(** The [finally] clause of the loop body. *)
Definition finally_clause (self : USDAApiClient) (attempt : nat) : list effect :=
  if (Z.of_nat attempt =? Z.of_nat (max_retries self) - 1)%Z
  then [Sleep (rate_limit_delay self)] else [].

(** [for attempt in range(self.max_retries): try ... except ... finally],
    followed by the [return] after the loop.  [remaining] counts the
    iterations left, [attempt] is the loop variable. *)
Fixpoint request_loop {A B : Type} (self : USDAApiClient)
    (send : nat -> http_reply A) (on_ok : A -> B) (exhausted : B)
    (remaining attempt : nat) : list effect * result B :=
  match remaining with
  | O => ([], Returned exhausted)
  | S remaining' =>
      match send attempt with
      | HttpOk body =>
          (Request attempt :: finally_clause self attempt, Returned (on_ok body))
      | HttpTimeout | HttpRequestException =>
          if (Z.of_nat attempt <? Z.of_nat (max_retries self) - 1)%Z then
            let '(effects, r) :=
              request_loop self send on_ok exhausted remaining' (S attempt) in
            (Request attempt :: Sleep (wait_time attempt)
               :: (finally_clause self attempt ++ effects)%list, r)
          else
            (Request attempt :: finally_clause self attempt, Returned exhausted)
      | HttpRaises e =>
          (Request attempt :: finally_clause self attempt, Raised e)
      end
  end.

Record SearchParams := {
  p_query : string;
  p_pageSize : Z;
  p_dataType : string
}.

(** [USDAApiClient.search_food]; the body of a response is the value
    under ["foods"], if the key is there. *)
Definition search_food (self : USDAApiClient)
    (http : SearchParams -> nat -> http_reply (option (list Food)))
    (query : string) (page_size : Z) (data_type_filter : option string)
  : list effect * result (list Food) :=
  let params :=
    {| p_query := query;
       p_pageSize := Z.min page_size 200;
       p_dataType :=
         match data_type_filter with
         | Some f => if truthy f then f else "Foundation,SR Legacy"
         | None => "Foundation,SR Legacy"
         end |} in
  request_loop self (http params) (default []) [] (max_retries self) 0.

(** [USDAApiClient.get_food_details]; a body that is not a non-empty
    dictionary is [None]. *)
Definition get_food_details (self : USDAApiClient)
    (http : Z -> nat -> http_reply (option FoodData)) (fdc_id : Z)
  : list effect * result (option FoodData) :=
  request_loop self (http fdc_id) (fun body => body) None (max_retries self) 0.

(** The number of requests among the effects. *)
Definition is_request (e : effect) : bool :=
  match e with Request _ => true | Sleep _ => false end.

Definition requests_sent (effects : list effect) : nat :=
  length (List.filter is_request effects).

(** *** The comprehensive four-tier search *)

(** One [for result in tierN_results] loop. *)
Definition merge_step (tier : Z) (acc : list Food * gset Z) (result : Food)
  : list Food * gset Z :=
  let '(all_results, seen_fdc_ids) := acc in
  match f_fdcId result with
  | Some fdc_id =>
      if negb (fdc_id =? 0)%Z && negb (bool_decide (fdc_id ∈ seen_fdc_ids))
      then ((all_results ++ [set_search_tier tier result])%list, {[fdc_id]} ∪ seen_fdc_ids)
      else acc
  | None => acc
  end.

Definition merge_tier (tier : Z) (acc : list Food * gset Z) (results : list Food)
  : list Food * gset Z :=
  fold_left (merge_step tier) results acc.

(** [list.sort] is stable: [x] goes in front of the first element it may
    precede, and the list is filled from its last element. *)
Fixpoint insert_sorted {A} (before : A -> A -> bool) (x : A) (l : list A) : list A :=
  match l with
  | [] => [x]
  | y :: l' => if before x y then x :: y :: l' else y :: insert_sorted before x l'
  end.

Definition stable_sort {A} (before : A -> A -> bool) (l : list A) : list A :=
  fold_right (insert_sorted before) [] l.

(** [key=lambda x: x[1], reverse=True] *)
Definition by_score_desc (x y : Food * Z) : bool := (snd y <=? snd x)%Z.

(** [key=lambda x: (x.get("_search_tier", 999), x.get("fdcId", 0))] *)
Definition by_tier_then_id (x y : Food) : bool :=
  let kx := (default 999%Z (f_search_tier x), default 0%Z (f_fdcId x)) in
  let ky := (default 999%Z (f_search_tier y), default 0%Z (f_fdcId y)) in
  (fst kx <? fst ky)%Z || ((fst kx =? fst ky)%Z && (snd kx <=? snd ky)%Z).

(** The raw results of the tier with the given number, given the four
    lists the client returned. *)
Definition tier_results (t1 t2 t3 t4 : list Food) (tier : Z) : list Food :=
  if (tier =? 1)%Z then t1
  else if (tier =? 2)%Z then t2
  else if (tier =? 3)%Z then t3
  else if (tier =? 4)%Z then t4
  else [].

(** What has been merged after the tagged raw rows [E] were offered:
    ids and rows agree, no id occurs twice, every row is a tagged raw row
    whose id occurs in no row of a smaller tier, and every truthy id that
    was offered has been seen. *)
Definition merged (E : list (Z * Food)) (acc : list Food * gset Z) : Prop :=
  (forall z, z ∈ acc.2 <-> Some z ∈ f_fdcId <$> acc.1)
  /\ NoDup (f_fdcId <$> acc.1)
  /\ (forall c, c ∈ acc.1 ->
        exists tier raw, (tier, raw) ∈ E /\ truthy_id (f_fdcId raw) = true
          /\ c = set_search_tier tier raw
          /\ forall tier' raw', (tier', raw') ∈ E -> (tier' < tier)%Z ->
               f_fdcId raw' <> f_fdcId raw)
  /\ (forall tier raw z, (tier, raw) ∈ E -> f_fdcId raw = Some z -> z <> 0%Z -> z ∈ acc.2).

(** The truthy ids [fdcId] of the rows. *)
Definition truthy_ids (rows : list Food) : gset Z :=
  list_to_set
    (omap (fun r => if truthy_id (f_fdcId r) then f_fdcId r else None) rows).

Definition bind_result {A B} (r : result A) (k : A -> result B) : result B :=
  match r with
  | Returned a => k a
  | Raised e => Raised e
  end.

(** [client_search] is [client.search_food] with the client's state. *)
Definition search_usda_food_multi_tier_comprehensive
    (client_search : string -> Z -> option string -> result (list Food))
    (query : string) (ingredient : option string) : result (list Food) :=
  bind_result (client_search query 30%Z (Some "Foundation,SR Legacy")) (fun tier1_results =>
  let acc := merge_tier 1 ([], ∅) tier1_results in
  bind_result (client_search query 20%Z (Some "Survey (FNDDS)")) (fun tier2_results =>
  let acc := merge_tier 2 acc tier2_results in
  bind_result (client_search query 20%Z (Some "Branded")) (fun tier3_results =>
  let acc := merge_tier 3 acc tier3_results in
  bind_result (client_search query 10%Z None) (fun tier4_results =>
  let acc := merge_tier 4 acc tier4_results in
  let all_results := fst acc in
  if truthy (default "" ingredient) then
    let scored_results :=
      imap (fun idx result =>
              (result, ScoringTool._score_relevance_advanced
                         result (default "" ingredient) idx)) all_results in
    Returned (take 80 (fst <$> stable_sort by_score_desc scored_results))
  else
    Returned (take 80 (stable_sort by_tier_then_id all_results)))))).

End UsdaApi.

(** ** orchestrator_enhanced.py *)

Module Orchestrator.
Import Py PyStr Catalog NutrientMapper MappingTool UsdaApi.

(** A search intent; the orchestrator reads only its query. *)
Record Intent := {
  i_search_query : option string
}.

(** One row returned by [calculate_nutritional_similarity_score]. *)
Record Similarity := {
  s_fdc_id : option Z;
  s_description : option string;
  s_nutritional_similarity_score : option Q
}.

(** The services the orchestrator calls.  Every service takes the number
    of calls made before it, so that two calls with equal arguments may
    answer differently.  The catalog client can raise; the three stages
    backed by the language model catch their own exceptions and always
    return.  A falsy intent, detail record or list is [None] or [[]]. *)
Record World := {
  w_mappings : gmap string Entry;
  w_nutrient_ids : list string;
  w_first_intent : nat -> string -> option Intent;
  w_retry_intent : nat -> string -> Z -> list string -> option Intent;
  w_search_food : nat -> string -> Z -> option string -> result (list Food);
  w_verify_semantic : nat -> string -> list Food -> list Food;
  w_nutritional : nat -> string -> list Food -> list Similarity;
  w_food_details : nat -> option Z -> result (option FoodData)
}.

Inductive Event : Type :=
| CallPlan (attempt : Z)
| CallSearch (query : string)
| CallSemantic
| CallNutritional
| CallDetails (fdc_id : option Z)
| LogException (ingredient : string) (e : exn).

(** [self.stats] *)
Record Stats := {
  st_total : Z;
  st_successful : Z;
  st_failed : Z;
  st_from_mappings : Z;
  st_from_search : Z;
  st_no_mapping_found : Z
}.

Record State := {
  tick : nat;
  events : list Event;
  stats : Stats
}.

(** Computations that read and write the state and may raise. *)
Definition M (A : Type) : Type := State -> result A * State.

Definition ret {A} (a : A) : M A := fun st => (Returned a, st).

Definition raise {A} (e : exn) : M A := fun st => (Raised e, st).

Definition bind {A B} (m : M A) (k : A -> M B) : M B :=
  fun st =>
    match m st with
    | (Returned a, st') => k a st'
    | (Raised e, st') => (Raised e, st')
    end.

(** [try: body except Exception as e: handler(e)] *)
Definition try_except {A} (body : M A) (handler : exn -> M A) : M A :=
  fun st =>
    match body st with
    | (Returned a, st') => (Returned a, st')
    | (Raised e, st') => handler e st'
    end.

Declare Scope orch_scope.
Delimit Scope orch_scope with orch.
Notation "'let*' x ':=' m 'in' k" := (bind m (fun x => k))
  (at level 10, x name, m at level 100, k at level 200, only parsing) : orch_scope.
Notation "m1 ';;' m2" := (bind m1 (fun _ => m2))
  (at level 100, m2 at level 200, right associativity, only parsing) : orch_scope.
Open Scope orch_scope.

Definition lift {A} (r : result A) : M A := fun st => (r, st).

(** Record one service call and return its sequence number. *)
Definition call (e : Event) : M nat :=
  fun st =>
    (Returned (tick st),
     {| tick := S (tick st); events := (events st ++ [e])%list; stats := stats st |}).

Definition log (e : Event) : M unit :=
  fun st =>
    (Returned tt,
     {| tick := tick st; events := (events st ++ [e])%list; stats := stats st |}).

Definition modify_stats (f : Stats -> Stats) : M unit :=
  fun st =>
    (Returned tt, {| tick := tick st; events := events st; stats := f (stats st) |}).

Definition bump_successful (s : Stats) : Stats :=
  {| st_total := st_total s; st_successful := st_successful s + 1;
     st_failed := st_failed s; st_from_mappings := st_from_mappings s;
     st_from_search := st_from_search s;
     st_no_mapping_found := st_no_mapping_found s |}.

Definition bump_failed (s : Stats) : Stats :=
  {| st_total := st_total s; st_successful := st_successful s;
     st_failed := st_failed s + 1; st_from_mappings := st_from_mappings s;
     st_from_search := st_from_search s;
     st_no_mapping_found := st_no_mapping_found s |}.

Definition bump_from_mappings (s : Stats) : Stats :=
  {| st_total := st_total s; st_successful := st_successful s;
     st_failed := st_failed s; st_from_mappings := st_from_mappings s + 1;
     st_from_search := st_from_search s;
     st_no_mapping_found := st_no_mapping_found s |}.

Definition bump_from_search (s : Stats) : Stats :=
  {| st_total := st_total s; st_successful := st_successful s;
     st_failed := st_failed s; st_from_mappings := st_from_mappings s;
     st_from_search := st_from_search s + 1;
     st_no_mapping_found := st_no_mapping_found s |}.

Definition bump_no_mapping_found (s : Stats) : Stats :=
  {| st_total := st_total s; st_successful := st_successful s;
     st_failed := st_failed s; st_from_mappings := st_from_mappings s;
     st_from_search := st_from_search s;
     st_no_mapping_found := st_no_mapping_found s + 1 |}.

Definition set_total (n : Z) (s : Stats) : Stats :=
  {| st_total := n; st_successful := st_successful s;
     st_failed := st_failed s; st_from_mappings := st_from_mappings s;
     st_from_search := st_from_search s;
     st_no_mapping_found := st_no_mapping_found s |}.

(** *** The services, as the orchestrator calls them *)

Definition get_usda_food_details (w : World) (fdc_id : option Z) : M (option FoodData) :=
  let* t := call (CallDetails fdc_id) in
  lift (w_food_details w t fdc_id).

Definition search_comprehensive (w : World) (query ingredient : string) : M (list Food) :=
  let* t := call (CallSearch query) in
  lift (search_usda_food_multi_tier_comprehensive (w_search_food w t) query (Some ingredient)).

Definition verify_semantic_match (w : World) (ingredient : string)
    (usda_results : list Food) : M (list Food) :=
  let* t := call CallSemantic in
  ret (w_verify_semantic w t ingredient usda_results).

Definition calculate_nutritional_similarity_score (w : World) (ingredient : string)
    (usda_results : list Food) : M (list Similarity) :=
  let* t := call CallNutritional in
  ret (w_nutritional w t ingredient usda_results).

(** Step 2 of an attempt: the cached or generated intent on the first
    attempt, the retry strategy afterwards; its query, or the ingredient. *)
Definition planned_query (w : World) (ingredient : string) (attempt : Z)
    (previous_queries : list string) (t : nat) : string :=
  let intent :=
    if (attempt =? 1)%Z then w_first_intent w t ingredient
    else w_retry_intent w t ingredient attempt previous_queries in
  match intent with
  | Some i => default ingredient (i_search_query i)
  | None => ingredient
  end.

Definition plan_query (w : World) (ingredient : string) (attempt : Z)
    (previous_queries : list string) : M string :=
  let* t := call (CallPlan attempt) in
  ret (planned_query w ingredient attempt previous_queries t).

(** *** Records *)

(** [round(elapsed_time, 2)]: a number read from the clock. *)
Inductive Seconds : Type := elapsed_time.

(** The part of [result_metadata] that reaches a result record.  The key
    ["processing_time_seconds"] is absent until a return site assigns
    it. *)
Record Metadata := {
  m_ingredient : string;
  m_flag : string;
  m_mapping_status : string;
  m_semantic_match_score : option Q;
  m_nutritional_similarity_score : option Q;
  m_retry_attempts : Z;
  m_search_queries_used : list string;
  m_processing_time_seconds : option Seconds
}.

Definition initial_metadata (ingredient : string) : Metadata :=
  {| m_ingredient := ingredient;
     m_flag := "SUCCESS";
     m_mapping_status := "";
     m_semantic_match_score := None;
     m_nutritional_similarity_score := None;
     m_retry_attempts := 0;
     m_search_queries_used := [];
     m_processing_time_seconds := None |}.

(** [result_metadata["processing_time_seconds"] = round(elapsed_time, 2)] *)
Definition with_processing_time (md : Metadata) : Metadata :=
  {| m_ingredient := m_ingredient md;
     m_flag := m_flag md;
     m_mapping_status := m_mapping_status md;
     m_semantic_match_score := m_semantic_match_score md;
     m_nutritional_similarity_score := m_nutritional_similarity_score md;
     m_retry_attempts := m_retry_attempts md;
     m_search_queries_used := m_search_queries_used md;
     m_processing_time_seconds := Some elapsed_time |}.

(** The start of an iteration: the attempt number and the query used. *)
Definition begin_attempt (md : Metadata) (attempt : Z) (search_query : string) : Metadata :=
  {| m_ingredient := m_ingredient md;
     m_flag := m_flag md;
     m_mapping_status := m_mapping_status md;
     m_semantic_match_score := m_semantic_match_score md;
     m_nutritional_similarity_score := m_nutritional_similarity_score md;
     m_retry_attempts := attempt;
     m_search_queries_used := (m_search_queries_used md ++ [search_query])%list;
     m_processing_time_seconds := m_processing_time_seconds md |}.

(** [flag = "NO_MAPPING_FOUND"] with a mapping status. *)
Definition mark_failed (md : Metadata) (mapping_status : string) : Metadata :=
  {| m_ingredient := m_ingredient md;
     m_flag := "NO_MAPPING_FOUND";
     m_mapping_status := mapping_status;
     m_semantic_match_score := m_semantic_match_score md;
     m_nutritional_similarity_score := m_nutritional_similarity_score md;
     m_retry_attempts := m_retry_attempts md;
     m_search_queries_used := m_search_queries_used md;
     m_processing_time_seconds := m_processing_time_seconds md |}.

Definition with_semantic (md : Metadata) (score : Q) : Metadata :=
  {| m_ingredient := m_ingredient md;
     m_flag := m_flag md;
     m_mapping_status := m_mapping_status md;
     m_semantic_match_score := Some score;
     m_nutritional_similarity_score := m_nutritional_similarity_score md;
     m_retry_attempts := m_retry_attempts md;
     m_search_queries_used := m_search_queries_used md;
     m_processing_time_seconds := m_processing_time_seconds md |}.

Definition with_nutritional (md : Metadata) (score : Q) : Metadata :=
  {| m_ingredient := m_ingredient md;
     m_flag := m_flag md;
     m_mapping_status := m_mapping_status md;
     m_semantic_match_score := m_semantic_match_score md;
     m_nutritional_similarity_score := Some score;
     m_retry_attempts := m_retry_attempts md;
     m_search_queries_used := m_search_queries_used md;
     m_processing_time_seconds := m_processing_time_seconds md |}.

(** The result record of one ingredient.  A field is [None] when the
    value is [None] or the key is absent. *)
Record ResultRecord := {
  r_ingredient : string;
  r_fdc_id : option Z;
  r_description : option string;
  r_data_type : option string;
  r_brand_owner : option string;
  r_source : option string;
  r_flag : string;
  r_mapping_status : string;
  r_semantic_match_score : option Q;
  r_nutritional_similarity_score : option Q;
  r_retry_attempts : Z;
  r_search_queries_used : option string;
  r_nutrients : list (string * NutrientData);
  r_standardized_nutrients : gmap string (option NutrientData);
  r_processing_time_seconds : option Seconds
}.

Definition _create_failed_result (metadata : Metadata) : ResultRecord :=
  {| r_ingredient := m_ingredient metadata;
     r_fdc_id := None;
     r_description := None;
     r_data_type := None;
     r_brand_owner := None;
     r_source := None;
     r_flag := m_flag metadata;
     r_mapping_status := m_mapping_status metadata;
     r_semantic_match_score := m_semantic_match_score metadata;
     r_nutritional_similarity_score := m_nutritional_similarity_score metadata;
     r_retry_attempts := m_retry_attempts metadata;
     r_search_queries_used := Some (String.concat ", " (m_search_queries_used metadata));
     r_nutrients := [];
     r_standardized_nutrients := ∅;
     r_processing_time_seconds := m_processing_time_seconds metadata |}.

(** [nutrition_data] after the curated fast path has filled it in. *)
Definition curated_record (ingredient : string) (nutrition_data : Nutrition) : ResultRecord :=
  {| r_ingredient := ingredient;
     r_fdc_id := nu_fdc_id nutrition_data;
     r_description := Some (nu_description nutrition_data);
     r_data_type := Some (nu_data_type nutrition_data);
     r_brand_owner := Some (nu_brand_owner nutrition_data);
     r_source := Some "curated_mapping";
     r_flag := "HIGH_CONFIDENCE";
     r_mapping_status := "curated_mapping";
     r_semantic_match_score := Some 100%Q;
     r_nutritional_similarity_score := Some 100%Q;
     r_retry_attempts := 0;
     r_search_queries_used := None;
     r_nutrients := nu_nutrients nutrition_data;
     r_standardized_nutrients := nu_standardized_nutrients nutrition_data;
     r_processing_time_seconds := Some elapsed_time |}.

(** [nutrition_data] after a search attempt has filled it in. *)
Definition search_record (ingredient : string) (nutrition_data : Nutrition)
    (flag mapping_status : string) (semantic : Q) (nutritional : option Q)
    (attempt : Z) (queries : list string) : ResultRecord :=
  {| r_ingredient := ingredient;
     r_fdc_id := nu_fdc_id nutrition_data;
     r_description := Some (nu_description nutrition_data);
     r_data_type := Some (nu_data_type nutrition_data);
     r_brand_owner := Some (nu_brand_owner nutrition_data);
     r_source := Some "search";
     r_flag := flag;
     r_mapping_status := mapping_status;
     r_semantic_match_score := Some semantic;
     r_nutritional_similarity_score := nutritional;
     r_retry_attempts := attempt;
     r_search_queries_used := Some (String.concat ", " queries);
     r_nutrients := nu_nutrients nutrition_data;
     r_standardized_nutrients := nu_standardized_nutrients nutrition_data;
     r_processing_time_seconds := Some elapsed_time |}.

(** *** The decision on the best semantic score *)

Definition max_retries : Z := 2.

(** What the [if]/[elif] chain on [best_semantic_score] assigns. *)
Record Decision := {
  proceed_to_step4 : bool;
  allow_mapping : bool;
  nutritional_threshold : Q
}.

Definition semantic_decision (best_semantic_score : Q) : Decision :=
  if Qle_bool 90 best_semantic_score then
    {| proceed_to_step4 := false; allow_mapping := true; nutritional_threshold := 80 |}
  else if Qle_bool 80 best_semantic_score then
    {| proceed_to_step4 := true; allow_mapping := true; nutritional_threshold := 80 |}
  else if Qle_bool 65 best_semantic_score then
    {| proceed_to_step4 := true; allow_mapping := true; nutritional_threshold := 90 |}
  else
    {| proceed_to_step4 := false; allow_mapping := false; nutritional_threshold := 80 |}.

(** The confidence level chosen once the nutritional score has passed the
    threshold: the flag and the mapping status. *)
Definition confidence_level (best_semantic_score best_nutrition_score : Q)
  : string * string :=
  if Qle_bool 90 best_nutrition_score then
    if Qle_bool 80 best_semantic_score
    then ("HIGH_CONFIDENCE", "search_verified_high")
    else ("MID_CONFIDENCE", "search_verified_mid_semantic_low")
  else if Qle_bool 80 best_nutrition_score then
    ("MID_CONFIDENCE", "search_verified_mid")
  else
    ("LOW_CONFIDENCE", "search_low_confidence").

(** [r.get("fdcId") or r.get("fdc_id")] *)
Definition fdc_id_of (r : Food) : option Z :=
  if truthy_id (f_fdcId r) then f_fdcId r else f_fdc_id r.

(** The first truthy id among the other verified results. *)
Definition first_alternative_id (others : list Food) : option Z :=
  match find (fun alt_result => truthy_id (fdc_id_of alt_result)) others with
  | Some alt_result => fdc_id_of alt_result
  | None => None
  end.

(** The loop that fetches the details of the other verified results until
    one is found; it yields the record found, if any. *)
Fixpoint fetch_alternatives (w : World) (fdc_id : option Z) (others : list Food)
  : M (option FoodData) :=
  match others with
  | [] => ret None
  | alt_result :: others' =>
      let alt_fdc_id := fdc_id_of alt_result in
      if truthy_id alt_fdc_id && negb (bool_decide (alt_fdc_id = fdc_id)) then
        let* food_data := get_usda_food_details w alt_fdc_id in
        match food_data with
        | Some fd => ret (Some fd)
        | None => fetch_alternatives w fdc_id others'
        end
      else fetch_alternatives w fdc_id others'
  end.

(** The local variables that survive an iteration of the attempt loop.
    [extraction_start] is bound once one of its assignments has run. *)
Record Locals := {
  result_metadata : Metadata;
  previous_queries : list string;
  extraction_start_bound : bool
}.

(** How an iteration ends: with [return], or by going on to the next
    iteration ([continue], or the end of the loop body). *)
Inductive Step : Type :=
| Return (r : ResultRecord)
| Next (locals : Locals).

(** [if attempt < max_retries: continue], else mark the metadata, count
    the failure and return the failed result.  [on_fail] is the metadata
    as the return site leaves it: every site but the one of the status
    nutritional_mismatch assigns the processing time before it returns. *)
Definition retry_or_fail (attempt : Z) (on_retry : Locals) (on_fail : Metadata) : M Step :=
  if (attempt <? max_retries)%Z then ret (Next on_retry)
  else
    modify_stats bump_no_mapping_found ;;
    ret (Return (_create_failed_result on_fail)).

Definition with_previous (locals : Locals) (md : Metadata) (search_query : string)
  : Locals :=
  {| result_metadata := md;
     previous_queries := (previous_queries locals ++ [search_query])%list;
     extraction_start_bound := extraction_start_bound locals |}.

Definition with_metadata (locals : Locals) (md : Metadata) : Locals :=
  {| result_metadata := md;
     previous_queries := previous_queries locals;
     extraction_start_bound := extraction_start_bound locals |}.

Definition bind_extraction_start (locals : Locals) : Locals :=
  {| result_metadata := result_metadata locals;
     previous_queries := previous_queries locals;
     extraction_start_bound := true |}.

(** Steps 4 and 5 for a semantic score in [65, 90). *)
Definition nutritional_path (w : World) (ingredient : string) (attempt : Z)
    (locals : Locals) (md : Metadata) (search_query : string)
    (verified_results : list Food) (best_semantic_score : Q) (d : Decision) : M Step :=
  let* similarity_results :=
    calculate_nutritional_similarity_score w ingredient verified_results in
  match similarity_results with
  | [] =>
      retry_or_fail attempt (with_metadata locals md)
        (with_semantic (mark_failed md "nutritional_mismatch") best_semantic_score)
  | best_match :: _ =>
      let best_nutrition_score :=
        default 0%Q (s_nutritional_similarity_score best_match) in
      if allow_mapping d && Qle_bool (nutritional_threshold d) best_nutrition_score then
        let '(flag, mapping_status) :=
          confidence_level best_semantic_score best_nutrition_score in
        let fdc_id := s_fdc_id best_match in
        let* food_data := get_usda_food_details w fdc_id in
        match food_data with
        | Some fd =>
            let nutrition_data := extract_nutrition_data (w_nutrient_ids w) fd in
            if extraction_start_bound locals then
              modify_stats bump_from_search ;;
              ret (Return (search_record ingredient nutrition_data flag mapping_status
                             best_semantic_score (Some best_nutrition_score) attempt
                             (m_search_queries_used md)))
            else raise (UnboundLocalError "extraction_start")
        | None =>
            let md' :=
              with_nutritional
                (with_semantic (mark_failed md "food_data_not_found") best_semantic_score)
                best_nutrition_score in
            retry_or_fail attempt (with_previous locals md' search_query)
              (with_processing_time md')
        end
      else ret (Next (with_metadata locals md))
  end.

(** Step 5 alone, for a semantic score of at least 90.  [other_results]
    is [verified_results[1:]]. *)
Definition direct_path (w : World) (ingredient : string) (attempt : Z)
    (locals : Locals) (md : Metadata) (search_query : string)
    (best_semantic_result : Food) (other_results : list Food)
    (best_semantic_score : Q) : M Step :=
  let locals := bind_extraction_start locals in
  let fdc_id :=
    if truthy_id (fdc_id_of best_semantic_result) then fdc_id_of best_semantic_result
    else first_alternative_id other_results in
  if negb (truthy_id fdc_id) then
    retry_or_fail attempt (with_previous locals md search_query)
      (with_processing_time
         (with_semantic (mark_failed md "fdc_id_not_found") best_semantic_score))
  else
    let* food_data := get_usda_food_details w fdc_id in
    let* food_data :=
      match food_data with
      | Some fd => ret (Some fd)
      | None => fetch_alternatives w fdc_id other_results
      end in
    match food_data with
    | None =>
        retry_or_fail attempt (with_previous locals md search_query)
          (with_processing_time
             (with_semantic (mark_failed md "food_data_not_found") best_semantic_score))
    | Some fd =>
        let nutrition_data := extract_nutrition_data (w_nutrient_ids w) fd in
        modify_stats bump_from_search ;;
        ret (Return (search_record ingredient nutrition_data
                       "HIGH_CONFIDENCE" "search_verified_semantic_high"
                       best_semantic_score None attempt (m_search_queries_used md)))
    end.

(** One iteration of [for attempt in range(1, max_retries + 1)]. *)
Definition attempt_body (w : World) (ingredient : string) (attempt : Z)
    (locals : Locals) : M Step :=
  let* search_query := plan_query w ingredient attempt (previous_queries locals) in
  let md := begin_attempt (result_metadata locals) attempt search_query in
  let* search_results := search_comprehensive w search_query ingredient in
  match search_results with
  | [] =>
      retry_or_fail attempt (with_metadata locals md)
        (with_processing_time (mark_failed md "no_search_results"))
  | _ :: _ =>
  let* verified_results := verify_semantic_match w ingredient search_results in
  match verified_results with
  | [] =>
      retry_or_fail attempt (with_metadata locals md)
        (with_processing_time (mark_failed md "semantic_mismatch"))
  | best_semantic_result :: other_results =>
  let best_semantic_score := default 0%Q (f_semantic_match_score best_semantic_result) in
  let d := semantic_decision best_semantic_score in
  (* the last branch of the chain returns or continues on its own *)
  if Qle_bool 65 best_semantic_score then
    if proceed_to_step4 d then
      nutritional_path w ingredient attempt locals md search_query
        verified_results best_semantic_score d
    else
      direct_path w ingredient attempt locals md search_query
        best_semantic_result other_results best_semantic_score
  else
    let md' :=
      with_semantic (mark_failed md "semantic_score_too_low") best_semantic_score in
    retry_or_fail attempt (with_previous locals md' search_query)
      (with_processing_time md')
  end
  end.

(** The attempt loop and the code after it. *)
Fixpoint attempts (w : World) (ingredient : string) (remaining : nat) (attempt : Z)
    (locals : Locals) : M ResultRecord :=
  match remaining with
  | O =>
      modify_stats bump_no_mapping_found ;;
      (* the processing time is assigned to the result once it is built *)
      ret (_create_failed_result
             (with_processing_time
                (mark_failed (result_metadata locals) "all_retries_exhausted")))
  | S remaining' =>
      let* step := attempt_body w ingredient attempt locals in
      match step with
      | Return r => ret r
      | Next locals' => attempts w ingredient remaining' (attempt + 1) locals'
      end
  end.

(** The mapping statuses of failed results. *)
Definition failure_statuses : list string :=
  [ "no_search_results"; "semantic_mismatch"; "semantic_score_too_low";
    "nutritional_mismatch"; "food_data_not_found"; "fdc_id_not_found";
    "all_retries_exhausted" ].

(** The records the pipeline can return for an ingredient: the curated
    record; the record of a direct mapping, for a semantic score of at
    least 90; the record of a mapping that passed the nutritional gate,
    for a semantic score in [65, 90) and a nutritional score that reaches
    the threshold; and the failed results. *)
Inductive emitted (w : World) (ingredient : string) : ResultRecord -> Prop :=
| emitted_curated (fd : FoodData) :
    emitted w ingredient
      (curated_record ingredient (extract_nutrition_data (w_nutrient_ids w) fd))
| emitted_direct (fd : FoodData) (s : Q) (attempt : Z) (queries : list string) :
    Qle_bool 90 s = true ->
    emitted w ingredient
      (search_record ingredient (extract_nutrition_data (w_nutrient_ids w) fd)
         "HIGH_CONFIDENCE" "search_verified_semantic_high" s None attempt queries)
| emitted_gated (fd : FoodData) (s n : Q) (attempt : Z) (queries : list string) :
    Qle_bool 65 s = true ->
    Qle_bool 90 s = false ->
    Qle_bool (nutritional_threshold (semantic_decision s)) n = true ->
    emitted w ingredient
      (search_record ingredient (extract_nutrition_data (w_nutrient_ids w) fd)
         (fst (confidence_level s n)) (snd (confidence_level s n))
         s (Some n) attempt queries)
| emitted_failed (md : Metadata) :
    m_ingredient md = ingredient ->
    m_flag md = "NO_MAPPING_FOUND" ->
    In (m_mapping_status md) failure_statuses ->
    emitted w ingredient (_create_failed_result md).

(** What the end of an iteration must satisfy: a returned record is one
    of the records above, and the metadata carried on is still that of
    the ingredient. *)
Definition step_ok (w : World) (ingredient : string) (res : result Step) : Prop :=
  match res with
  | Returned (Return r) => emitted w ingredient r
  | Returned (Next locals) => m_ingredient (result_metadata locals) = ingredient
  | Raised _ => True
  end.

(** The number of events that satisfy [p]. *)
Definition count_events (p : Event -> bool) (st : State) : nat :=
  length (List.filter p (events st)).

Definition is_gate_call (e : Event) : bool :=
  match e with CallNutritional => true | _ => false end.

Definition is_details_call (e : Event) : bool :=
  match e with CallDetails _ => true | _ => false end.

Definition is_logged_exception (e : Event) : bool :=
  match e with LogException _ _ => true | _ => false end.

(** Whether the best row of the nutritional gate reaches the threshold. *)
Definition gate_accepts (threshold : Q) (similarity_results : list Similarity) : bool :=
  match similarity_results with
  | [] => false
  | best_match :: _ =>
      Qle_bool threshold (default 0%Q (s_nutritional_similarity_score best_match))
  end.

(** A computation step from [st] to [st'] is quiet when it logs no
    exception and leaves the total of the statistics alone. *)
Definition quiet (st st' : State) : Prop :=
  count_events is_logged_exception st' = count_events is_logged_exception st
  /\ st_total (stats st') = st_total (stats st).

Definition fetch_nutrition_for_ingredient (w : World) (ingredient : string)
  : M ResultRecord :=
  let result_metadata := initial_metadata ingredient in
  let search_path (bound : bool) :=
    attempts w ingredient (Z.to_nat max_retries) 1
      {| result_metadata := result_metadata; previous_queries := [];
         extraction_start_bound := bound |} in
  match search_mappings ingredient (w_mappings w) with
  | Some mapping =>
      let fdc_id := Some (e_fdc_id mapping) in
      let* food_data := get_usda_food_details w fdc_id in
      match food_data with
      | Some fd =>
          let nutrition_data := extract_nutrition_data (w_nutrient_ids w) fd in
          modify_stats bump_from_mappings ;;
          ret (curated_record ingredient nutrition_data)
      | None => search_path true
      end
  | None => search_path false
  end.

(** *** Saving the results ([utils/data_saver_enhanced.py]) *)

(** The savers that [save_results_enhanced] routes to: [save_csv_enhanced],
    [save_csv_debug], [save_json_debug], [save_json_clean] and
    [save_json_batch].  Each of them answers [False] for an empty list, if
    it looks at the list at all, and runs the rest of its body under
    [try: ... except Exception as e: ... return False]: none of them
    raises. *)
Inductive Saver : Type :=
| csv_enhanced
| csv_debug
| json_debug
| json_clean
| json_batch.

(** [save_results_enhanced(results, output_path, format, mode)] as its
    caller sees it: the saver that ran, or the [ValueError] of a format
    that is not supported. *)
Definition save_results_enhanced (format mode : string) : result Saver :=
  let format :=
    if String.eqb format "json" then
      if String.eqb mode "debug" then "json-debug" else "json"
    else if String.eqb format "csv" then
      if String.eqb mode "debug" then "csv-debug" else "csv-standard"
    else format in
  if String.eqb format "csv-standard" || String.eqb format "csv" then
    Returned csv_enhanced
  else if String.eqb format "csv-debug" then Returned csv_debug
  else if String.eqb format "json" || String.eqb format "json-debug" then
    Returned json_debug
  else if String.eqb format "json-clean" then Returned json_clean
  else if String.eqb format "json-batch" then Returned json_batch
  else
    Raised (ValueError
      ("Unsupported format: " +:+ format
       +:+ ". Use 'csv', 'csv-debug', 'json', 'json-clean', 'json-debug', or 'json-batch'")).

(** *** The batch loop *)

Definition in_list (x : string) (xs : list string) : bool :=
  existsb (String.eqb x) xs.

(** The lists [results], [failed] and [processing_times]. *)
Definition Lists : Type :=
  (list ResultRecord * list string * list (option Seconds))%type.

(** The [try] statement in the body of
    [for i, ingredient in enumerate(ingredients, 1)].  The processing time
    is [nutrition_data.get("processing_time_seconds", 0)]: the key is in
    every record, so the value is the one of the record, [None] included. *)
Definition process_one (w : World) (ingredient : string) (lists : Lists) : M Lists :=
  let '(results, failed, processing_times) := lists in
  try_except
    (let* nutrition_data := fetch_nutrition_for_ingredient w ingredient in
     let processing_time := r_processing_time_seconds nutrition_data in
     let processing_times := (processing_times ++ [processing_time])%list in
     let flag := r_flag nutrition_data in
     if in_list flag ["HIGH_CONFIDENCE"; "MID_CONFIDENCE"] then
       modify_stats bump_successful ;;
       ret ((results ++ [nutrition_data])%list, failed, processing_times)
     else if String.eqb flag "LOW_CONFIDENCE" then
       modify_stats bump_failed ;;
       ret ((results ++ [nutrition_data])%list, (failed ++ [ingredient])%list,
            processing_times)
     else
       modify_stats bump_failed ;;
       ret ((results ++ [nutrition_data])%list, (failed ++ [ingredient])%list,
            processing_times))
    (fun e =>
       log (LogException ingredient e) ;;
       modify_stats bump_failed ;;
       ret (results, (failed ++ [ingredient])%list, processing_times)).

(** The loop from the index [i] on.  After the [try] statement, and
    outside it, the results are saved at every tenth index. *)
Fixpoint process_loop (w : World) (format output_mode : string)
    (ingredients : list string) (i : Z) (lists : Lists) : M Lists :=
  match ingredients with
  | [] => ret lists
  | ingredient :: ingredients' =>
      let* lists' := process_one w ingredient lists in
      (if (i mod 10 =? 0)%Z then
         let* _ := lift (save_results_enhanced format output_mode) in ret tt
       else ret tt) ;;
      process_loop w format output_mode ingredients' (i + 1) lists'
  end.

(** [ingredients[start_from:]] when [start_from > 0]. *)
Definition slice_from (start_from : Z) (ingredients : list string) : list string :=
  if (0 <? start_from)%Z then drop (Z.to_nat start_from) ingredients else ingredients.

(** [ingredients[:limit]] when [limit] is given and not zero. *)
Definition slice_to (limit : option Z) (ingredients : list string) : list string :=
  match limit with
  | Some n =>
      if (n =? 0)%Z then ingredients
      else if (0 <? n)%Z then take (Z.to_nat n) ingredients
      else take (length ingredients - Z.to_nat (- n)) ingredients
  | None => ingredients
  end.

Record Summary := {
  sum_stats : Stats;
  sum_results : list ResultRecord;
  sum_failed_ingredients : list string
}.

(** What the end of a run meets outside the orchestrator: how opening and
    writing the file of the failed ingredients ends, and the time that the
    clock gives for the whole run. *)
Record Ending := {
  failed_file_written : result unit;
  total_time : Q
}.

(** [sum(processing_times)]: adding [None] to a number raises. *)
Fixpoint sum_of (processing_times : list (option Seconds)) : result Seconds :=
  match processing_times with
  | [] => Returned elapsed_time
  | Some _ :: processing_times' => sum_of processing_times'
  | None :: _ => Raised TypeError
  end.

(** [_print_summary] divides by [self.stats['total']]; then, if there are
    processing times, it adds them up and divides by [total_time] for the
    throughput. *)
Definition _print_summary (total_time : Q) (processing_times : list (option Seconds))
  : M unit :=
  fun st =>
    if (st_total (stats st) =? 0)%Z then (Raised ZeroDivisionError, st)
    else
      match processing_times with
      | [] => (Returned tt, st)
      | _ :: _ =>
          match sum_of processing_times with
          | Returned _ =>
              if Qeq_bool total_time 0 then (Raised ZeroDivisionError, st)
              else (Returned tt, st)
          | Raised e => (Raised e, st)
          end
      end.

(** The names and the contents of the output files are not modelled; what
    is, is whether saving them raises. *)
Definition process_ingredients (w : World) (ending : Ending) (ingredients : list string)
    (format : string) (limit : option Z) (start_from : Z) (output_mode : string)
  : M Summary :=
  let ingredients := slice_to limit (slice_from start_from ingredients) in
  modify_stats (set_total (Z.of_nat (length ingredients))) ;;
  let* lists := process_loop w format output_mode ingredients 1 ([], [], []) in
  let '(results, failed, processing_times) := lists in
  (match results with
   | [] => ret tt
   | _ :: _ => let* _ := lift (save_results_enhanced format output_mode) in ret tt
   end) ;;
  (match failed with
   | [] => ret tt
   | _ :: _ => lift (failed_file_written ending)
   end) ;;
  _print_summary (total_time ending) processing_times ;;
  fun st =>
    (Returned {| sum_stats := stats st;
                 sum_results := results;
                 sum_failed_ingredients := failed |}, st).

(** The code after the loop raises nothing: the file of the failed
    ingredients, if there is one to write, is written; every record has a
    processing time; and the clock has moved if there is a record. *)
Definition ends_well (ending : Ending) (results : list ResultRecord)
    (failed : list string) : Prop :=
  (failed = [] \/ failed_file_written ending = Returned tt)
  /\ Forall (fun r => r_processing_time_seconds r <> None) results
  /\ (results = [] \/ Qeq_bool (total_time ending) 0 = false).

(** The record without a processing time is the failed result of the
    status nutritional_mismatch. *)
Definition timed (r : ResultRecord) : Prop :=
  r_processing_time_seconds r = None <-> r_mapping_status r = "nutritional_mismatch".

(** The end of an iteration, as to the processing time: a returned record
    is timed, and the metadata carried on has no processing time yet. *)
Definition step_timed (res : result Step) : Prop :=
  match res with
  | Returned (Return r) => timed r
  | Returned (Next locals) => m_processing_time_seconds (result_metadata locals) = None
  | Raised _ => True
  end.

Definition initial_state : State :=
  {| tick := 0;
     events := [];
     stats := {| st_total := 0; st_successful := 0; st_failed := 0;
                 st_from_mappings := 0; st_from_search := 0;
                 st_no_mapping_found := 0 |} |}.

End Orchestrator.

(** ** Sample catalogs and services *)

Module Samples.
Import Py PyStr Catalog NutrientMapper MappingTool UsdaApi Orchestrator.

Definition cinnamon : Food :=
  {| f_fdcId := Some 171320%Z; f_fdc_id := None;
     f_description := Some "Spices, cinnamon, ground";
     f_dataType := Some "SR Legacy";
     f_foodCategory := Some (CategoryStr "Spices and Herbs");
     f_search_tier := None; f_semantic_match_score := None |}.

Definition cinnamon_sticks : Food :=
  {| f_fdcId := Some 2345678%Z; f_fdc_id := None;
     f_description := Some "Cinnamon sticks";
     f_dataType := Some "Branded";
     f_foodCategory := Some (CategoryStr "Spices and Herbs");
     f_search_tier := None; f_semantic_match_score := None |}.

Definition scored (score : Q) (f : Food) : Food :=
  {| f_fdcId := f_fdcId f; f_fdc_id := f_fdc_id f;
     f_description := f_description f; f_dataType := f_dataType f;
     f_foodCategory := f_foodCategory f; f_search_tier := f_search_tier f;
     f_semantic_match_score := Some score |}.

Definition cinnamon_detail : FoodData :=
  {| d_fdcId := Some 171320%Z;
     d_description := Some "Spices, cinnamon, ground";
     d_dataType := Some "SR Legacy";
     d_brandOwner := None;
     d_foodNutrients :=
       [ {| n_nested := Some (Some "Energy", Some "kcal");
            n_name := None; n_unitName := None; n_amount := Some (247 # 1)%Q |};
         {| n_nested := Some (Some "Protein", Some "g");
            n_name := None; n_unitName := None; n_amount := Some (399 # 100)%Q |} ] |}.

Definition cinnamon_store : gmap string Entry :=
  {[ "cinnamon" := {| e_fdc_id := 171320; e_description := "Spices, cinnamon, ground";
                      e_data_type := "SR Legacy"; e_verified := true; e_notes := "" |} ]}.

(** A world with one catalog item: the first tier finds it, the semantic
    verifier gives it the score [semantic], the nutritional gate the score
    [nutritional], and the detail endpoint answers [details]. *)
Definition world_of (mappings : gmap string Entry) (semantic nutritional : Q)
    (details : result (option FoodData)) : World :=
  {| w_mappings := mappings;
     w_nutrient_ids := ["nutrient-calories-energy"; "nutrient-protein"; "nutrient-zinc"];
     w_first_intent := fun _ _ => None;
     w_retry_intent := fun _ ingredient _ _ =>
       Some {| i_search_query := Some (ingredient ++ " raw") |};
     w_search_food := fun _ _ _ data_type_filter =>
       Returned (match data_type_filter with
                 | Some "Foundation,SR Legacy" => [cinnamon]
                 | _ => []
                 end);
     w_verify_semantic := fun _ _ usda_results => scored semantic <$> take 3 usda_results;
     w_nutritional := fun _ _ _ =>
       [ {| s_fdc_id := Some 171320%Z;
            s_description := Some "Spices, cinnamon, ground";
            s_nutritional_similarity_score := Some nutritional |} ];
     w_food_details := fun _ _ => details |}.


(** A run whose files are written and that takes a while. *)
Definition good_ending : Ending :=
  {| failed_file_written := Returned tt; total_time := 3 |}.

End Samples.

(** ** Bookkeeping of the orchestrator *)

Module Accounting.
Import Py PyStr Catalog NutrientMapper MappingTool UsdaApi Orchestrator.

Definition is_plan_call (e : Event) : bool :=
  match e with CallPlan _ => true | _ => false end.

Definition is_search_call (e : Event) : bool :=
  match e with CallSearch _ => true | _ => false end.

Definition is_semantic_call (e : Event) : bool :=
  match e with CallSemantic => true | _ => false end.

(** The statistics once the record [r] has been returned for an
    ingredient: the counter of its source, or the counter of the
    ingredients without a mapping, has gone up by one. *)
Definition counted_record (s : Stats) (r : ResultRecord) : Stats :=
  match r_source r with
  | Some source =>
      if String.eqb source "curated_mapping" then bump_from_mappings s
      else bump_from_search s
  | None => bump_no_mapping_found s
  end.

Definition counted_step (s : Stats) (res : result Step) : Stats :=
  match res with
  | Returned (Return r) => counted_record s r
  | _ => s
  end.

Definition counted_fetch (s : Stats) (res : result ResultRecord) : Stats :=
  match res with
  | Returned r => counted_record s r
  | Raised _ => s
  end.

(** The statistics of a freshly constructed orchestrator. *)
Definition fresh (s : Stats) : Prop :=
  st_successful s = 0%Z /\ st_failed s = 0%Z /\ st_from_mappings s = 0%Z
  /\ st_from_search s = 0%Z /\ st_no_mapping_found s = 0%Z.

(** What the batch loop keeps true of its statistics and its two lists,
    [logged0] being the number of exceptions logged before the loop. *)
Definition tally (logged0 : nat) (st : State) (results : list ResultRecord)
    (failed : list string) : Prop :=
  let s := stats st in
  (logged0 <= count_events is_logged_exception st)%nat
  /\ st_successful s = (st_from_mappings s + st_from_search s)%Z
  /\ st_failed s
     = (st_no_mapping_found s
        + Z.of_nat (count_events is_logged_exception st - logged0))%Z
  /\ Z.of_nat (length results) = (st_successful s + st_no_mapping_found s)%Z
  /\ Z.of_nat (length failed) = st_failed s.

(** The service calls made between [st] and [st']: [k] query plans and
    [k] searches, at most as many semantic verifications as searches, and
    at most as many calls of the nutritional gate as verifications. *)
Definition spent (st st' : State) (k : nat) : Prop :=
  count_events is_plan_call st' = (count_events is_plan_call st + k)%nat
  /\ count_events is_search_call st' = (count_events is_search_call st + k)%nat
  /\ (count_events is_semantic_call st <= count_events is_semantic_call st')%nat
  /\ (count_events is_semantic_call st' <= count_events is_semantic_call st + k)%nat
  /\ (count_events is_gate_call st <= count_events is_gate_call st')%nat
  /\ (count_events is_gate_call st' + count_events is_semantic_call st
      <= count_events is_gate_call st + count_events is_semantic_call st')%nat.

(** No query plan, search, semantic verification or gate call was made
    between [st] and [st']. *)
Definition same_calls (st st' : State) : Prop :=
  count_events is_plan_call st' = count_events is_plan_call st
  /\ count_events is_search_call st' = count_events is_search_call st
  /\ count_events is_semantic_call st' = count_events is_semantic_call st
  /\ count_events is_gate_call st' = count_events is_gate_call st.

End Accounting.

(** ** tools/scoring_tool.py: match quality and the ranked filter *)

Module MatchQuality.
Import PyStr Catalog ScoringTool UsdaApi.

Open Scope Z_scope.

(** [s.rstrip(c)] for a single character [c]. *)
Fixpoint rstrip_char (c : ascii) (s : string) : string :=
  match s with
  | EmptyString => EmptyString
  | String a s' =>
      let rest := rstrip_char c s' in
      if String.eqb rest "" && Ascii.eqb a c then "" else String a rest
  end.

(** [s.split(c, 1)[1]] when [c] occurs in [s]: what follows its first
    occurrence. *)
Fixpoint after_first (c : ascii) (s : string) : string :=
  match s with
  | EmptyString => EmptyString
  | String a s' => if Ascii.eqb a c then s' else after_first c s'
  end.

(** [0 if data_type == "Foundation" else (1 if data_type == "SR Legacy" else 2)] *)
Definition type_score_of (data_type : string) : Z :=
  if String.eqb data_type "Foundation" then 0
  else if String.eqb data_type "SR Legacy" then 1
  else 2.

(** Whether [first_word] is a plural or singular form of a word of the
    ingredient: the loop over [ingredient_words] with its three tests. *)
Definition plural_form_of (first_word ing_word : string) : bool :=
  String.eqb first_word (ing_word ++ "s")
  || String.eqb first_word (ing_word ++ "es")
  || (endswith_char ing_word "y" && String.eqb first_word (drop_last ing_word ++ "ies"))
  || (endswith_char ing_word "s" && String.eqb first_word (drop_last ing_word)).

(** The index of the first member equal to [x]. *)
Fixpoint index_of (x : string) (l : list string) : option nat :=
  match l with
  | [] => None
  | y :: l' => if String.eqb y x then Some O else option_map S (index_of x l')
  end.

(** The penalty of one member of the intent's avoid list.  A member that
    is not a string is [None]. *)
Definition avoid_penalty (description_lower : string) (ingredient_words : list string)
    (avoid_word : option string) : Z :=
  match avoid_word with
  | None => 0
  | Some avoid_word =>
      if (3 <=? String.length avoid_word)%nat then
        let avoid_word_lower := lower avoid_word in
        if contains avoid_word_lower description_lower then
          let words_in_desc := split description_lower in
          let first_3_words := rstrip_char "," <$> take 3 words_in_desc in
          match index_of avoid_word_lower first_3_words with
          | Some avoid_pos =>
              let ingredient_in_first_3 :=
                existsb (fun word => in_list word first_3_words) ingredient_words in
              let ingredient_positions :=
                omap (fun iw =>
                        if existsb (fun word => contains word (snd iw)) ingredient_words
                        then Some (fst iw) else None)
                     (imap (fun i w => (i, w)) first_3_words) in
              if existsb (fun i => (i <? avoid_pos)%nat) ingredient_positions then 0
              else if (avoid_pos =? 0)%nat && negb ingredient_in_first_3 then 200
              else if negb ingredient_in_first_3 then 200
              else 0
          | None => 0
          end
        else 0
      else 0
  end.

(** [search_intent] is [None] when the argument is [None] or an empty
    dictionary, and otherwise the list under its key ["avoid"], empty
    when the key is absent. *)
Definition intent_penalty (description_lower : string) (ingredient_words : list string)
    (search_intent : option (list (option string))) : Z :=
  match search_intent with
  | Some avoid_words =>
      fold_left (fun base_score avoid_word =>
                   base_score + avoid_penalty description_lower ingredient_words avoid_word)
                avoid_words 0
  | None => 0
  end.

Definition conjunction_words : list string := [ "and"; "with"; "&"; "+" ].

Definition nutritional_context_words : list string :=
  [ "vitamin"; "added"; "%"; "milkfat"; "fat"; "protein"; "calcium" ].

Definition nutritional_indicators : list string :=
  [ "vitamin"; "added"; "%"; "milkfat"; "fat"; "fluid"; "with"; "and" ].

(** The penalty for an ingredient that is not at the start. *)
Definition start_penalty (desc_words ingredient_words : list string) : Z :=
  let first_word := List.hd "" desc_words in
  if in_list first_word ingredient_words then 0
  else if existsb (plural_form_of first_word) ingredient_words then 0
  else 50.

(** The penalty for compound foods. *)
Definition conjunction_penalty (description_lower : string) (desc_words : list string) : Z :=
  if existsb (fun conj => in_list conj desc_words) conjunction_words then
    let early_words := take 3 desc_words in
    if existsb (fun conj => in_list conj early_words) conjunction_words then
      let nutritional_context :=
        existsb (fun word => contains word description_lower) nutritional_context_words in
      if negb (in_list "with" early_words && nutritional_context) then 150 else 0
    else 0
  else 0.

(** The penalty for a long modifier after the first comma. *)
Definition modifier_penalty (description_lower : string) : Z :=
  if contains "," description_lower then
    let modifier_part := strip (after_first "," description_lower) in
    let modifier_words := split modifier_part in
    if (6 <? length modifier_words)%nat then
      if existsb (fun ind => contains ind modifier_part) nutritional_indicators
      then 0 else 50
    else 0
  else 0.

Definition score_match_quality (food_item : Food) (ingredient : string)
    (search_intent : option (list (option string))) : Z * Z * string :=
  let description := strip (default "" (f_description food_item)) in
  let description_lower := lower description in
  let ingredient_lower := lower ingredient in
  let ingredient_words := split ingredient_lower in
  let data_type := default "" (f_dataType food_item) in
  let type_score := type_score_of data_type in
  let desc_words := rstrip_char "," <$> split description_lower in
  let base_score :=
    start_penalty desc_words ingredient_words
    + intent_penalty description_lower ingredient_words search_intent
    + conjunction_penalty description_lower desc_words
    + modifier_penalty description_lower in
  (base_score, type_score, description).

(** [int(max_possible_score - relevance_score)]: the relevance score is
    integral, so the conversion keeps the difference. *)
Definition score_match_quality_enhanced (food_item : Food) (ingredient : string)
    (position : nat) (search_intent : option (list (option string))) : Z * Z * string :=
  let relevance_score := _score_relevance_advanced food_item ingredient position in
  let max_possible_score := 2000 in
  let base_score := max_possible_score - relevance_score in
  let description_lower := lower (default "" (f_description food_item)) in
  let ingredient_words := split (lower ingredient) in
  let base_score :=
    base_score + intent_penalty description_lower ingredient_words search_intent in
  let type_score := type_score_of (default "" (f_dataType food_item)) in
  let description := strip (default "" (f_description food_item)) in
  (base_score, type_score, description).

(** [key=lambda x: (x[0][0], x[0][1])], ascending. *)
Definition by_base_then_type (x y : (Z * Z * string) * Food) : bool :=
  let kx := (fst (fst (fst x)), snd (fst (fst x))) in
  let ky := (fst (fst (fst y)), snd (fst (fst y))) in
  (fst kx <? fst ky) || ((fst kx =? fst ky) && (snd kx <=? snd ky)).

(** The score of the row at position [idx], as the loop computes it. *)
Definition score_at (ingredient : string) (use_enhanced : bool) (idx : nat)
    (result : Food) : Z * Z * string :=
  if use_enhanced then score_match_quality_enhanced result ingredient idx None
  else score_match_quality result ingredient None.

(** The test that keeps a scored row. *)
Definition acceptable (max_score : Z) (use_enhanced : bool) (score : Z * Z * string)
  : bool :=
  let base_score := fst (fst score) in
  if use_enhanced then
    let threshold := Z.max 1500 (2000 - max_score * 20) in
    base_score <? threshold
  else (base_score <? max_score) || (base_score =? 0).

Definition filter_search_results (search_results : list Food) (ingredient : string)
    (max_score : Z) (use_enhanced : bool) : list ((Z * Z * string) * Food) :=
  let scored_results :=
    List.filter (fun item => acceptable max_score use_enhanced (fst item))
      (imap (fun idx result => (score_at ingredient use_enhanced idx result, result))
            search_results) in
  stable_sort by_base_then_type scored_results.

End MatchQuality.

(** ** tools/usda_api_tool.py: the conditional search and the fast path *)

Module TieredSearch.
Import Py PyStr Catalog ScoringTool UsdaApi.

(** The transports of the two endpoints.  The first argument is the
    number of client calls made before, so that equal requests may be
    answered differently; the last one is the attempt within the call. *)
Definition search_transport : Type :=
  nat -> SearchParams -> nat -> http_reply (option (list Food)).

Definition details_transport : Type :=
  nat -> Z -> nat -> http_reply (option FoodData).

(** The calls of the client, as its caller makes them. *)
Inductive ClientCall : Type :=
| Searched (page_size : Z) (data_type_filter : option string)
| Fetched (fdc_id : Z).

(** Computations that call the client: they extend the log of the calls
    made so far, and may raise what the client raises. *)
Definition Calls (A : Type) : Type := list ClientCall -> list ClientCall * result A.

Definition ret {A} (a : A) : Calls A := fun log => (log, Returned a).

Definition bind {A B} (m : Calls A) (k : A -> Calls B) : Calls B :=
  fun log =>
    match m log with
    | (log', Returned a) => k a log'
    | (log', Raised e) => (log', Raised e)
    end.

Declare Scope calls_scope.
Delimit Scope calls_scope with calls.
Notation "'let*' x ':=' m 'in' k" := (bind m (fun x => k))
  (at level 10, x name, m at level 100, k at level 200, only parsing) : calls_scope.

(** [client.search_food(query, page_size, data_type_filter)] *)
Definition client_search_food (self : USDAApiClient) (http : search_transport)
    (query : string) (page_size : Z) (data_type_filter : option string)
  : Calls (list Food) :=
  fun log =>
    ((log ++ [Searched page_size data_type_filter])%list,
     snd (search_food self (http (length log)) query page_size data_type_filter)).

(** [client.get_food_details(fdc_id)] *)
Definition client_get_food_details (self : USDAApiClient) (http : details_transport)
    (fdc_id : Z) : Calls (option FoodData) :=
  fun log =>
    ((log ++ [Fetched fdc_id])%list,
     snd (get_food_details self (http (length log)) fdc_id)).

(** [l[:n]] for an integer [n] of either sign. *)
Definition py_take {A} (n : Z) (l : list A) : list A :=
  if (0 <=? n)%Z then take (Z.to_nat n) l
  else take (length l - Z.to_nat (- n)) l.

(** The third loop of the conditional search, which also leaves out
    branded rows. *)
Definition merge_step_unbranded (tier : Z) (acc : list Food * gset Z) (result : Food)
  : list Food * gset Z :=
  let '(all_results, seen_fdc_ids) := acc in
  let data_type := default "" (f_dataType result) in
  match f_fdcId result with
  | Some fdc_id =>
      if negb (fdc_id =? 0)%Z && negb (bool_decide (fdc_id ∈ seen_fdc_ids))
         && negb (String.eqb data_type "Branded")
      then ((all_results ++ [set_search_tier tier result])%list, {[fdc_id]} ∪ seen_fdc_ids)
      else acc
  | None => acc
  end.

(** The ranking at the end of both tiered searches. *)
Definition ranked (all_results : list Food) (ingredient : option string) : list Food :=
  if truthy (default "" ingredient) then
    let scored_results :=
      imap (fun idx result =>
              (result, _score_relevance_advanced result (default "" ingredient) idx))
           all_results in
    fst <$> stable_sort by_score_desc scored_results
  else stable_sort by_tier_then_id all_results.

Open Scope calls_scope.

Definition search_usda_food_multi_tier (self : USDAApiClient) (http : search_transport)
    (query : string) (page_size : Z) (ingredient : option string) : Calls (list Food) :=
  let* tier1_results :=
    client_search_food self http query page_size (Some "Foundation,SR Legacy") in
  let acc := merge_tier 1 ([], ∅) tier1_results in
  let* acc :=
    if (length tier1_results <? 10)%nat then
      let* tier2_results :=
        client_search_food self http query page_size (Some "Survey (FNDDS)") in
      ret (merge_tier 2 acc tier2_results)
    else ret acc in
  let* acc :=
    if (length (fst acc) <? 5)%nat then
      let* tier3_results := client_search_food self http query page_size None in
      ret (fold_left (merge_step_unbranded 3) tier3_results acc)
    else ret acc in
  ret (py_take page_size (ranked (fst acc) ingredient)).

(** What the fast path returns: the detail record of the best match, or
    the search row itself. *)
Inductive Profile : Type :=
| FullDetails (full_details : FoodData)
| SearchRow (best_food : Food).

Definition get_ingredient_nutrition_profile_fast (self : USDAApiClient)
    (http_search : search_transport) (http_details : details_transport)
    (query : string) : Calls (option Profile) :=
  let* foods := client_search_food self http_search query 50 (Some "Foundation,SR Legacy") in
  let* foods :=
    match foods with
    | [] => client_search_food self http_search query 50 (Some "Survey (FNDDS)")
    | _ :: _ => ret foods
    end in
  let* foods :=
    match foods with
    | [] =>
        let* all_foods := client_search_food self http_search query 50 None in
        ret (List.filter
               (fun f => negb (bool_decide (f_dataType f = Some "Branded"))) all_foods)
    | _ :: _ => ret foods
    end in
  let scored_foods :=
    imap (fun idx food => (food, _score_relevance_advanced food query idx)) foods in
  (* the sorted list is empty exactly when [foods] is *)
  match stable_sort by_score_desc scored_foods with
  | [] => ret None
  | (best_food, best_score) :: _ =>
      match f_fdcId best_food with
      | Some fdc_id =>
          if negb (fdc_id =? 0)%Z then
            let* full_details := client_get_food_details self http_details fdc_id in
            match full_details with
            | Some fd => ret (Some (FullDetails fd))
            | None => ret (Some (SearchRow best_food))
            end
          else ret (Some (SearchRow best_food))
      | None => ret (Some (SearchRow best_food))
      end
  end.

(** [client.search_food] for the comprehensive search, whose four calls
    are numbered from 0. *)
Definition comprehensive_client (self : USDAApiClient) (http : search_transport)
    (query : string) (page_size : Z) (data_type_filter : option string)
  : result (list Food) :=
  let call :=
    match data_type_filter with
    | Some "Foundation,SR Legacy" => 0%nat
    | Some "Survey (FNDDS)" => 1%nat
    | Some "Branded" => 2%nat
    | _ => 3%nat
    end in
  snd (search_food self (http call) query page_size data_type_filter).

(** A transport that answers equal requests equally. *)
Definition repeatable (http : search_transport) : Prop :=
  forall k k' params attempt, http k params attempt = http k' params attempt.

(** The reply [r] cut down to its first [n] rows. *)
Definition first_rows (n : Z) (r : http_reply (option (list Food)))
  : http_reply (option (list Food)) :=
  match r with
  | HttpOk body => HttpOk (py_take n <$> body)
  | HttpTimeout => HttpTimeout
  | HttpRequestException => HttpRequestException
  | HttpRaises e => HttpRaises e
  end.

(** A transport that pages through one ranking: the reply to a request
    for [n] rows is the reply to a request for more rows, cut down to its
    first [n] rows. *)
Definition paginating (http : search_transport) : Prop :=
  forall k k' query data_type n m attempt,
    (0 <= n <= m)%Z ->
    http k {| p_query := query; p_pageSize := n; p_dataType := data_type |} attempt
    = first_rows n
        (http k' {| p_query := query; p_pageSize := m; p_dataType := data_type |} attempt).

End TieredSearch.

(** ** tools/nutritional_similarity_tool.py *)

Module SimilarityTool.
Import Py PyStr Catalog NutrientMapper MappingTool UsdaApi Orchestrator TieredSearch.

Definition NUTRIENT_WEIGHTS : list (string * Q) :=
  [ ("calories", 15 # 100);
    ("calories_from_fat", 5 # 100);
    ("total_fat_g", 10 # 100);
    ("saturated_fat_g", 8 # 100);
    ("trans_fat_g", 5 # 100);
    ("polyunsaturated_fat_g", 5 # 100);
    ("monounsaturated_fat_g", 5 # 100);
    ("cholesterol_mg", 5 # 100);
    ("sodium_mg", 8 # 100);
    ("total_carbs_g", 10 # 100);
    ("dietary_fiber_g", 8 # 100);
    ("total_sugars_g", 5 # 100);
    ("added_sugars_g", 3 # 100);
    ("sugar_alcohols_g", 2 # 100);
    ("protein_g", 12 # 100);
    ("vitamin_a_mcg", 3 # 100);
    ("vitamin_c_mg", 3 # 100);
    ("vitamin_d_mcg", 2 # 100);
    ("calcium_mg", 5 # 100);
    ("iron_mg", 5 # 100);
    ("potassium_mg", 5 # 100) ].

(** [data and data.get("amount")]: the amount of a slot that is filled
    with an amount other than zero. *)
Definition truthy_amount (standardized : gmap string (option NutrientData))
    (nutrient_id : string) : option Q :=
  match std_get standardized nutrient_id with
  | Some data => if Qeq_bool (nd_amount data) 0 then None else Some (nd_amount data)
  | None => None
  end.

(** The keys assigned after ["calories"], in the order of the source,
    each with the slot it is read from. *)
Definition basic_sources : list (string * string) :=
  [ ("protein_g", "nutrient-protein");
    ("total_fat_g", "nutrient-total-fat");
    ("saturated_fat_g", "nutrient-saturated-fat");
    ("trans_fat_g", "nutrient-trans-fat");
    ("polyunsaturated_fat_g", "nutrient-polyunsaturated-fat");
    ("monounsaturated_fat_g", "nutrient-monounsaturated-fat");
    ("cholesterol_mg", "nutrient-cholesterol");
    ("sodium_mg", "nutrient-sodium");
    ("total_carbs_g", "nutrient-total-carbohydrates");
    ("dietary_fiber_g", "nutrient-dietary-fiber");
    ("total_sugars_g", "nutrient-total-sugars");
    ("vitamin_a_mcg", "nutrient-vitamin-a-rae");
    ("vitamin_c_mg", "nutrient-vitamin-c-ascorbic-acid");
    ("vitamin_d_mcg", "nutrient-vitamin-d");
    ("calcium_mg", "nutrient-calcium");
    ("iron_mg", "nutrient-iron");
    ("potassium_mg", "nutrient-potassium") ].

Definition _extract_basic_nutrients (nutrition_data : Nutrition) : list (string * Q) :=
  let standardized := nu_standardized_nutrients nutrition_data in
  let calories :=
    match basic_calories nutrition_data with
    | Some amount => [("calories", amount)]
    | None => []
    end in
  let copied :=
    omap (fun source =>
            match truthy_amount standardized (snd source) with
            | Some amount => Some (fst source, amount)
            | None => None
            end)
         basic_sources in
  let nutrients := (calories ++ copied)%list in
  match dict_get "total_fat_g" nutrients with
  | Some total_fat_g =>
      if Qeq_bool total_fat_g 0 then nutrients
      else (nutrients ++ [("calories_from_fat", total_fat_g * 9)%Q])%list
  | None => nutrients
  end.

(** The keys that [_extract_basic_nutrients] can assign, in order. *)
Definition assignable_keys : list string :=
  "calories" :: ((fst <$> basic_sources) ++ ["calories_from_fat"])%list.

(** One entry of [differences]; the source renders it as text. *)
Inductive Difference : Type :=
| MissingInOne (nutrient : string)
| Differs (nutrient : string) (relative_diff : Q).

(** The second component of the result; the source renders it as text. *)
Inductive Reasoning : Type :=
| MissingData
| NoComparableNutrients
| SimilarityOf (final_score : Q) (notable : list Difference).

(** The variables of the loop over [NUTRIENT_WEIGHTS.items()].  The
    local [relative_diff] is bound once its assignment has run. *)
Record LoopState := {
  total_weight : Q;
  weighted_score : Q;
  differences : list Difference;
  relative_diff : option Q
}.

(** [d.get(k)], where a JSON null is [None] as well. *)
Definition get_value (d : gmap string (option Q)) (k : string) : option Q :=
  match d !! k with
  | Some v => v
  | None => None
  end.

Definition q_abs (x : Q) : Q := if Qle_bool 0 x then x else (- x)%Q.
Definition q_min (x y : Q) : Q := if Qle_bool x y then x else y.
Definition q_max (x y : Q) : Q := if Qle_bool y x then x else y.

(** The body of the loop. *)
Definition compare_nutrient (ingredient_nutrients usda_nutrients : gmap string (option Q))
    (state : LoopState) (item : string * Q) : result LoopState :=
  let '(nutrient, weight) := item in
  match get_value ingredient_nutrients nutrient, get_value usda_nutrients nutrient with
  | None, None => Returned state
  | None, Some _ | Some _, None =>
      Returned {| total_weight := total_weight state + weight;
                  weighted_score := weighted_score state + weight * (3 # 10);
                  differences := (differences state ++ [MissingInOne nutrient])%list;
                  relative_diff := relative_diff state |}
  | Some ing_value, Some usda_value =>
      let '(similarity, relative_diff) :=
        if Qeq_bool ing_value 0 && Qeq_bool usda_value 0 then (1, relative_diff state)
        else if Qeq_bool ing_value 0 || Qeq_bool usda_value 0 then
          (2 # 10, relative_diff state)
        else
          let diff := q_abs (ing_value - usda_value) in
          let avg := (ing_value + usda_value) / 2 in
          let relative_diff := if Qle_bool avg 0 then 1 else diff / avg in
          (q_max 0 (1 - q_min relative_diff 2), Some relative_diff) in
      match relative_diff with
      | None => Raised (UnboundLocalError "relative_diff")
      | Some rd =>
          Returned {| total_weight := total_weight state + weight;
                      weighted_score := weighted_score state + weight * similarity;
                      differences :=
                        if Qle_bool rd (3 # 10) then differences state
                        else (differences state ++ [Differs nutrient rd])%list;
                      relative_diff := Some rd |}
      end
  end%Q.

Fixpoint compare_nutrients (ingredient_nutrients usda_nutrients : gmap string (option Q))
    (items : list (string * Q)) (state : LoopState) : result LoopState :=
  match items with
  | [] => Returned state
  | item :: items' =>
      match compare_nutrient ingredient_nutrients usda_nutrients state item with
      | Returned state' =>
          compare_nutrients ingredient_nutrients usda_nutrients items' state'
      | Raised e => Raised e
      end
  end.

Definition _calculate_nutritional_similarity
    (ingredient_nutrients usda_nutrients : gmap string (option Q))
  : result (Q * Reasoning) :=
  if bool_decide (ingredient_nutrients = ∅) || bool_decide (usda_nutrients = ∅)
  then Returned (0%Q, MissingData)
  else
    match compare_nutrients ingredient_nutrients usda_nutrients NUTRIENT_WEIGHTS
            {| total_weight := 0; weighted_score := 0; differences := [];
               relative_diff := None |} with
    | Raised e => Raised e
    | Returned state =>
        if Qeq_bool (total_weight state) 0 then Returned (0%Q, NoComparableNutrients)
        else
          let final_score := (weighted_score state / total_weight state * 100)%Q in
          Returned (final_score, SimilarityOf final_score (take 3 (differences state)))
    end.

(** One row of [_calculate_basic_similarity]. *)
Record BasicRow := {
  b_fdc_id : Z;
  b_description : string;
  b_nutritional_similarity_score : Q;
  b_nutritional_reasoning : string;
  b_nutrients : list (string * Q);
  b_nutrition_data : Nutrition
}.

Open Scope orch_scope.

(** The loop over [usda_results[:top_n]]. *)
Fixpoint basic_rows (w : World) (results : list Food) (results_with_scores : list BasicRow)
  : M (list BasicRow) :=
  match results with
  | [] => Orchestrator.ret results_with_scores
  | result :: results' =>
      match f_fdcId result with
      | Some fdc_id =>
          if negb (fdc_id =? 0)%Z then
            let* food_data := get_usda_food_details w (Some fdc_id) in
            match food_data with
            | Some fd =>
                let nutrition_data := extract_nutrition_data (w_nutrient_ids w) fd in
                let nutrients := _extract_basic_nutrients nutrition_data in
                basic_rows w results'
                  (results_with_scores
                   ++ [ {| b_fdc_id := fdc_id;
                           b_description := default "" (f_description result);
                           b_nutritional_similarity_score := 70;
                           b_nutritional_reasoning :=
                             "Basic similarity calculation (LLM unavailable)";
                           b_nutrients := nutrients;
                           b_nutrition_data := nutrition_data |} ])%list
            | None => basic_rows w results' results_with_scores
            end
          else basic_rows w results' results_with_scores
      | None => basic_rows w results' results_with_scores
      end
  end.

(** The fallback of [calculate_nutritional_similarity_score] when there
    is no language model client, or when its call fails. *)
Definition _calculate_basic_similarity (w : World) (ingredient : string)
    (usda_results : list Food) (top_n : Z) : M (list BasicRow) :=
  basic_rows w (py_take top_n usda_results) [].

(** The ids for which the fallback asks a detail record: the truthy
    ones. *)
Definition asked_ids (results : list Food) : list Z :=
  omap (fun result =>
          match f_fdcId result with
          | Some fdc_id => if (fdc_id =? 0)%Z then None else Some fdc_id
          | None => None
          end) results.

(** Both profiles give a value for the nutrient. *)
Definition comparable (ingredient_nutrients usda_nutrients : gmap string (option Q))
    (nutrient : string) : bool :=
  match get_value ingredient_nutrients nutrient, get_value usda_nutrients nutrient with
  | Some _, Some _ => true
  | _, _ => false
  end.

(** A value that is given and equal to zero. *)
Definition is_zero (v : option Q) : bool :=
  match v with
  | Some x => Qeq_bool x 0
  | None => false
  end.

(** The first nutrient of the weight table that both profiles give a
    value for has a zero on either side. *)
Definition zero_at_first_comparison
    (ingredient_nutrients usda_nutrients : gmap string (option Q)) : bool :=
  match find (fun item => comparable ingredient_nutrients usda_nutrients (fst item))
             NUTRIENT_WEIGHTS with
  | Some (nutrient, _) =>
      is_zero (get_value ingredient_nutrients nutrient)
      || is_zero (get_value usda_nutrients nutrient)
  | None => false
  end.

(** The keys of a row that the orchestrator reads. *)
Definition as_similarity (row : BasicRow) : Similarity :=
  {| s_fdc_id := Some (b_fdc_id row);
     s_description := Some (b_description row);
     s_nutritional_similarity_score := Some (b_nutritional_similarity_score row) |}.

End SimilarityTool.

(** ** tools/semantic_verification_tool.py without a language model *)

Module SemanticTool.
Import Py PyStr Catalog UsdaApi Orchestrator TieredSearch.

(** [verify_semantic_match] when [_get_llm_client] returns no client,
    which is the case when no API key is configured: the first [top_n]
    results, as they are. *)
Definition verify_semantic_match_without_client (ingredient : string)
    (usda_results : list Food) (top_n : Z) : list Food :=
  py_take top_n usda_results.

(** A world without a language model: the semantic verification is the
    one above, called with [top_n=3] as the orchestrator does, and the
    rows of the catalog carry no semantic score of their own. *)
Definition without_language_model (w : World) : Prop :=
  (forall t ingredient usda_results,
     w_verify_semantic w t ingredient usda_results
     = verify_semantic_match_without_client ingredient usda_results 3)
  /\ (forall t query page_size data_type_filter rows row,
        w_search_food w t query page_size data_type_filter = Returned rows ->
        row ∈ rows -> f_semantic_match_score row = None).

End SemanticTool.

(** ** utils/data_loader.py: the text format *)

Module DataLoader.
Import PyStr.

(** [s.split(sep)[0]] for a non-empty [sep]: what precedes its first
    occurrence, or all of [s]. *)
Fixpoint before_first (sep s : string) : string :=
  if String.prefix sep s then ""
  else match s with
       | EmptyString => EmptyString
       | String c s' => String c (before_first sep s')
       end.

Definition header_names : list string :=
  [ "ingredient"; "ingredients"; "name"; "food"; "item" ].

(** The body of the loop over [lines[start_idx:]]: the name appended for
    the line, if any. *)
Definition parse_line (line : string) : option string :=
  let line := strip line in
  if negb (truthy line) then None
  else if startswith line "#" || startswith line "//" then None
  else
    let line := if contains "#" line then strip (before_first "#" line) else line in
    let line := if contains "//" line then strip (before_first "//" line) else line in
    if truthy line then Some line else None.

(** [lines[start_idx:]]: the lines without a first line that looks like
    a header. *)
Definition body_lines (lines : list string) : list string :=
  let start_idx :=
    match lines with
    | first :: _ =>
        if Orchestrator.in_list (strip (lower first)) header_names then 1%nat else 0%nat
    | [] => 0%nat
    end in
  drop start_idx lines.

(** [_parse_txt] on the result of [f.readlines()]. *)
Definition _parse_txt (lines : list string) : list string :=
  omap parse_line (body_lines lines).

(** A line that is neither blank nor a comment. *)
Definition content_line (line : string) : bool :=
  truthy (strip line)
  && negb (startswith (strip line) "#" || startswith (strip line) "//").

(** A string whose first character is not a space. *)
Definition bare_head (s : string) : Prop :=
  match s with
  | EmptyString => False
  | String c _ => is_space c = false
  end.

End DataLoader.

(** ** tools/mapping_tool.py and tools/cache_tool.py: the stores *)

Module Stores.
Import PyStr MappingTool.

(** The files as a module sees them: whether a path exists, what
    [json.load] gives for it ([None] when opening or parsing raises),
    whether writing it succeeds, and the path
    [os.path.join(os.path.dirname(__file__), "..", "..", "nutrition_usda", name)]. *)
Record Files (V : Type) := {
  path_exists : string -> bool;
  json_load : string -> option V;
  writable : string -> bool;
  module_relative : string -> string
}.
Arguments path_exists {V}.
Arguments json_load {V}.
Arguments writable {V}.
Arguments module_relative {V}.

(** [json.dump(v, f)] on [open(path, 'w')], when it succeeds. *)
Definition write {V} (path : string) (v : V) (fs : Files V) : Files V :=
  {| path_exists := fun p => String.eqb p path || path_exists fs p;
     json_load := fun p => if String.eqb p path then Some v else json_load fs p;
     writable := writable fs;
     module_relative := module_relative fs |}.

Definition possible_paths {V} (fs : Files V) (name : string) : list string :=
  [ name; "../nutrition_usda/" +:+ name; module_relative fs name ].

(** The first of the paths that exists and loads. *)
Definition first_loaded {V} (fs : Files V) (paths : list string) : option V :=
  head (omap (fun path => if path_exists fs path then json_load fs path else None) paths).

(** *** tools/mapping_tool.py *)

(** The globals of the module, and the files. *)
Record Mappings := {
  CURATED_MAPPING_FILE : string;
  _mappings_cache : option (gmap string Entry);
  mapping_files : Files (gmap string Entry)
}.

Definition _load_mappings (st : Mappings) : gmap string Entry * Mappings :=
  match _mappings_cache st with
  | Some mappings => (mappings, st)
  | None =>
      let mappings :=
        default ∅ (first_loaded (mapping_files st)
                     (possible_paths (mapping_files st) (CURATED_MAPPING_FILE st))) in
      (mappings,
       {| CURATED_MAPPING_FILE := CURATED_MAPPING_FILE st;
          _mappings_cache := Some mappings;
          mapping_files := mapping_files st |})
  end.

Definition load_curated_mappings (file_path : option string) (st : Mappings)
  : gmap string Entry * Mappings :=
  let st :=
    if truthy (default "" file_path) then
      {| CURATED_MAPPING_FILE := default "" file_path;
         _mappings_cache := None;
         mapping_files := mapping_files st |}
    else st in
  _load_mappings st.






(** *** tools/cache_tool.py *)

Definition CACHE_FILE : string := "ingredient_search_mapping.json".

(** The global [_cache] and the files; [json_load] stands for the
    ["mappings"] object of the loaded file. *)
Record Cache (V : Type) := {
  _cache : option (gmap string V);
  cache_files : Files (gmap string V)
}.
Arguments _cache {V}.
Arguments cache_files {V}.

Definition _load_cache {V} (st : Cache V) : gmap string V * Cache V :=
  match _cache st with
  | Some cache => (cache, st)
  | None =>
      let cache :=
        default ∅ (first_loaded (cache_files st)
                     (possible_paths (cache_files st) CACHE_FILE)) in
      (cache, {| _cache := Some cache; cache_files := cache_files st |})
  end.

(** The loop of [_save_cache] over the paths. *)
Fixpoint dump_to {V} (cache : gmap string V) (paths : list string) (fs : Files (gmap string V))
  : Files (gmap string V) :=
  match paths with
  | [] => fs
  | path :: paths' =>
      if writable fs path then write path cache fs else dump_to cache paths' fs
  end.

Definition _save_cache {V} (st : Cache V) : Cache V :=
  match _cache st with
  | None => st
  | Some cache =>
      {| _cache := Some cache;
         cache_files :=
           dump_to cache (possible_paths (cache_files st) CACHE_FILE) (cache_files st) |}
  end.

Definition get_cached_search_intent {V} (ingredient : string) (st : Cache V)
  : option V * Cache V :=
  let '(cache, st) := _load_cache st in
  let ingredient_lower := strip (lower ingredient) in
  (cache !! ingredient_lower, st).

Definition save_search_intent_cache {V} (ingredient : string) (search_intent : V)
    (st : Cache V) : bool * Cache V :=
  let '(cache, st) := _load_cache st in
  let ingredient_lower := strip (lower ingredient) in
  let cache := <[ingredient_lower := search_intent]> cache in
  (true, _save_cache {| _cache := Some cache; cache_files := cache_files st |}).

Definition clear_cache {V} (st : Cache V) : bool * Cache V :=
  (true, _save_cache {| _cache := Some ∅; cache_files := cache_files st |}).

End Stores.

(** ** utils/data_saver_enhanced.py: the batch format *)

Module BatchFile.
Import Py PyStr Catalog NutrientMapper Orchestrator.

(** One member of ["results"].  The time stamp, which the records of
    this development do not carry, is left out. *)
Record CleanResult := {
  c_ingredient : string;
  c_fdc_id : option Z;
  c_description : option string;
  c_data_type : option string;
  c_flag : string;
  c_mapping_status : string;
  c_nutrients : gmap string NutrientData
}.

(** ["summary"], without the sum of the processing times. *)
Record BatchSummary := {
  b_total : Z;
  b_successful : Z;
  b_failed : Z
}.

Record BatchOutput := {
  b_summary : BatchSummary;
  b_results : list CleanResult;
  b_failed_ingredients : list string
}.

(** [r.get("flag") in ["HIGH_CONFIDENCE", "MID_CONFIDENCE"]] *)
Definition is_successful (r : ResultRecord) : bool :=
  in_list (r_flag r) ["HIGH_CONFIDENCE"; "MID_CONFIDENCE"].

(** The slots that are filled, each with its amount and unit. *)
Definition clean_result (result : ResultRecord) : CleanResult :=
  {| c_ingredient := r_ingredient result;
     c_fdc_id := r_fdc_id result;
     c_description := r_description result;
     c_data_type := r_data_type result;
     c_flag := r_flag result;
     c_mapping_status := r_mapping_status result;
     c_nutrients := omap (fun nutrient_data => nutrient_data)
                         (r_standardized_nutrients result) |}.

Definition batch_output (results : list ResultRecord) : BatchOutput :=
  let successful := Z.of_nat (length (List.filter is_successful results)) in
  let failed := (Z.of_nat (length results) - successful)%Z in
  {| b_summary := {| b_total := Z.of_nat (length results);
                     b_successful := successful;
                     b_failed := failed |};
     b_results := clean_result <$> results;
     b_failed_ingredients :=
       r_ingredient <$> List.filter (fun r => negb (is_successful r)) results |}.

(** [save_json_batch]: the value returned and what is written, if
    anything; [written] tells whether creating and writing the file
    succeeds. *)
Definition save_json_batch (results : list ResultRecord) (written : bool)
  : bool * option BatchOutput :=
  match results with
  | [] => (false, None)
  | _ :: _ => if written then (true, Some (batch_output results)) else (false, None)
  end.

(** What the batch loop keeps true of its results: the flags of the
    records agree with the counters, and the records without a mapping
    are listed as failed, in order. *)
Definition filed (st : State) (results : list ResultRecord) (failed : list string) : Prop :=
  Z.of_nat (length (List.filter is_successful results)) = st_successful (stats st)
  /\ Z.of_nat (length (List.filter (fun r => negb (is_successful r)) results))
     = st_no_mapping_found (stats st)
  /\ (r_ingredient <$> List.filter (fun r => negb (is_successful r)) results)
     `sublist_of` failed.

End BatchFile.

(** ** tools/search_retry_tool.py *)

Module RetryTool.
Import PyStr Orchestrator.

(** The exceptions of the function: [words[0]] on an empty list, and
    [intent["search_query"]] on a dictionary without the key. *)
Inductive RetryError : Type :=
| IndexError
| KeyError (key : string).

(** The value stored under ["retry_reason"]; the source renders it as
    text. *)
Inductive RetryReason : Type :=
| WordOrderOrPlural
| TryingVariation (variant : string)
| AddingModifier (modifier : string)
| SimplifyingQuery
| CategoryBased (category : string)
| MinimalQuery.

(** The intent returned, of which the orchestrator reads the query and
    the reason, or the exception raised. *)
Inductive Strategy : Type :=
| Retry (search_query : string) (retry_reason : option RetryReason)
| Fails (e : RetryError).

Definition variations : list (string * list string) :=
  [ ("tzatziki", ["tzatziki"; "tzatziki dip"; "tzatziki sauce"]);
    ("guacamole", ["guacamole"; "guacamole nfs"; "avocado guacamole"]);
    ("chutney", ["chutney"; "chutney nfs"; "mango chutney"]);
    ("brandy", ["brandy"; "brandy distilled"; "alcoholic beverage brandy"]);
    ("sorbet", ["sorbet"; "sorbet frozen"; "fruit sorbet"]);
    ("gelato", ["gelato"; "gelato ice cream"; "italian gelato"]) ].

Definition modifiers : list string := [ "raw"; "fresh"; "dried"; "whole" ].

Definition category_map : list (string * string) :=
  [ ("rice", "grain"); ("lentil", "legume"); ("pepper", "spice"); ("cheese", "dairy");
    ("oil", "fat"); ("vinegar", "condiment"); ("herb", "spice"); ("spice", "spice") ].

(** [words[0] if words else ingredient] *)
Definition first_word_or (words : list string) (ingredient : string) : string :=
  match words with
  | word :: _ => word
  | [] => ingredient
  end.

(** The first variation, in the order of the table, of a key that occurs
    in the ingredient and has a variant that was not tried before. *)
Definition untried_variation (ingredient_lower : string) (previous_queries : list string)
  : option string :=
  head (omap (fun entry : string * list string =>
                if contains (fst entry) ingredient_lower then
                  find (fun variant => negb (in_list variant previous_queries)) (snd entry)
                else None)
             variations).

(** The first word that holds a key of the category table, with the
    category of the first such key. *)
Definition categorised_word (words : list string) : option (string * string) :=
  head (omap (fun word =>
                match find (fun entry : string * string => contains (fst entry) word)
                           category_map with
                | Some entry => Some (snd entry, word)
                | None => None
                end)
             words).

(** [generated] is what [generate_search_intent(ingredient)] returns;
    the query of an intent is [None] when the key is absent.  The result
    of the branch on [attempt] is the query stored in [intent], if any,
    and the reason. *)
Definition generate_retry_search_strategy (generated : option Intent) (ingredient : string)
    (attempt : Z) (previous_queries : list string) : Strategy :=
  let intent_query :=
    match generated with
    | Some intent => i_search_query intent
    | None => None
    end in
  let base_query := default ingredient intent_query in
  let words := split (lower ingredient) in
  let branch : RetryError + (option string * option RetryReason) :=
    if (attempt =? 1)%Z then
      if (1 <? length words)%nat then
        inr (Some (String.concat " " (rev words)), Some WordOrderOrPlural)
      else
        match words with
        | [] => inl IndexError
        | word :: _ =>
            inr (Some (if endswith_char word "s" then drop_last word else word +:+ "s"),
                 Some WordOrderOrPlural)
        end
    else if (attempt =? 2)%Z then
      match untried_variation (lower ingredient) previous_queries with
      | Some variant => inr (Some variant, Some (TryingVariation variant))
      | None =>
          match find (fun modifier => negb (contains modifier (lower base_query)))
                     modifiers with
          | Some modifier =>
              inr (Some (base_query +:+ " " +:+ modifier), Some (AddingModifier modifier))
          | None => inr (Some (first_word_or words ingredient), Some SimplifyingQuery)
          end
      end
    else if (attempt =? 3)%Z then
      match categorised_word words with
      | Some (category, word) =>
          inr (Some (category +:+ " " +:+ word), Some (CategoryBased category))
      | None => inr (Some (first_word_or words ingredient), Some MinimalQuery)
      end
    else inr (intent_query, None) in
  match branch with
  | inl e => Fails e
  | inr (None, _) => Fails (KeyError "search_query")
  | inr (Some search_query, retry_reason) =>
      if in_list search_query previous_queries then
        Retry (if (1 <? length words)%nat then List.last words "" else ingredient)
              retry_reason
      else Retry search_query retry_reason
  end.

(** A word: not empty, and without white space. *)
Definition is_word (s : string) : Prop :=
  s <> "" /\ forall c, In c (list_ascii_of_string s) -> is_space c = false.

End RetryTool.

(** ** orchestrator.py: the first orchestrator *)

Module FirstOrchestrator.
Import Py PyStr Catalog NutrientMapper MappingTool UsdaApi Orchestrator MatchQuality.

(** [nutrition_data] with the two keys that the orchestrator adds. *)
Record Fetched := {
  ft_ingredient : string;
  ft_source : string;
  ft_nutrition_data : Nutrition
}.

(** [search_usda_food(query, page_size, data_type)], whose [data_type]
    defaults to ["Foundation,SR Legacy"]. *)
Definition search_usda_food (w : World) (query : string) (page_size : Z)
    (data_type : string) : M (list Food) :=
  let* t := call (CallSearch query) in
  lift (w_search_food w t query page_size (Some data_type)).

Definition default_data_type : string := "Foundation,SR Legacy".

(** Steps 2 to 5, for an ingredient that the curated mappings do not
    answer. *)
Definition search_path (w : World) (ingredient : string) : M (option Fetched) :=
  let* search_query := plan_query w ingredient 1 [] in
  let* search_results := search_usda_food w search_query 50 "Foundation,SR Legacy" in
  let* search_results :=
    match search_results with
    | [] => search_usda_food w search_query 50 default_data_type
    | _ :: _ => ret search_results
    end in
  match search_results with
  | [] => ret None
  | _ :: _ =>
      let scored_results := filter_search_results search_results ingredient 50 true in
      let scored_results :=
        match scored_results with
        | [] => filter_search_results search_results ingredient 200 true
        | _ :: _ => scored_results
        end in
      match scored_results with
      | [] => ret None
      | (score_info, best_match) :: _ =>
          let fdc_id := f_fdcId best_match in
          let* food_data := get_usda_food_details w fdc_id in
          match food_data with
          | Some fd =>
              let nutrition_data := extract_nutrition_data (w_nutrient_ids w) fd in
              modify_stats bump_from_search ;;
              ret (Some {| ft_ingredient := ingredient; ft_source := "search";
                           ft_nutrition_data := nutrition_data |})
          | None => ret None
          end
      end
  end.

Definition fetch_nutrition_for_ingredient (w : World) (ingredient : string)
  : M (option Fetched) :=
  match search_mappings ingredient (w_mappings w) with
  | Some mapping =>
      let fdc_id := Some (e_fdc_id mapping) in
      let* food_data := get_usda_food_details w fdc_id in
      match food_data with
      | Some fd =>
          let nutrition_data := extract_nutrition_data (w_nutrient_ids w) fd in
          modify_stats bump_from_mappings ;;
          ret (Some {| ft_ingredient := ingredient; ft_source := "curated_mapping";
                       ft_nutrition_data := nutrition_data |})
      | None => search_path w ingredient
      end
  | None => search_path w ingredient
  end.

(** A catalog that answers the search of the first orchestrator in the
    same way whenever it is asked. *)
Definition steady_search (w : World) : Prop :=
  forall t t' query,
    w_search_food w t query 50 (Some "Foundation,SR Legacy")
    = w_search_food w t' query 50 (Some "Foundation,SR Legacy").

End FirstOrchestrator.

(** ** tools/semantic_verification_tool.py with a language model *)

Module SemanticVerification.
Import Py PyStr Catalog UsdaApi TieredSearch.














End SemanticVerification.

(** * Properties *)

(** ** Strings *)

Section StringFacts.
Import PyStr.

Lemma append_cons (c : ascii) (s t : string) :
  (String c s ++ t)%string = String c (s ++ t).
Proof. reflexivity. Qed.

Lemma length_append (s t : string) :
  String.length (s ++ t) = (String.length s + String.length t)%nat.
Proof.
  induction s as [|c s IH]; [reflexivity|].
  rewrite append_cons. simpl. now rewrite IH.
Qed.

Lemma append_assoc (s t u : string) : ((s ++ t) ++ u)%string = (s ++ (t ++ u))%string.
Proof.
  induction s as [|c s IH]; [reflexivity|].
  rewrite !append_cons. now rewrite IH.
Qed.

Lemma append_inv_head (s t u : string) : (s ++ t)%string = (s ++ u)%string -> t = u.
Proof.
  induction s as [|c s IH]; intros H; [exact H|].
  rewrite !append_cons in H. injection H as H. now apply IH.
Qed.

Lemma length_replace (a b : ascii) (s : string) :
  String.length (replace a b s) = String.length s.
Proof.
  induction s as [|c s IH]; simpl; [reflexivity|].
  now rewrite IH.
Qed.

Lemma last_char_append_char (s : string) (c : ascii) :
  last_char (s ++ String c EmptyString) = Some c.
Proof.
  induction s as [|d s IH]; [reflexivity|].
  rewrite append_cons. simpl.
  destruct (s ++ String c EmptyString)%string eqn:E.
  - destruct s; discriminate E.
  - exact IH.
Qed.

Lemma prefix_refl (s : string) : String.prefix s s = true.
Proof.
  induction s as [|c s IH]; simpl; [reflexivity|].
  destruct (ascii_dec c c); [exact IH | congruence].
Qed.

Lemma startswith_contains (s p : string) :
  startswith s p = true -> contains p s = true.
Proof.
  unfold startswith. intros H.
  destruct s; cbn [contains]; rewrite H; reflexivity.
Qed.

Lemma contains_refl (s : string) : contains s s = true.
Proof. apply startswith_contains, prefix_refl. Qed.

End StringFacts.

(** ** The curated mapping store *)

Section CuratedLookup.
Import PyStr MappingTool.

(** The code tries the candidate keys in their order and returns the
    first one that is a key of the store. *)
Lemma fuzzy_match_first_candidate (ingredient : string) (mappings : gmap string Entry) :
  _fuzzy_match ingredient mappings
  = find (fun k => py_in k mappings) (candidate_keys ingredient).
Proof.
  unfold _fuzzy_match, candidate_keys.
  set (k := strip (lower ingredient)).
  cbn [app find].
  destruct (py_in k mappings); [reflexivity|].
  destruct (endswith_char k "s"); cbn [app find].
  - destruct (py_in (drop_last k) mappings); reflexivity.
  - destruct (py_in (k ++ "s") mappings); [reflexivity|].
    destruct (py_in (k ++ "es") mappings); reflexivity.
Qed.

(** No candidate key is the [ies] plural of a key that ends in [y]. *)
Lemma no_ies_candidate (ingredient stem : string) :
  strip (lower ingredient) = (stem ++ "y")%string ->
  ~ In (stem ++ "ies")%string (candidate_keys ingredient).
Proof.
  intros Hk. unfold candidate_keys. rewrite Hk.
  unfold endswith_char. rewrite last_char_append_char. cbn [Ascii.eqb].
  assert (Hlen : forall a b, (stem ++ "ies")%string <> replace a b (stem ++ "y")).
  { intros a b H. apply (f_equal String.length) in H.
    rewrite length_replace, !length_append in H. simpl in H. lia. }
  cbn [app In Ascii.eqb Bool.eqb andb]. rewrite !append_assoc.
  intros [H|[H|[H|[H|[H|[H|[H|[]]]]]]]].
  - apply append_inv_head in H. discriminate H.
  - apply append_inv_head in H. cbv in H. discriminate H.
  - apply append_inv_head in H. cbv in H. discriminate H.
  - symmetry in H. exact (Hlen _ _ H).
  - symmetry in H. exact (Hlen _ _ H).
  - symmetry in H. exact (Hlen _ _ H).
  - symmetry in H. exact (Hlen _ _ H).
Qed.

(** C7, as stated, fails: the ingredient [berry] is not found under the
    curated key [berries]. *)
Lemma berry_not_found_under_berries :
  berries_store !! "berries" <> None
  /\ search_mappings "berry" berries_store = None.
Proof. split; [discriminate | reflexivity]. Qed.

(** C7, amended: the lookup answers with the entry of the first key of
    the store among, in this order, the lowercased and trimmed ingredient,
    its singular without the final [s] when it ends in [s] and otherwise
    its [s] plural and then its [es] plural, and then its four separator
    rewrites (space to underscore, underscore to space, hyphen to space,
    space to hyphen); an empty key counts as no match; and the [ies]
    plural of an ingredient that ends in [y] is never among the keys
    tried. *)
Theorem curated_lookup_order (ingredient : string) (mappings : gmap string Entry) :
  search_mappings ingredient mappings
  = match find (fun k => py_in k mappings) (candidate_keys ingredient) with
    | Some k => if truthy k then mappings !! k else None
    | None => None
    end
  /\ (forall k, _fuzzy_match ingredient mappings = Some k ->
        In k (candidate_keys ingredient) /\ is_Some (mappings !! k))
  /\ (forall stem, strip (lower ingredient) = (stem ++ "y")%string ->
        ~ In (stem ++ "ies")%string (candidate_keys ingredient)).
Proof.
  split; [|split].
  - unfold search_mappings. now rewrite fuzzy_match_first_candidate.
  - intros k Hk. rewrite fuzzy_match_first_candidate in Hk.
    apply find_some in Hk as [Hin Hpy]. split; [exact Hin|].
    unfold py_in in Hpy. destruct (mappings !! k); [eauto | discriminate].
  - intros stem. apply no_ies_candidate.
Qed.

Lemma curated_lookup_order_witness :
  ~ In "berries" (MappingTool.candidate_keys "berry").
Proof.
  exact (proj2 (proj2 (curated_lookup_order "berry" MappingTool.berries_store))
           "berr" eq_refl).
Defined.

End CuratedLookup.

(** ** The relevance scorer *)

Section RelevanceScorer.
Import PyStr ScoringTool.
Open Scope Z_scope.

(** C6, as stated, fails: on an exact match the substring bonus is added
    to the exact-match bonus, and on a prefix match to the prefix bonus. *)
Lemma exact_match_also_gets_substring_bonus :
  exact_or_prefix_bonus "whole milk" "whole milk" = 500
  /\ head_or_phrase_bonus "whole milk" "whole milk" = 200
  /\ lexical_bonus "whole milk" "whole milk" = 700
  /\ lexical_bonus "whole milk, raw" "whole milk" = 500.
Proof. repeat split; reflexivity. Qed.

(** C6, amended: the description gets +500 when it equals the query and
    otherwise +300 when it starts with the query; on top of that it gets
    +250 when it starts with the last word of the query, with +100 more
    when the query occurs in it, and only when that head bonus does not
    apply it gets +200 when the query occurs in it.  The +200 bonus
    excludes the head bonus alone: an exact match contributes 700, or 850
    with the head bonus, and a prefix match 500, or 650. *)
Theorem lexical_bonus_cases (description query_lower : string) :
  (description = query_lower ->
     lexical_bonus description query_lower
     = if head_match description query_lower then 850 else 700)
  /\ (description <> query_lower ->
      startswith description query_lower = true ->
      lexical_bonus description query_lower
      = if head_match description query_lower then 650 else 500)
  /\ (startswith description query_lower = false ->
      lexical_bonus description query_lower
      = if head_match description query_lower
        then 250 + (if contains query_lower description then 100 else 0)
        else if contains query_lower description then 200 else 0).
Proof.
  unfold lexical_bonus, exact_or_prefix_bonus, head_or_phrase_bonus.
  split; [|split].
  - intros ->. rewrite String.eqb_refl, contains_refl.
    destruct (head_match _ _); reflexivity.
  - intros Hne Hpre. apply String.eqb_neq in Hne. rewrite Hne, Hpre.
    rewrite (startswith_contains _ _ Hpre).
    destruct (head_match _ _); reflexivity.
  - intros Hpre. rewrite Hpre.
    destruct (String.eqb_spec description query_lower) as [->|_].
    + unfold startswith in Hpre. rewrite prefix_refl in Hpre. discriminate Hpre.
    + destruct (head_match _ _), (contains _ _); reflexivity.
Qed.

Lemma lexical_bonus_cases_witness :
  lexical_bonus "milk" "milk" = 850
  /\ lexical_bonus "milk, whole" "milk" = 650
  /\ lexical_bonus "cheese, whole milk" "whole milk" = 200.
Proof.
  destruct (lexical_bonus_cases "milk" "milk") as [H1 _].
  destruct (lexical_bonus_cases "milk, whole" "milk") as [_ [H2 _]].
  destruct (lexical_bonus_cases "cheese, whole milk" "whole milk") as [_ [_ H3]].
  split; [exact (H1 eq_refl)|].
  split; [apply H2; [discriminate | reflexivity] | exact (H3 eq_refl)].
Defined.

End RelevanceScorer.

(** ** The catalog client *)

Section CatalogClient.
Import Py Catalog UsdaApi.

(** A loop over replies that never raise outside [RequestException]
    returns, after at most [remaining] requests. *)
Lemma request_loop_returns {A B} (self : USDAApiClient) (send : nat -> http_reply A)
    (on_ok : A -> B) (exhausted : B) (remaining attempt : nat) :
  (forall n e, send n <> HttpRaises e) ->
  exists v, snd (request_loop self send on_ok exhausted remaining attempt) = Returned v
            /\ (requests_sent (fst (request_loop self send on_ok exhausted remaining attempt))
                <= remaining)%nat.
Proof.
  intros Hsend. revert attempt.
  assert (Hfin : forall a, requests_sent (finally_clause self a) = 0%nat).
  { intros a. unfold finally_clause. destruct (_ =? _)%Z; reflexivity. }
  assert (Happ : forall xs ys, requests_sent (xs ++ ys) = (requests_sent xs + requests_sent ys)%nat).
  { intros xs ys. unfold requests_sent. now rewrite List.filter_app, length_app. }
  induction remaining as [|remaining IH]; intros attempt; cbn [request_loop].
  - eexists. split; [reflexivity | cbn; lia].
  - destruct (send attempt) as [body| | |e] eqn:E.
    + eexists. split; [reflexivity|].
      cbn [fst]. change (Request attempt :: finally_clause self attempt)
        with ([Request attempt] ++ finally_clause self attempt)%list.
      rewrite Happ, Hfin. cbn. lia.
    + destruct (_ <? _)%Z.
      * destruct (IH (S attempt)) as (v & Hv & Hn).
        destruct (request_loop self send on_ok exhausted remaining (S attempt)) as [effs r].
        cbn [fst snd] in *. exists v. split; [exact Hv|].
        change (Request attempt :: Sleep (wait_time attempt) :: (finally_clause self attempt ++ effs)%list)
          with ([Request attempt; Sleep (wait_time attempt)] ++ (finally_clause self attempt ++ effs))%list.
        rewrite !Happ, Hfin. cbn. lia.
      * eexists. split; [reflexivity|]. cbn [fst].
        change (Request attempt :: finally_clause self attempt)
          with ([Request attempt] ++ finally_clause self attempt)%list.
        rewrite Happ, Hfin. cbn. lia.
    + destruct (_ <? _)%Z.
      * destruct (IH (S attempt)) as (v & Hv & Hn).
        destruct (request_loop self send on_ok exhausted remaining (S attempt)) as [effs r].
        cbn [fst snd] in *. exists v. split; [exact Hv|].
        change (Request attempt :: Sleep (wait_time attempt) :: (finally_clause self attempt ++ effs)%list)
          with ([Request attempt; Sleep (wait_time attempt)] ++ (finally_clause self attempt ++ effs))%list.
        rewrite !Happ, Hfin. cbn. lia.
      * eexists. split; [reflexivity|]. cbn [fst].
        change (Request attempt :: finally_clause self attempt)
          with ([Request attempt] ++ finally_clause self attempt)%list.
        rewrite Happ, Hfin. cbn. lia.
    + exfalso. exact (Hsend _ _ E).
Qed.

(** Three transport errors in a row: two waits of 2 and 4 seconds, the
    rate-limit delay after the last attempt, and the exhausted value. *)
Lemma request_loop_exhausted {A B} (send : nat -> http_reply A)
    (on_ok : A -> B) (exhausted : B) :
  transport_error (send 0%nat) -> transport_error (send 1%nat) ->
  transport_error (send 2%nat) ->
  request_loop new_client send on_ok exhausted 3 0
  = ([Request 0; Sleep 2; Request 1; Sleep 4; Request 2; Sleep (1 # 2)],
     Returned exhausted).
Proof.
  intros [H0|H0] [H1|H1] [H2|H2]; cbn; rewrite H0; cbn; rewrite H1; cbn; rewrite H2;
    reflexivity.
Qed.

(** C9: with the client as its constructor sets it up, and a transport
    that fails only with timeouts and request exceptions, the search and
    the detail fetch both return a value after at most three requests;
    when all three requests fail, the waits between them are 2 and 4
    seconds and the results are the empty list and null. *)
Theorem client_absorbs_transport_errors
    (http_search : SearchParams -> nat -> http_reply (option (list Food)))
    (http_details : Z -> nat -> http_reply (option FoodData))
    (query : string) (page_size : Z) (data_type_filter : option string) (fdc_id : Z) :
  (forall p n e, http_search p n <> HttpRaises e) ->
  (forall i n e, http_details i n <> HttpRaises e) ->
  let searched := search_food new_client http_search query page_size data_type_filter in
  let fetched := get_food_details new_client http_details fdc_id in
  (exists foods, snd searched = Returned foods)
  /\ (requests_sent (fst searched) <= 3)%nat
  /\ (exists details, snd fetched = Returned details)
  /\ (requests_sent (fst fetched) <= 3)%nat
  /\ ((forall p n, (n < 3)%nat -> transport_error (http_search p n)) ->
      searched = ([Request 0; Sleep 2; Request 1; Sleep 4; Request 2; Sleep (1 # 2)],
                  Returned []))
  /\ ((forall n, (n < 3)%nat -> transport_error (http_details fdc_id n)) ->
      fetched = ([Request 0; Sleep 2; Request 1; Sleep 4; Request 2; Sleep (1 # 2)],
                 Returned None)).
Proof.
  intros Hs Hd searched fetched. subst searched fetched.
  unfold search_food, get_food_details.
  set (params := {| p_query := query; p_pageSize := _; p_dataType := _ |}).
  destruct (request_loop_returns new_client (http_search params) (default []) [] 3 0
              (Hs params)) as (foods & Hf & Hnf).
  destruct (request_loop_returns new_client (http_details fdc_id) (fun b => b) None 3 0
              (Hd fdc_id)) as (details & Hdt & Hnd).
  cbn [max_retries new_client].
  split; [eauto|]. split; [exact Hnf|]. split; [eauto|]. split; [exact Hnd|].
  split.
  - intros Hall. apply request_loop_exhausted; apply Hall; lia.
  - intros Hall. apply request_loop_exhausted; apply Hall; lia.
Qed.

Lemma client_absorbs_transport_errors_witness :
  search_food new_client (fun _ _ => HttpTimeout) "basmati rice" 30 None
  = ([Request 0; Sleep 2; Request 1; Sleep 4; Request 2; Sleep (1 # 2)], Returned [])
  /\ get_food_details new_client (fun _ _ => HttpRequestException) 746782
     = ([Request 0; Sleep 2; Request 1; Sleep 4; Request 2; Sleep (1 # 2)], Returned None).
Proof.
  destruct (client_absorbs_transport_errors
              (fun _ _ => HttpTimeout) (fun _ _ => HttpRequestException)
              "basmati rice" 30 None 746782)
    as (_ & _ & _ & _ & Hs & Hd).
  - intros p n e. discriminate.
  - intros i n e. discriminate.
  - split.
    + apply Hs. intros p n Hn. left. reflexivity.
    + apply Hd. intros n Hn. right. reflexivity.
Defined.

End CatalogClient.

(** ** The four-tier search *)

Section MultiTierSearch.
Import Py PyStr Catalog UsdaApi.
Local Open Scope list_scope.

Lemma insert_sorted_perm {A} (before : A -> A -> bool) (x : A) (l : list A) :
  insert_sorted before x l ≡ₚ x :: l.
Proof.
  induction l as [|y l IH]; cbn [insert_sorted]; [reflexivity|].
  destruct (before x y); [reflexivity|].
  rewrite IH. apply Permutation_swap.
Qed.

Lemma stable_sort_perm {A} (before : A -> A -> bool) (l : list A) :
  stable_sort before l ≡ₚ l.
Proof.
  induction l as [|x l IH]; cbn; [reflexivity|].
  fold (stable_sort before l). rewrite insert_sorted_perm. now rewrite IH.
Qed.

Lemma fst_imap_pair {A B} (g : nat -> A -> B) (l : list A) :
  fst <$> imap (fun idx x => (x, g idx x)) l = l.
Proof.
  revert g. induction l as [|x l IH]; intros g; cbn; [reflexivity|].
  f_equal. apply IH.
Qed.

Lemma merged_empty : merged [] ([], ∅).
Proof.
  repeat split; cbn.
  - intros H. set_solver.
  - intros H. apply elem_of_nil in H. destruct H.
  - constructor.
  - intros c H. apply elem_of_nil in H. destruct H.
  - intros tier raw z H. apply elem_of_nil in H. destruct H.
Qed.

Lemma merged_step (tier : Z) (E : list (Z * Food)) (acc : list Food * gset Z) (r : Food) :
  merged E acc ->
  (forall t raw, (t, raw) ∈ E -> (t <= tier)%Z) ->
  merged (E ++ [(tier, r)]) (merge_step tier acc r).
Proof.
  intros (Hseen & Hnd & Hrows & Hoffered) Hle.
  destruct acc as [all seen]. cbn [fst snd] in *. unfold merge_step.
  assert (Hold : forall c, c ∈ all ->
            exists tier0 raw, (tier0, raw) ∈ E ++ [(tier, r)]
              /\ truthy_id (f_fdcId raw) = true /\ c = set_search_tier tier0 raw
              /\ forall tier' raw', (tier', raw') ∈ E ++ [(tier, r)] ->
                   (tier' < tier0)%Z -> f_fdcId raw' <> f_fdcId raw).
  { intros c Hc. destruct (Hrows c Hc) as (t0 & raw & Hin & Htr & -> & Hfirst).
    exists t0, raw. split; [apply elem_of_app; left; exact Hin|].
    split; [exact Htr|]. split; [reflexivity|].
    intros t' raw' Hin' Hlt. apply elem_of_app in Hin' as [Hin'|Hin'].
    - exact (Hfirst _ _ Hin' Hlt).
    - apply list_elem_of_singleton in Hin'. injection Hin' as -> ->.
      specialize (Hle _ _ Hin). lia. }
  destruct (f_fdcId r) as [z|] eqn:Hid.
  - destruct (z =? 0)%Z eqn:Hz; cbn [negb andb].
    + split; [exact Hseen|]. split; [exact Hnd|]. split; [exact Hold|].
      intros t raw z' Hin Hraw Hz'. apply elem_of_app in Hin as [Hin|Hin].
      * exact (Hoffered _ _ _ Hin Hraw Hz').
      * apply list_elem_of_singleton in Hin. injection Hin as -> ->.
        rewrite Hid in Hraw. injection Hraw as <-. apply Z.eqb_eq in Hz. contradiction.
    + destruct (bool_decide (z ∈ seen)) eqn:Hs; cbn [negb].
      * apply bool_decide_eq_true in Hs.
        split; [exact Hseen|]. split; [exact Hnd|]. split; [exact Hold|].
        intros t raw z' Hin Hraw Hz'. apply elem_of_app in Hin as [Hin|Hin].
        -- exact (Hoffered _ _ _ Hin Hraw Hz').
        -- apply list_elem_of_singleton in Hin. injection Hin as -> ->.
           rewrite Hid in Hraw. injection Hraw as <-. exact Hs.
      * apply bool_decide_eq_false in Hs. unfold merged. cbn [fst snd].
        assert (Hfresh : Some z ∉ f_fdcId <$> all).
        { intros H. apply Hseen in H. contradiction. }
        split; [|split; [|split]].
        -- intros z'. rewrite fmap_app, elem_of_app, elem_of_union, elem_of_singleton.
           cbn. rewrite Hid, list_elem_of_singleton, <- Hseen.
           split; intros [H|H]; auto; [right; congruence | left; congruence].
        -- rewrite fmap_app. apply NoDup_app. split; [exact Hnd|].
           split; [|cbn; apply NoDup_singleton].
           intros x Hx Hx'. cbn in Hx'. rewrite Hid in Hx'.
           apply list_elem_of_singleton in Hx'. subst x. contradiction.
        -- intros c Hc. apply elem_of_app in Hc as [Hc|Hc]; [exact (Hold c Hc)|].
           apply list_elem_of_singleton in Hc. subst c.
           exists tier, r. split; [apply elem_of_app; right; apply list_elem_of_singleton; reflexivity|].
           split; [rewrite Hid; cbn; now rewrite Hz|]. split; [reflexivity|].
           intros t' raw' Hin' Hlt. apply elem_of_app in Hin' as [Hin'|Hin'].
           ++ rewrite Hid. intros Heq. apply Hs.
              apply (Hoffered _ _ _ Hin' Heq). apply Z.eqb_neq. exact Hz.
           ++ apply list_elem_of_singleton in Hin'. injection Hin' as -> ->. lia.
        -- intros t raw z' Hin Hraw Hz'. apply elem_of_union.
           apply elem_of_app in Hin as [Hin|Hin].
           ++ right. exact (Hoffered _ _ _ Hin Hraw Hz').
           ++ apply list_elem_of_singleton in Hin. injection Hin as -> ->.
              rewrite Hid in Hraw. injection Hraw as <-. left. apply elem_of_singleton. reflexivity.
  - split; [exact Hseen|]. split; [exact Hnd|]. split; [exact Hold|].
    intros t raw z' Hin Hraw Hz'. apply elem_of_app in Hin as [Hin|Hin].
    + exact (Hoffered _ _ _ Hin Hraw Hz').
    + apply list_elem_of_singleton in Hin. injection Hin as -> ->.
      rewrite Hid in Hraw. discriminate Hraw.
Qed.

Lemma merged_tier (tier : Z) (results : list Food) :
  forall (E : list (Z * Food)) (acc : list Food * gset Z),
  merged E acc ->
  (forall t raw, (t, raw) ∈ E -> (t <= tier)%Z) ->
  merged (E ++ ((fun r => (tier, r)) <$> results)) (merge_tier tier acc results).
Proof.
  induction results as [|r results IH]; intros E acc Hm Hle; cbn.
  - now rewrite app_nil_r.
  - change (E ++ (tier, r) :: ((fun r0 => (tier, r0)) <$> results))%list
      with (E ++ [(tier, r)] ++ ((fun r0 => (tier, r0)) <$> results))%list.
    rewrite app_assoc. apply IH.
    + apply merged_step; assumption.
    + intros t raw Hin. apply elem_of_app in Hin as [Hin|Hin]; [eauto|].
      apply list_elem_of_singleton in Hin. injection Hin as -> ->. lia.
Qed.

Lemma elem_of_truthy_ids (rows : list Food) (z : Z) :
  z ∈ truthy_ids rows
  <-> exists raw, raw ∈ rows /\ f_fdcId raw = Some z /\ z <> 0%Z.
Proof.
  unfold truthy_ids. rewrite elem_of_list_to_set, list_elem_of_omap. split.
  - intros (raw & Hin & Hid). exists raw. split; [exact Hin|].
    unfold truthy_id in Hid. destruct (f_fdcId raw) as [z'|]; [|discriminate Hid].
    destruct (Z.eqb_spec z' 0); cbn in Hid; [discriminate Hid|].
    injection Hid as ->. auto.
  - intros (raw & Hin & Hid & Hz). exists raw. split; [exact Hin|].
    unfold truthy_id. rewrite Hid.
    destruct (Z.eqb_spec z 0); [contradiction | reflexivity].
Qed.

Lemma truthy_id_some (i : option Z) :
  truthy_id i = true -> exists z, i = Some z /\ z <> 0%Z.
Proof.
  unfold truthy_id. destruct i as [z|]; [|discriminate].
  destruct (Z.eqb_spec z 0); [discriminate|]. eauto.
Qed.

(** The ids that have been seen are the truthy ids that were offered. *)
Lemma merged_seen (E : list (Z * Food)) (acc : list Food * gset Z) :
  merged E acc -> acc.2 = truthy_ids (snd <$> E).
Proof.
  intros (Hseen & _ & Hrows & Hoffered). apply set_eq. intros z.
  rewrite elem_of_truthy_ids. split.
  - intros Hz. apply Hseen in Hz. apply list_elem_of_fmap in Hz as (c & Hid & Hc).
    destruct (Hrows c Hc) as (tier & raw & Hin & Htr & -> & _).
    cbn in Hid. exists raw. split.
    + apply list_elem_of_fmap. exists (tier, raw). auto.
    + destruct (truthy_id_some _ Htr) as (z' & Hraw & Hz'). split; congruence.
  - intros (raw & Hin & Hid & Hz).
    apply list_elem_of_fmap in Hin as ([tier raw'] & -> & Hin).
    exact (Hoffered tier raw' z Hin Hid Hz).
Qed.

Lemma fmap_some_omap {A B} (f : A -> option B) (l : list A) :
  (forall c, c ∈ l -> exists z, f c = Some z) ->
  f <$> l = Some <$> omap f l.
Proof.
  induction l as [|c l IH]; intros Hall; [reflexivity|].
  destruct (Hall c) as (z & Hz); [left|].
  cbn [fmap list_fmap omap list_omap]. rewrite Hz. cbn [fmap list_fmap]. f_equal.
  apply IH. intros c' Hc'. apply Hall. now right.
Qed.

(** There is one merged row for every id that has been seen. *)
Lemma merged_length (E : list (Z * Food)) (acc : list Food * gset Z) :
  merged E acc -> length acc.1 = size acc.2.
Proof.
  intros (Hseen & Hnd & Hrows & _).
  assert (Hsome : f_fdcId <$> acc.1 = Some <$> omap f_fdcId acc.1).
  { apply fmap_some_omap. intros c Hc.
    destruct (Hrows c Hc) as (tier & raw & _ & Htr & -> & _).
    destruct (truthy_id_some _ Htr) as (z & Hz & _). eauto. }
  rewrite Hsome in Hnd. apply NoDup_fmap in Hnd; [|typeclasses eauto].
  assert (Hset : acc.2 = list_to_set (omap f_fdcId acc.1)).
  { apply set_eq. intros z. rewrite Hseen, Hsome, elem_of_list_to_set. split.
    - intros H. apply list_elem_of_fmap in H as (z' & Heq & Hin). congruence.
    - intros H. apply list_elem_of_fmap. eauto. }
  rewrite Hset, size_list_to_set by exact Hnd.
  rewrite <- (length_fmap f_fdcId), Hsome, length_fmap. reflexivity.
Qed.

(** C5: when the four client calls return, the comprehensive search
    returns one row for every truthy FDC id among the raw rows of the
    four tiers, up to 80 rows; no FDC id occurs twice among them; every
    row is a raw row with a truthy id of one of the tiers 1 to 4 whose id
    occurs in no row of a smaller tier, with that tier as its tag and its
    other fields unchanged; and when there are at most 80 truthy ids every
    raw row with a truthy id has a row of its id in the output. *)
Theorem comprehensive_search_merges_tiers
    (client_search : string -> Z -> option string -> result (list Food))
    (query : string) (ingredient : option string) (t1 t2 t3 t4 : list Food) :
  client_search query 30%Z (Some "Foundation,SR Legacy") = Returned t1 ->
  client_search query 20%Z (Some "Survey (FNDDS)") = Returned t2 ->
  client_search query 20%Z (Some "Branded") = Returned t3 ->
  client_search query 10%Z None = Returned t4 ->
  exists out,
    search_usda_food_multi_tier_comprehensive client_search query ingredient = Returned out
    /\ (length out <= 80)%nat
    /\ NoDup (f_fdcId <$> out)
    /\ (forall c, c ∈ out ->
         exists tier raw,
           (1 <= tier <= 4)%Z
           /\ raw ∈ tier_results t1 t2 t3 t4 tier
           /\ truthy_id (f_fdcId raw) = true
           /\ c = set_search_tier tier raw
           /\ forall tier' raw', (1 <= tier' < tier)%Z ->
                raw' ∈ tier_results t1 t2 t3 t4 tier' ->
                f_fdcId raw' <> f_fdcId raw)
    /\ (forall c, c ∈ out ->
         exists tier raw,
           (1 <= tier <= 4)%Z
           /\ raw ∈ tier_results t1 t2 t3 t4 tier
           /\ f_search_tier c = Some tier
           /\ f_fdcId c = f_fdcId raw
           /\ f_fdc_id c = f_fdc_id raw
           /\ f_description c = f_description raw
           /\ f_dataType c = f_dataType raw
           /\ f_foodCategory c = f_foodCategory raw
           /\ f_semantic_match_score c = f_semantic_match_score raw)
    /\ length out = Nat.min 80 (size (truthy_ids (t1 ++ t2 ++ t3 ++ t4)))
    /\ ((size (truthy_ids (t1 ++ t2 ++ t3 ++ t4)) <= 80)%nat ->
        forall tier raw,
          (1 <= tier <= 4)%Z ->
          raw ∈ tier_results t1 t2 t3 t4 tier ->
          truthy_id (f_fdcId raw) = true ->
          exists c, c ∈ out /\ f_fdcId c = f_fdcId raw).
Proof.
  intros H1 H2 H3 H4.
  unfold search_usda_food_multi_tier_comprehensive.
  rewrite H1; cbn [bind_result]. rewrite H2; cbn [bind_result].
  rewrite H3; cbn [bind_result]. rewrite H4; cbn [bind_result].
  set (tag := fun (t : Z) (rs : list Food) => (fun r => (t, r)) <$> rs).
  set (E := (((([] ++ tag 1%Z t1) ++ tag 2%Z t2) ++ tag 3%Z t3) ++ tag 4%Z t4)).
  set (acc := merge_tier 4 (merge_tier 3 (merge_tier 2 (merge_tier 1 ([], ∅) t1) t2) t3) t4).
  assert (Htag : forall t rs x raw, (x, raw) ∈ tag t rs -> x = t /\ raw ∈ rs).
  { intros t rs x raw Hin. apply list_elem_of_fmap in Hin as (r & Heq & Hr).
    injection Heq as -> ->. auto. }
  assert (Hm : merged E acc).
  { subst E acc. apply merged_tier; [apply merged_tier; [apply merged_tier;
      [apply merged_tier; [apply merged_empty|]|]|]|].
    - intros t raw Hin. apply elem_of_nil in Hin. destruct Hin.
    - intros t raw Hin. rewrite app_nil_l in Hin. apply Htag in Hin. lia.
    - intros t raw Hin. rewrite app_nil_l in Hin.
      apply elem_of_app in Hin as [Hin|Hin]; apply Htag in Hin; lia.
    - intros t raw Hin. rewrite app_nil_l in Hin.
      apply elem_of_app in Hin as [Hin|Hin];
        [apply elem_of_app in Hin as [Hin|Hin]|]; apply Htag in Hin; lia. }
  assert (HE : forall t raw, (t, raw) ∈ E <->
            (1 <= t <= 4)%Z /\ raw ∈ tier_results t1 t2 t3 t4 t).
  { intros t raw. subst E. rewrite app_nil_l, !elem_of_app. unfold tier_results. split.
    - intros [[[Hin|Hin]|Hin]|Hin]; apply Htag in Hin as [-> Hin]; cbn; auto with lia.
    - intros [Ht Hin].
      assert (Hmk : forall rs, raw ∈ rs -> (t, raw) ∈ tag t rs).
      { intros rs Hrs. apply list_elem_of_fmap. eauto. }
      destruct (Z.eqb_spec t 1) as [->|?]; [auto|].
      destruct (Z.eqb_spec t 2) as [->|?]; [auto|].
      destruct (Z.eqb_spec t 3) as [->|?]; [auto|].
      destruct (Z.eqb_spec t 4) as [->|?]; [auto|].
      apply elem_of_nil in Hin. destruct Hin. }
  assert (Hrows_of : snd <$> E = t1 ++ t2 ++ t3 ++ t4).
  { assert (Hsnd : forall t rs, snd <$> tag t rs = rs).
    { intros t rs. unfold tag. rewrite <- list_fmap_compose.
      induction rs as [|r rs IH]; [reflexivity|]. cbn. f_equal. exact IH. }
    subst E. rewrite app_nil_l, !fmap_app, !Hsnd, <- !app_assoc. reflexivity. }
  pose proof (merged_length E acc Hm) as Hlength.
  rewrite (merged_seen E acc Hm), Hrows_of in Hlength.
  pose proof Hm as (Hseen & Hnd & Hrows & Hoffered).
  set (out := if truthy (default "" ingredient) then _ else _).
  assert (Hperm : exists sorted, sorted ≡ₚ acc.1 /\ out = Returned (take 80 sorted)).
  { subst out. destruct (truthy (default "" ingredient)).
    - eexists. split; [|reflexivity].
      rewrite stable_sort_perm. now rewrite fst_imap_pair.
    - eexists. split; [|reflexivity]. apply stable_sort_perm. }
  destruct Hperm as (sorted & Hperm & ->).
  assert (Hsource : forall c, c ∈ take 80 sorted ->
            exists tier raw,
              (1 <= tier <= 4)%Z
              /\ raw ∈ tier_results t1 t2 t3 t4 tier
              /\ truthy_id (f_fdcId raw) = true
              /\ c = set_search_tier tier raw
              /\ forall tier' raw', (1 <= tier' < tier)%Z ->
                   raw' ∈ tier_results t1 t2 t3 t4 tier' ->
                   f_fdcId raw' <> f_fdcId raw).
  { intros c Hc. apply elem_of_take in Hc as (i & Hi & _).
    apply list_elem_of_lookup_2 in Hi. rewrite Hperm in Hi.
    destruct (Hrows c Hi) as (tier & raw & Hin & Htr & -> & Hfirst).
    apply HE in Hin as [Ht Hin].
    exists tier, raw. repeat (split; [assumption|]).
    split; [reflexivity|].
    intros tier' raw' Ht' Hin'. apply (Hfirst tier' raw'); [|lia].
    apply HE. split; [lia | exact Hin']. }
  exists (take 80 sorted). split; [reflexivity|].
  split; [apply firstn_le_length|].
  split.
  { rewrite fmap_take. eapply sublist_NoDup; [|apply sublist_take].
    now rewrite Hperm. }
  split; [exact Hsource|].
  split.
  { intros c Hc. destruct (Hsource c Hc) as (tier & raw & Ht & Hin & _ & -> & _).
    exists tier, raw. cbn. auto 10. }
  split.
  { rewrite length_take, (Permutation_length Hperm), Hlength. reflexivity. }
  intros Hsize tier raw Ht Hin Htr.
  destruct (truthy_id_some _ Htr) as (z & Hid & Hz).
  assert (Hz' : Some z ∈ f_fdcId <$> acc.1).
  { apply Hseen. apply (Hoffered tier raw z); [|exact Hid | exact Hz].
    apply HE. auto. }
  apply list_elem_of_fmap in Hz' as (c & Hc & Hcin).
  exists c. split; [|congruence].
  rewrite take_ge by (rewrite (Permutation_length Hperm), Hlength; exact Hsize).
  now rewrite Hperm.
Qed.

Lemma comprehensive_search_merges_tiers_witness :
  let client_search := fun (_ : string) (_ : Z) (data_type_filter : option string) =>
    Returned (match data_type_filter with
              | Some "Branded" => [Samples.cinnamon_sticks; Samples.cinnamon]
              | _ => [Samples.cinnamon; Samples.cinnamon]
              end) in
  exists out,
    search_usda_food_multi_tier_comprehensive client_search
      "cinnamon" (Some "cinnamon sticks") = Returned out
    /\ length out = 2%nat
    /\ NoDup (f_fdcId <$> out)
    /\ (forall c, c ∈ out ->
          exists tier raw,
            (1 <= tier <= 4)%Z /\ f_search_tier c = Some tier
            /\ f_fdcId c = f_fdcId raw /\ f_description c = f_description raw)
    /\ (set_search_tier 1 Samples.cinnamon ∈ out
        /\ set_search_tier 3 Samples.cinnamon_sticks ∈ out).
Proof.
  intros client_search.
  destruct (comprehensive_search_merges_tiers client_search
              "cinnamon" (Some "cinnamon sticks")
              [Samples.cinnamon; Samples.cinnamon] [Samples.cinnamon; Samples.cinnamon]
              [Samples.cinnamon_sticks; Samples.cinnamon]
              [Samples.cinnamon; Samples.cinnamon]
              eq_refl eq_refl eq_refl eq_refl)
    as (out & Hout & _ & Hnd & _ & Htag & Hlen & _).
  replace (size _) with 2%nat in Hlen by (vm_compute; reflexivity).
  exists out. split; [exact Hout|]. split; [exact Hlen|]. split; [exact Hnd|].
  split.
  - intros c Hc.
    destruct (Htag c Hc) as (tier & raw & Ht & _ & Htier & Hid & _ & Hdesc & _).
    exists tier, raw. auto.
  - assert (Hrun : search_usda_food_multi_tier_comprehensive client_search
                     "cinnamon" (Some "cinnamon sticks")
                   = Returned [set_search_tier 3 Samples.cinnamon_sticks;
                               set_search_tier 1 Samples.cinnamon])
      by (vm_compute; reflexivity).
    rewrite Hout in Hrun. injection Hrun as ->.
    split; [right; left | left].
Defined.

End MultiTierSearch.

(** ** The nutrient normalizer *)

Section Normalizer.
Import PyStr Catalog NutrientMapper.
Local Open Scope list_scope.

Lemma mapped_id_truthy (name id : string) :
  map_usda_nutrient_to_standard name = Some id -> truthy id = true.
Proof.
  assert (Htable : forall p, In p USDA_NUTRIENT_MAPPINGS -> truthy (snd p) = true).
  { apply forallb_forall. vm_compute. reflexivity. }
  unfold map_usda_nutrient_to_standard, dict_get.
  destruct (find _ USDA_NUTRIENT_MAPPINGS) as [p|] eqn:E1; cbv beta iota zeta.
  { intros H. injection H. intros Hid. subst id.
    apply find_some in E1. destruct E1 as [Hin _]. apply Htable. exact Hin. }
  destruct (find (fun p => String.eqb (lower (fst p)) _) USDA_NUTRIENT_MAPPINGS)
    as [p|] eqn:E2; cbv beta iota.
  { intros H. injection H. intros Hid. subst id.
    apply find_some in E2. destruct E2 as [Hin _]. apply Htable. exact Hin. }
  repeat match goal with
         | |- (if ?b then _ else _) = _ -> _ => destruct b
         end;
    intros H; try discriminate H; injection H; intros Hid; subst id; reflexivity.
Qed.

(** The dictionary of null slots the normalizer starts from. *)
Lemma null_slots_lookup (ids : list string) (id : string) :
  (list_to_map ((fun nutrient_id => (nutrient_id, None)) <$> ids)
     : gmap string (option NutrientData)) !! id
  = if bool_decide (id ∈ ids) then Some None else None.
Proof.
  destruct (bool_decide (id ∈ ids)) eqn:E.
  - apply bool_decide_eq_true in E. apply elem_of_list_to_map_1'.
    + intros y Hy. apply list_elem_of_fmap in Hy as (x & Hx & _). congruence.
    + apply list_elem_of_fmap. eauto.
  - apply bool_decide_eq_false in E. apply not_elem_of_list_to_map_1.
    rewrite <- list_fmap_compose. intros H. apply E.
    apply list_elem_of_fmap in H as (x & -> & Hx). exact Hx.
Qed.

(** The loop over the catalog nutrients keeps the keys, and a slot ends
    up with the value of a catalog nutrient mapped to it, or unchanged. *)
Lemma assign_nutrients_spec (items : list (string * NutrientData)) :
  forall (result : gmap string (option NutrientData)) (id : string),
    let result' := fold_left assign_nutrient items result in
    (result !! id = None -> result' !! id = None)
    /\ (forall x, result !! id = Some x ->
          (result' !! id = Some x
           /\ forall name data, (name, data) ∈ items ->
                map_usda_nutrient_to_standard name <> Some id)
          \/ exists name data, (name, data) ∈ items
               /\ map_usda_nutrient_to_standard name = Some id
               /\ result' !! id = Some (Some data)).
Proof.
  induction items as [|[name data] items IH]; intros result id; cbn [fold_left].
  - split; [auto|]. intros x Hx. left. split; [exact Hx|].
    intros n d H. apply elem_of_nil in H. destruct H.
  - destruct (IH (assign_nutrient result (name, data)) id) as [IHnone IHsome].
    assert (Hstep : (assign_nutrient result (name, data) !! id = result !! id
                     /\ (map_usda_nutrient_to_standard name <> Some id
                         \/ result !! id = None))
                    \/ (map_usda_nutrient_to_standard name = Some id
                        /\ is_Some (result !! id)
                        /\ assign_nutrient result (name, data) !! id = Some (Some data))).
    { unfold assign_nutrient. cbn [fst snd].
      destruct (map_usda_nutrient_to_standard name) as [nid|] eqn:Emap;
        [|left; split; [reflexivity | left; discriminate]].
      rewrite (mapped_id_truthy _ _ Emap). cbn [andb]. unfold py_in.
      destruct (result !! nid) as [y|] eqn:Ey.
      - destruct (decide (nid = id)) as [->|Hne].
        + right. split; [reflexivity|]. split; [eauto|]. apply lookup_insert_eq.
        + left. split; [now apply lookup_insert_ne | left; congruence].
      - left. split; [reflexivity|].
        destruct (decide (nid = id)) as [->|Hne]; [right; exact Ey | left; congruence]. }
    split.
    + intros Hnone. apply IHnone.
      destruct Hstep as [[Heq _]|(_ & [y Hy] & _)]; congruence.
    + intros x Hx.
      destruct Hstep as [[Heq Hmap]|(Hmap & _ & Hins)].
      * rewrite <- Heq in Hx. destruct (IHsome x Hx) as [[Hres Hno]|(n & d & Hin & Hm & Hres)].
        -- left. split; [exact Hres|]. intros n d Hin.
           apply elem_of_cons in Hin as [Heq'|Hin]; [|eauto].
           injection Heq' as -> ->. destruct Hmap as [Hmap|Hmap]; [exact Hmap|].
           rewrite Heq in Hx. congruence.
        -- right. exists n, d. split; [apply elem_of_cons; right; exact Hin|]. auto.
      * right. destruct (IHsome _ Hins) as [[Hres _]|(n & d & Hin & Hm & Hres)].
        -- exists name, data. split; [apply elem_of_cons; left; reflexivity|]. auto.
        -- exists n, d. split; [apply elem_of_cons; right; exact Hin|]. auto.
Qed.

(** Every id of the definitions table is a key of the normalizer's
    output, with a null value exactly when no catalog nutrient is mapped
    to it; a value that is not null is the data of a catalog nutrient
    mapped to it; and there are no other keys. *)
Lemma extract_all_nutrients_slots (items : list (string * NutrientData))
    (ids : list string) (id : string) :
  (id ∈ ids ->
     exists x, extract_all_nutrients items ids !! id = Some x
       /\ (x = None <-> forall name data, (name, data) ∈ items ->
                          map_usda_nutrient_to_standard name <> Some id)
       /\ (forall data, x = Some data ->
             exists name, (name, data) ∈ items
               /\ map_usda_nutrient_to_standard name = Some id))
  /\ (id ∉ ids -> extract_all_nutrients items ids !! id = None).
Proof.
  unfold extract_all_nutrients.
  destruct (assign_nutrients_spec items
              (list_to_map ((fun nutrient_id => (nutrient_id, None)) <$> ids)) id)
    as [Hnone Hsome].
  rewrite null_slots_lookup in Hnone, Hsome.
  split.
  - intros Hin. rewrite bool_decide_eq_true_2 in Hsome by exact Hin.
    destruct (Hsome None eq_refl) as [[Hres Hno]|(n & d & Hi & Hm & Hres)].
    + exists None. split; [exact Hres|]. split; [tauto|]. intros data H. discriminate H.
    + exists (Some d). split; [exact Hres|]. split.
      * split; [discriminate|]. intros Hall. exfalso. exact (Hall _ _ Hi Hm).
      * intros data H. injection H as <-. eauto.
  - intros Hnin. rewrite bool_decide_eq_false_2 in Hnone by exact Hnin. auto.
Qed.

Lemma elem_of_dict_set {V} (k0 : string) (v0 : V) (d : list (string * V)) (k : string) (v : V) :
  (k, v) ∈ dict_set k0 v0 d -> (k, v) ∈ d \/ (k = k0 /\ v = v0).
Proof.
  induction d as [|[k' v'] d IH]; cbn [dict_set]; intros H.
  - apply list_elem_of_singleton in H. injection H as -> ->. auto.
  - destruct (String.eqb_spec k' k0) as [->|Hne].
    + apply elem_of_cons in H as [H|H].
      * injection H as -> ->. auto.
      * left. apply elem_of_cons. auto.
    + apply elem_of_cons in H as [H|H].
      * left. rewrite H. apply elem_of_cons. auto.
      * destruct (IH H) as [H'|H']; [left; apply elem_of_cons|]; auto.
Qed.

(** Every entry of the raw nutrient dictionary repeats the name, the
    amount and the unit of a member of [foodNutrients]. *)
Lemma collected_from_catalog (raws : list RawNutrient) :
  forall (acc : list (string * NutrientData)) (name : string) (data : NutrientData),
    (name, data) ∈ fold_left collect_nutrient raws acc ->
    (name, data) ∈ acc
    \/ exists raw, raw ∈ raws
         /\ n_amount raw = Some (nd_amount data)
         /\ name = default "" (fst (nutrient_info_of raw))
         /\ nd_unit data = default "" (snd (nutrient_info_of raw)).
Proof.
  induction raws as [|raw raws IH]; intros acc name data; cbn [fold_left].
  - auto.
  - intros H. destruct (IH _ _ _ H) as [Hacc|(raw' & Hin & Hrest)].
    + unfold collect_nutrient in Hacc.
      destruct (n_amount raw) as [amount|] eqn:Ea; [|auto].
      destruct (truthy _); [|auto].
      apply elem_of_dict_set in Hacc as [Hacc|[-> ->]]; [auto|].
      right. exists raw. split; [apply elem_of_cons; left; reflexivity|].
      cbn. auto.
    + right. exists raw'. split; [apply elem_of_cons; right; exact Hin | exact Hrest].
Qed.

(** C8, as stated, fails: energy reported as 4184 kJ is stored as 4184 kJ,
    not as the 1000 kcal that the factor 1/4.184 gives. *)
Lemma kilojoules_stored_unconverted :
  std_get (nu_standardized_nutrients
             (extract_nutrition_data ["nutrient-calories-energy"] kilojoule_record))
          "nutrient-calories-energy"
  = Some {| nd_amount := 4184 # 1; nd_unit := "kJ" |}
  /\ ((4184 # 1) / (4184 # 1000) == 1000)%Q
  /\ ~ ((4184 # 1) == 1000)%Q.
Proof.
  split; [vm_compute; reflexivity|].
  split; [reflexivity | discriminate].
Qed.

(** C8, amended: the canonical output stores in the energy slot the
    amount and the unit of a catalog nutrient mapped to energy, both as
    reported, kilojoules included; the division by 4.184 is done only when
    the similarity gate derives its basic calories from that slot. *)
Theorem energy_slot_stored_as_reported (ids : list string) (food_data : FoodData)
    (cal_data : NutrientData) :
  std_get (nu_standardized_nutrients (extract_nutrition_data ids food_data))
          "nutrient-calories-energy" = Some cal_data ->
  (exists raw, raw ∈ d_foodNutrients food_data
     /\ n_amount raw = Some (nd_amount cal_data)
     /\ nd_unit cal_data = default "" (snd (nutrient_info_of raw))
     /\ map_usda_nutrient_to_standard (default "" (fst (nutrient_info_of raw)))
        = Some "nutrient-calories-energy")
  /\ (contains "kj" (lower (nd_unit cal_data)) = true ->
      Qeq_bool (nd_amount cal_data) 0 = false ->
      basic_calories (extract_nutrition_data ids food_data)
      = Some (nd_amount cal_data / (4184 # 1000))%Q).
Proof.
  intros Hslot. split.
  - unfold std_get, extract_nutrition_data in Hslot. cbn [nu_standardized_nutrients] in Hslot.
    destruct (extract_all_nutrients _ ids !! "nutrient-calories-energy") as [x|] eqn:Ex;
      [|discriminate Hslot].
    subst x.
    set (items := fold_left collect_nutrient (d_foodNutrients food_data) []) in *.
    destruct (extract_all_nutrients_slots items ids "nutrient-calories-energy")
      as [Hkey Hnokey].
    destruct (decide ("nutrient-calories-energy" ∈ ids)) as [Hin|Hnin].
    + destruct (Hkey Hin) as (x & Hx & _ & Hdata).
      rewrite Ex in Hx. injection Hx. intros <-.
      destruct (Hdata _ eq_refl) as (name & Hitem & Hmap).
      apply collected_from_catalog in Hitem as [Hnil|(raw & Hraw & Ha & Hn & Hu)].
      * apply elem_of_nil in Hnil. destruct Hnil.
      * exists raw. subst name. auto.
    + rewrite (Hnokey Hnin) in Ex. discriminate Ex.
  - intros Hkj Hnz. unfold basic_calories. now rewrite Hslot, Hnz, Hkj.
Qed.

Lemma energy_slot_stored_as_reported_witness :
  basic_calories (extract_nutrition_data ["nutrient-calories-energy"] kilojoule_record)
  = Some ((4184 # 1) / (4184 # 1000))%Q.
Proof.
  refine (proj2 (energy_slot_stored_as_reported ["nutrient-calories-energy"]
                   kilojoule_record {| nd_amount := 4184 # 1; nd_unit := "kJ" |} _) _ _);
    vm_compute; reflexivity.
Defined.

End Normalizer.

(** ** The orchestrator *)

Section OrchestratorShape.
Import Py PyStr Catalog NutrientMapper MappingTool UsdaApi Orchestrator.
Local Open Scope list_scope.

Variable w : World.
Variable ingredient : string.

(** Unfold the monad operations in the goal. *)
Ltac unfold_monad :=
  cbv [bind ret raise lift call log modify_stats
       get_usda_food_details search_comprehensive verify_semantic_match
       calculate_nutritional_similarity_score plan_query].

Lemma retry_or_fail_cases (attempt : Z) (on_retry : Locals) (on_fail : Metadata) (st : State) :
  ((attempt < max_retries)%Z /\ retry_or_fail attempt on_retry on_fail st = (Returned (Next on_retry), st))
  \/ (~ (attempt < max_retries)%Z /\
      retry_or_fail attempt on_retry on_fail st
      = (Returned (Return (_create_failed_result on_fail)),
         {| tick := tick st; events := events st;
            stats := bump_no_mapping_found (stats st) |})).
Proof.
  unfold retry_or_fail. destruct (Z.ltb_spec attempt max_retries).
  - left. split; [assumption | reflexivity].
  - right. split; [lia | reflexivity].
Qed.

Lemma retry_or_fail_ok (attempt : Z) (on_retry : Locals) (on_fail : Metadata) (st : State) :
  m_ingredient (result_metadata on_retry) = ingredient ->
  m_ingredient on_fail = ingredient ->
  m_flag on_fail = "NO_MAPPING_FOUND" ->
  In (m_mapping_status on_fail) failure_statuses ->
  step_ok w ingredient (fst (retry_or_fail attempt on_retry on_fail st)).
Proof.
  intros Hretry Hing Hflag Hstatus.
  destruct (retry_or_fail_cases attempt on_retry on_fail st) as [[_ ->]|[_ ->]]; cbn.
  - exact Hretry.
  - now apply emitted_failed.
Qed.

(** Close the side conditions on a failed result. *)
Ltac failed_result_ok :=
  apply retry_or_fail_ok; cbn;
  first [ assumption | reflexivity | repeat first [left; reflexivity | right] ].

Lemma nutritional_path_ok (attempt : Z) (locals : Locals) (md : Metadata)
    (search_query : string) (verified_results : list Food) (s : Q) (st : State) :
  m_ingredient md = ingredient ->
  Qle_bool 65 s = true -> Qle_bool 90 s = false ->
  step_ok w ingredient
    (fst (nutritional_path w ingredient attempt locals md search_query
            verified_results s (semantic_decision s) st)).
Proof.
  intros Hmd H65 H90. unfold nutritional_path. unfold_monad. cbn [fst snd tick events stats].
  destruct (w_nutritional w (tick st) ingredient verified_results) as [|best_match rest].
  - failed_result_ok.
  - destruct (allow_mapping (semantic_decision s) && _) eqn:Hgate; [|exact Hmd].
    apply andb_prop in Hgate as [_ Hgate].
    destruct (confidence_level s _) as [flag mapping_status] eqn:Hlevel.
    cbn [tick events stats].
    destruct (w_food_details w (S (tick st)) (s_fdc_id best_match)) as [[fd|]|e]; cbn.
    + destruct (extraction_start_bound locals); cbn; [|exact I].
      pose proof (emitted_gated w ingredient fd s _ attempt (m_search_queries_used md)
                    H65 H90 Hgate) as Hem.
      rewrite Hlevel in Hem. exact Hem.
    + failed_result_ok.
    + exact I.
Qed.

Lemma direct_path_ok (attempt : Z) (locals : Locals) (md : Metadata)
    (search_query : string) (best : Food) (others : list Food) (s : Q) (st : State) :
  m_ingredient md = ingredient ->
  Qle_bool 90 s = true ->
  step_ok w ingredient
    (fst (direct_path w ingredient attempt locals md search_query best others s st)).
Proof.
  intros Hmd H90. unfold direct_path.
  match goal with |- context [negb (truthy_id ?i)] => set (fdc_id := i) end.
  destruct (truthy_id fdc_id); cbn [negb]; [|failed_result_ok].
  unfold_monad. cbn [fst snd tick events stats].
  destruct (w_food_details w (tick st) fdc_id) as [[fd|]|e]; cbn [fst snd].
  - cbn. now apply emitted_direct.
  - match goal with |- context [fetch_alternatives ?a ?b ?c ?d] =>
      destruct (fetch_alternatives a b c d) as [[[fd|]|e] st1] end; cbn [fst snd].
    + cbn. now apply emitted_direct.
    + failed_result_ok.
    + exact I.
  - exact I.
Qed.

Lemma attempt_body_ok (attempt : Z) (locals : Locals) (st : State) :
  m_ingredient (result_metadata locals) = ingredient ->
  step_ok w ingredient (fst (attempt_body w ingredient attempt locals st)).
Proof.
  intros Hmd. unfold attempt_body. unfold_monad. cbn [fst snd tick events stats].
  match goal with |- context [begin_attempt ?a ?b ?c] => set (md := begin_attempt a b c) end.
  assert (Hmd' : m_ingredient md = ingredient) by exact Hmd.
  clearbody md.
  match goal with |- context [search_usda_food_multi_tier_comprehensive ?a ?b ?c] =>
    destruct (search_usda_food_multi_tier_comprehensive a b c) as [[|c0 cs]|e] end;
    cbn [fst snd]; [failed_result_ok| |exact I].
  match goal with |- context [w_verify_semantic ?a ?b ?c ?d] =>
    destruct (w_verify_semantic a b c d) as [|best rest] end; [failed_result_ok|].
  set (s := default 0%Q (f_semantic_match_score best)).
  destruct (Qle_bool 65 s) eqn:H65; [|failed_result_ok].
  destruct (proceed_to_step4 (semantic_decision s)) eqn:Hproceed.
  - apply nutritional_path_ok; [exact Hmd' | exact H65 |].
    unfold semantic_decision in Hproceed.
    destruct (Qle_bool 90 s); [discriminate Hproceed | reflexivity].
  - apply direct_path_ok; [exact Hmd'|].
    unfold semantic_decision in Hproceed.
    destruct (Qle_bool 90 s); [reflexivity|].
    destruct (Qle_bool 80 s); [discriminate Hproceed|].
    rewrite H65 in Hproceed. discriminate Hproceed.
Qed.

Lemma attempts_ok (remaining : nat) :
  forall (attempt : Z) (locals : Locals) (st : State) (r : ResultRecord) (st' : State),
    m_ingredient (result_metadata locals) = ingredient ->
    attempts w ingredient remaining attempt locals st = (Returned r, st') ->
    emitted w ingredient r.
Proof.
  induction remaining as [|remaining IH]; intros attempt locals st r st' Hmd Hrun.
  - cbn in Hrun. injection Hrun as <- _.
    apply emitted_failed; cbn; auto 10.
  - cbn [attempts] in Hrun. unfold bind at 1 in Hrun.
    pose proof (attempt_body_ok attempt locals st Hmd) as Hstep.
    destruct (attempt_body w ingredient attempt locals st) as [[[r1|locals1]|e] st1];
      cbn [fst step_ok] in Hstep.
    + injection Hrun as <- _. exact Hstep.
    + eapply IH; eassumption.
    + discriminate Hrun.
Qed.

(** Every record the pipeline returns for an ingredient is one of the
    four kinds of records. *)
Lemma fetch_emits (st : State) (r : ResultRecord) (st' : State) :
  fetch_nutrition_for_ingredient w ingredient st = (Returned r, st') ->
  emitted w ingredient r.
Proof.
  unfold fetch_nutrition_for_ingredient.
  destruct (search_mappings ingredient (w_mappings w)) as [mapping|].
  - unfold_monad. cbn [fst snd tick events stats].
    destruct (w_food_details w (tick st) (Some (e_fdc_id mapping))) as [[fd|]|e].
    + cbn. intros H. injection H as <- _. apply emitted_curated.
    + apply attempts_ok. reflexivity.
    + discriminate.
  - apply attempts_ok. reflexivity.
Qed.

End OrchestratorShape.

Section EmittedRecords.
Import Py PyStr Catalog NutrientMapper MappingTool UsdaApi Orchestrator Samples.
Local Open Scope list_scope.

(** Past the threshold of either band the confidence level is never the
    low one: the threshold is 80 or 90, and a score of at least 80 takes
    one of the first two branches. *)
Lemma confidence_level_cases (s n : Q) :
  Qle_bool (nutritional_threshold (semantic_decision s)) n = true ->
  confidence_level s n = ("HIGH_CONFIDENCE", "search_verified_high")
  \/ confidence_level s n = ("MID_CONFIDENCE", "search_verified_mid_semantic_low")
  \/ confidence_level s n = ("MID_CONFIDENCE", "search_verified_mid").
Proof.
  unfold semantic_decision, confidence_level.
  destruct (Qle_bool 90 s); cbn [nutritional_threshold].
  - intros H. destruct (Qle_bool 90 n); [destruct (Qle_bool 80 s); auto|].
    rewrite H. auto.
  - destruct (Qle_bool 80 s); cbn [nutritional_threshold].
    + intros H. destruct (Qle_bool 90 n); [auto|]. rewrite H. auto.
    + destruct (Qle_bool 65 s); cbn [nutritional_threshold]; intros H.
      * rewrite H. auto.
      * destruct (Qle_bool 90 n); [auto|]. rewrite H. auto.
Qed.

(** C10: no record the pipeline returns carries the flag LOW_CONFIDENCE;
    a record found by search is flagged HIGH_CONFIDENCE or MID_CONFIDENCE. *)
Theorem low_confidence_never_emitted (w : World) (ingredient : string)
    (st : State) (r : ResultRecord) (st' : State) :
  fetch_nutrition_for_ingredient w ingredient st = (Returned r, st') ->
  r_flag r <> "LOW_CONFIDENCE"
  /\ (r_source r = Some "search" ->
      r_flag r = "HIGH_CONFIDENCE" \/ r_flag r = "MID_CONFIDENCE").
Proof.
  intros Hrun. apply fetch_emits in Hrun.
  destruct Hrun as [fd|fd s attempt queries H90|fd s n attempt queries H65 H90 Hgate
                    |md Hing Hflag Hstatus]; cbn.
  - split; [discriminate | auto].
  - split; [discriminate | auto].
  - destruct (confidence_level_cases s n Hgate) as [->|[->| ->]]; cbn;
      (split; [discriminate | auto]).
  - rewrite Hflag. split; [discriminate | discriminate].
Qed.

Lemma low_confidence_never_emitted_witness :
  let w := world_of ∅ 92 50 (Returned (Some cinnamon_detail)) in
  let r :=
    search_record "cinnamon sticks"
      (extract_nutrition_data (w_nutrient_ids w) cinnamon_detail)
      "HIGH_CONFIDENCE" "search_verified_semantic_high" 92 None 1 ["cinnamon sticks"] in
  fetch_nutrition_for_ingredient w "cinnamon sticks" initial_state
  = (Returned r, snd (fetch_nutrition_for_ingredient w "cinnamon sticks" initial_state))
  /\ r_flag r <> "LOW_CONFIDENCE".
Proof.
  intros w r.
  assert (Hrun : fetch_nutrition_for_ingredient w "cinnamon sticks" initial_state
                 = (Returned r,
                    snd (fetch_nutrition_for_ingredient w "cinnamon sticks" initial_state)))
    by (vm_compute; reflexivity).
  split; [exact Hrun|].
  exact (proj1 (low_confidence_never_emitted w "cinnamon sticks" initial_state r _ Hrun)).
Defined.

(** C4: a record whose source is the curated mapping is flagged
    HIGH_CONFIDENCE with both scores 100 and no retry attempt; and when
    the store has an entry for the ingredient and the detail record of
    its id is fetched, the pipeline returns that record. *)
Theorem curated_fast_path_record (w : World) (ingredient : string) (st : State)
    (mapping : Entry) (fd : FoodData) :
  search_mappings ingredient (w_mappings w) = Some mapping ->
  w_food_details w (tick st) (Some (e_fdc_id mapping)) = Returned (Some fd) ->
  exists r st',
    fetch_nutrition_for_ingredient w ingredient st = (Returned r, st')
    /\ r = curated_record ingredient (extract_nutrition_data (w_nutrient_ids w) fd)
    /\ r_source r = Some "curated_mapping"
    /\ r_flag r = "HIGH_CONFIDENCE"
    /\ r_semantic_match_score r = Some 100%Q
    /\ r_nutritional_similarity_score r = Some 100%Q
    /\ r_retry_attempts r = 0%Z
    /\ r_fdc_id r = d_fdcId fd.
Proof.
  intros Hmap Hdet. unfold fetch_nutrition_for_ingredient. rewrite Hmap.
  cbv [bind ret lift call modify_stats get_usda_food_details].
  cbn [fst snd tick events stats]. rewrite Hdet.
  eexists _, _. split; [reflexivity|]. repeat split.
Qed.

Lemma curated_fast_path_record_witness :
  exists r st',
    fetch_nutrition_for_ingredient
      (world_of cinnamon_store 0 0 (Returned (Some cinnamon_detail))) "Cinnamon" initial_state
    = (Returned r, st')
    /\ r_source r = Some "curated_mapping"
    /\ r_flag r = "HIGH_CONFIDENCE"
    /\ r_retry_attempts r = 0%Z.
Proof.
  destruct (curated_fast_path_record
              (world_of cinnamon_store 0 0 (Returned (Some cinnamon_detail)))
              "Cinnamon" initial_state
              {| e_fdc_id := 171320; e_description := "Spices, cinnamon, ground";
                 e_data_type := "SR Legacy"; e_verified := true; e_notes := "" |}
              cinnamon_detail eq_refl eq_refl)
    as (r & st' & Hrun & _ & Hsrc & Hflag & _ & _ & Hretry & _).
  exists r, st'. auto.
Defined.

(** Conversely, the curated source implies the curated values. *)
Lemma curated_source_values (w : World) (ingredient : string)
    (st : State) (r : ResultRecord) (st' : State) :
  fetch_nutrition_for_ingredient w ingredient st = (Returned r, st') ->
  r_source r = Some "curated_mapping" ->
  r_flag r = "HIGH_CONFIDENCE"
  /\ r_semantic_match_score r = Some 100%Q
  /\ r_nutritional_similarity_score r = Some 100%Q
  /\ r_retry_attempts r = 0%Z.
Proof.
  intros Hrun. apply fetch_emits in Hrun.
  destruct Hrun; cbn; intros Hsrc; try discriminate Hsrc. repeat split.
Qed.

(** C2, as stated, fails: a failed result has no nutrient key at all. *)
Lemma failed_result_has_no_nutrient_keys :
  exists r st',
    fetch_nutrition_for_ingredient
      (world_of ∅ 55 0 (Returned (Some cinnamon_detail))) "tzatziki" initial_state
    = (Returned r, st')
    /\ r_flag r = "NO_MAPPING_FOUND"
    /\ "nutrient-protein" ∈ w_nutrient_ids (world_of ∅ 55 0 (Returned (Some cinnamon_detail)))
    /\ r_standardized_nutrients r !! "nutrient-protein" = None.
Proof.
  eexists _, _. split; [vm_compute; reflexivity|].
  split; [reflexivity|]. split; [|reflexivity].
  apply elem_of_cons. right. apply elem_of_cons. left. reflexivity.
Qed.

(** C2, amended: a record that is not flagged NO_MAPPING_FOUND has every
    id of the definitions table as a key of its nutrients, with the value
    null exactly when no catalog nutrient of the record is mapped to the
    id; a record flagged NO_MAPPING_FOUND has an empty nutrients mapping. *)
Theorem nutrient_keys_of_records (w : World) (ingredient : string)
    (st : State) (r : ResultRecord) (st' : State) :
  fetch_nutrition_for_ingredient w ingredient st = (Returned r, st') ->
  (r_flag r = "NO_MAPPING_FOUND" -> r_standardized_nutrients r = ∅)
  /\ (r_flag r <> "NO_MAPPING_FOUND" ->
      forall id, id ∈ w_nutrient_ids w ->
        exists x, r_standardized_nutrients r !! id = Some x
          /\ (x = None <-> forall name data, (name, data) ∈ r_nutrients r ->
                             map_usda_nutrient_to_standard name <> Some id)).
Proof.
  intros Hrun. apply fetch_emits in Hrun.
  assert (Hkeys : forall fd id, id ∈ w_nutrient_ids w ->
            exists x,
              nu_standardized_nutrients (extract_nutrition_data (w_nutrient_ids w) fd) !! id
              = Some x
              /\ (x = None <-> forall name data,
                    (name, data) ∈ nu_nutrients (extract_nutrition_data (w_nutrient_ids w) fd) ->
                    map_usda_nutrient_to_standard name <> Some id)).
  { intros fd id Hid. cbn [extract_nutrition_data nu_standardized_nutrients nu_nutrients].
    destruct (extract_all_nutrients_slots
                (fold_left collect_nutrient (d_foodNutrients fd) [])
                (w_nutrient_ids w) id) as [Hkey _].
    destruct (Hkey Hid) as (x & Hx & Hnull & _). eauto. }
  destruct Hrun as [fd|fd s attempt queries H90|fd s n attempt queries H65 H90 Hgate
                    |md Hing Hflag Hstatus];
    cbn [r_flag r_standardized_nutrients r_nutrients curated_record search_record
         _create_failed_result].
  - split; [discriminate | intros _; apply Hkeys].
  - split; [discriminate | intros _; apply Hkeys].
  - split; [|intros _; apply Hkeys].
    destruct (confidence_level_cases s n Hgate) as [->|[->| ->]]; discriminate.
  - split; [reflexivity | intros H; contradiction].
Qed.

Lemma nutrient_keys_of_records_witness :
  let w := world_of ∅ 92 0 (Returned (Some cinnamon_detail)) in
  let r :=
    search_record "cinnamon"
      (extract_nutrition_data (w_nutrient_ids w) cinnamon_detail)
      "HIGH_CONFIDENCE" "search_verified_semantic_high" 92 None 1 ["cinnamon"] in
  let w' := world_of ∅ 55 0 (Returned (Some cinnamon_detail)) in
  let r' :=
    _create_failed_result
      (with_processing_time
         (with_semantic
            (mark_failed
               (begin_attempt (begin_attempt (initial_metadata "tzatziki") 1 "tzatziki")
                  2 "tzatziki raw")
               "semantic_score_too_low") 55)) in
  (fetch_nutrition_for_ingredient w "cinnamon" initial_state
   = (Returned r, snd (fetch_nutrition_for_ingredient w "cinnamon" initial_state))
   /\ forall id, id ∈ w_nutrient_ids w ->
        exists x, r_standardized_nutrients r !! id = Some x
          /\ (x = None <-> forall name data, (name, data) ∈ r_nutrients r ->
                             map_usda_nutrient_to_standard name <> Some id))
  /\ (fetch_nutrition_for_ingredient w' "tzatziki" initial_state
      = (Returned r', snd (fetch_nutrition_for_ingredient w' "tzatziki" initial_state))
      /\ r_standardized_nutrients r' = ∅).
Proof.
  intros w r w' r'.
  assert (Hrun : fetch_nutrition_for_ingredient w "cinnamon" initial_state
                 = (Returned r, snd (fetch_nutrition_for_ingredient w "cinnamon" initial_state)))
    by (vm_compute; reflexivity).
  assert (Hrun' : fetch_nutrition_for_ingredient w' "tzatziki" initial_state
                  = (Returned r',
                     snd (fetch_nutrition_for_ingredient w' "tzatziki" initial_state)))
    by (vm_compute; reflexivity).
  split; (split; [eassumption|]).
  - apply (proj2 (nutrient_keys_of_records w "cinnamon" initial_state r _ Hrun)).
    discriminate.
  - apply (proj1 (nutrient_keys_of_records w' "tzatziki" initial_state r' _ Hrun')).
    reflexivity.
Defined.

End EmittedRecords.

(** ** The switch on the best semantic score *)

Section SemanticSwitch.
Import Py PyStr Catalog NutrientMapper MappingTool UsdaApi Orchestrator.
Local Open Scope list_scope.

Variable w : World.
Variable ingredient : string.
Variable attempt : Z.
Variable locals : Locals.
Variable st : State.
Variables (c : Food) (cs : list Food) (best : Food) (rest : list Food).

Let search_query := planned_query w ingredient attempt (previous_queries locals) (tick st).
Let md := begin_attempt (result_metadata locals) attempt search_query.
Let s := default 0%Q (f_semantic_match_score best).
Let out := attempt_body w ingredient attempt locals st.

(** The attempt reaches the switch: the search returns rows and the
    semantic verifier returns [best] first. *)
Hypothesis Hsearch :
  search_usda_food_multi_tier_comprehensive (w_search_food w (S (tick st)))
    search_query (Some ingredient) = Returned (c :: cs).
Hypothesis Hverify :
  w_verify_semantic w (S (S (tick st))) ingredient (c :: cs) = best :: rest.

Ltac unfold_monad :=
  cbv [bind ret raise lift call log modify_stats
       get_usda_food_details search_comprehensive verify_semantic_match
       calculate_nutritional_similarity_score plan_query].

Ltac count_calls :=
  unfold count_events; cbn [events];
  rewrite ?List.filter_app, ?length_app; cbn; lia.







Lemma Qle_bool_false_iff (a b : Q) : Qle_bool a b = false <-> (b < a)%Q.
Proof.
  split.
  - intros H. apply Qnot_le_lt. intros Hle. apply Qle_bool_iff in Hle. congruence.
  - intros H. destruct (Qle_bool a b) eqn:E; [|reflexivity].
    apply Qle_bool_iff in E. exfalso. exact (Qlt_not_le _ _ H E).
Qed.


End SemanticSwitch.

Section SemanticSwitchWitness.
Import Py PyStr Catalog NutrientMapper MappingTool UsdaApi Orchestrator Samples.


End SemanticSwitchWitness.

(** ** The batch loop *)

Section BatchLoop.
Import Py PyStr Catalog NutrientMapper MappingTool UsdaApi Orchestrator Samples.
Local Open Scope list_scope.

Variable w : World.

Ltac unfold_monad :=
  cbv [bind ret raise lift call log modify_stats try_except
       get_usda_food_details search_comprehensive verify_semantic_match
       calculate_nutritional_similarity_score plan_query].

Lemma quiet_refl (st : State) : quiet st st.
Proof. split; reflexivity. Qed.

Lemma quiet_trans (st1 st2 st3 : State) : quiet st1 st2 -> quiet st2 st3 -> quiet st1 st3.
Proof. intros [H1 H2] [H3 H4]. split; congruence. Qed.

(** A state that differs from [st] by service calls and statistics other
    than the total is quiet. *)
Ltac quiet_step :=
  split; [ unfold count_events; cbn [fst snd events];
           rewrite ?List.filter_app, ?length_app; cbn; lia
         | reflexivity ].

Lemma retry_or_fail_quiet (attempt : Z) (on_retry : Locals) (on_fail : Metadata)
    (st : State) :
  quiet st (snd (retry_or_fail attempt on_retry on_fail st)).
Proof.
  unfold retry_or_fail. destruct (attempt <? max_retries)%Z; quiet_step.
Qed.

Lemma alternatives_quiet (fdc_id : option Z) (others : list Food) :
  forall st, quiet st (snd (fetch_alternatives w fdc_id others st)).
Proof.
  induction others as [|alt others IH]; intros st; cbn [fetch_alternatives].
  - apply quiet_refl.
  - destruct (truthy_id (fdc_id_of alt) && _); [|apply IH].
    unfold_monad. cbn [fst snd tick events stats].
    destruct (w_food_details w (tick st) (fdc_id_of alt)) as [[fd|]|e]; cbn [fst snd].
    + quiet_step.
    + eapply quiet_trans; [|apply IH]. quiet_step.
    + quiet_step.
Qed.

Lemma nutritional_path_quiet (ingredient : string) (attempt : Z) (locals : Locals)
    (md : Metadata) (q : string) (verified : list Food) (s : Q) (d : Decision) (st : State) :
  quiet st (snd (nutritional_path w ingredient attempt locals md q verified s d st)).
Proof.
  unfold nutritional_path. unfold_monad. cbn [fst snd tick events stats].
  destruct (w_nutritional w (tick st) ingredient verified) as [|best_match others].
  - eapply quiet_trans; [|apply retry_or_fail_quiet]. quiet_step.
  - destruct (allow_mapping d && _); [|quiet_step].
    destruct (confidence_level s _) as [flag mapping_status]. cbn [tick events stats].
    destruct (w_food_details w (S (tick st)) (s_fdc_id best_match)) as [[fd|]|e];
      cbn [fst snd].
    + destruct (extraction_start_bound locals); quiet_step.
    + eapply quiet_trans; [|apply retry_or_fail_quiet]. quiet_step.
    + quiet_step.
Qed.

Lemma direct_path_quiet (ingredient : string) (attempt : Z) (locals : Locals)
    (md : Metadata) (q : string) (best : Food) (others : list Food) (s : Q) (st : State) :
  quiet st (snd (direct_path w ingredient attempt locals md q best others s st)).
Proof.
  unfold direct_path.
  match goal with |- context [negb (truthy_id ?i)] => set (fdc_id := i) end.
  destruct (truthy_id fdc_id); cbn [negb]; [|apply retry_or_fail_quiet].
  unfold_monad. cbn [fst snd tick events stats].
  destruct (w_food_details w (tick st) fdc_id) as [[fd|]|e]; cbn [fst snd].
  - quiet_step.
  - match goal with |- context [fetch_alternatives ?a ?b ?c ?d] =>
      pose proof (alternatives_quiet b c d) as Halt;
      destruct (fetch_alternatives a b c d) as [[[fd|]|e] st1] end; cbn [fst snd] in *.
    + eapply quiet_trans; [|eapply quiet_trans; [exact Halt|]]; quiet_step.
    + eapply quiet_trans; [|eapply quiet_trans; [exact Halt|apply retry_or_fail_quiet]].
      quiet_step.
    + eapply quiet_trans; [|exact Halt]. quiet_step.
  - quiet_step.
Qed.

Lemma attempt_body_quiet (ingredient : string) (attempt : Z) (locals : Locals)
    (st : State) :
  quiet st (snd (attempt_body w ingredient attempt locals st)).
Proof.
  unfold attempt_body. unfold_monad. cbn [fst snd tick events stats].
  match goal with |- context [search_usda_food_multi_tier_comprehensive ?a ?b ?c] =>
    destruct (search_usda_food_multi_tier_comprehensive a b c) as [[|c0 cs]|e] end;
    cbn [fst snd].
  - eapply quiet_trans; [|apply retry_or_fail_quiet]. quiet_step.
  - match goal with |- context [w_verify_semantic ?a ?b ?c ?d] =>
      destruct (w_verify_semantic a b c d) as [|best rest] end.
    + eapply quiet_trans; [|apply retry_or_fail_quiet]. quiet_step.
    + destruct (Qle_bool 65 _).
      * destruct (proceed_to_step4 _).
        -- eapply quiet_trans; [|apply nutritional_path_quiet]. quiet_step.
        -- eapply quiet_trans; [|apply direct_path_quiet]. quiet_step.
      * eapply quiet_trans; [|apply retry_or_fail_quiet]. quiet_step.
  - quiet_step.
Qed.

Lemma attempts_quiet (ingredient : string) (remaining : nat) :
  forall (attempt : Z) (locals : Locals) (st : State),
    quiet st (snd (attempts w ingredient remaining attempt locals st)).
Proof.
  induction remaining as [|remaining IH]; intros attempt locals st; cbn [attempts].
  - quiet_step.
  - unfold bind at 1.
    pose proof (attempt_body_quiet ingredient attempt locals st) as Hbody.
    destruct (attempt_body w ingredient attempt locals st) as [[[r|locals1]|e] st1];
      cbn [fst snd] in *.
    + exact Hbody.
    + eapply quiet_trans; [exact Hbody | apply IH].
    + exact Hbody.
Qed.

(** Processing one ingredient logs no exception of its own and keeps the
    total. *)
Lemma fetch_quiet (ingredient : string) (st : State) :
  quiet st (snd (fetch_nutrition_for_ingredient w ingredient st)).
Proof.
  unfold fetch_nutrition_for_ingredient.
  destruct (search_mappings ingredient (w_mappings w)) as [mapping|];
    [|apply attempts_quiet].
  unfold_monad. cbn [fst snd tick events stats].
  destruct (w_food_details w (tick st) (Some (e_fdc_id mapping))) as [[fd|]|e];
    cbn [fst snd].
  - quiet_step.
  - eapply quiet_trans; [|apply attempts_quiet]. quiet_step.
  - quiet_step.
Qed.

Local Abbreviation logged st := (count_events is_logged_exception st).

(** *** The processing time of the records *)

Lemma retry_or_fail_timed (attempt : Z) (on_retry : Locals) (on_fail : Metadata)
    (st : State) :
  m_processing_time_seconds (result_metadata on_retry) = None ->
  (m_processing_time_seconds on_fail = None
   <-> m_mapping_status on_fail = "nutritional_mismatch") ->
  step_timed (fst (retry_or_fail attempt on_retry on_fail st)).
Proof.
  intros Hretry Hfail. unfold retry_or_fail.
  destruct (attempt <? max_retries)%Z; cbn; [exact Hretry | exact Hfail].
Qed.

(** Close the side conditions on a failed result that has its time. *)
Ltac timed_result :=
  apply retry_or_fail_timed; cbn;
  [ assumption | split; intros Habsurd; discriminate Habsurd ].

Lemma confidence_level_status (s n : Q) :
  snd (confidence_level s n) <> "nutritional_mismatch".
Proof.
  unfold confidence_level.
  destruct (Qle_bool 90 n); [destruct (Qle_bool 80 s); discriminate|].
  destruct (Qle_bool 80 n); discriminate.
Qed.

Lemma nutritional_path_timed (ingredient : string) (attempt : Z) (locals : Locals)
    (md : Metadata) (q : string) (verified : list Food) (s : Q) (d : Decision) (st : State) :
  m_processing_time_seconds md = None ->
  step_timed (fst (nutritional_path w ingredient attempt locals md q verified s d st)).
Proof.
  intros Hmd. unfold nutritional_path. unfold_monad. cbn [fst snd tick events stats].
  destruct (w_nutritional w (tick st) ingredient verified) as [|best_match others].
  - apply retry_or_fail_timed; cbn; [exact Hmd|].
    split; [reflexivity | intros _; exact Hmd].
  - destruct (allow_mapping d && _); [|exact Hmd].
    pose proof (confidence_level_status s
                  (default 0%Q (s_nutritional_similarity_score best_match))) as Hstatus.
    destruct (confidence_level s _) as [flag mapping_status]. cbn [snd] in Hstatus.
    cbn [tick events stats].
    destruct (w_food_details w (S (tick st)) (s_fdc_id best_match)) as [[fd|]|e];
      cbn [fst snd].
    + destruct (extraction_start_bound locals); cbn; [|exact I].
      split; [discriminate | intros H; contradiction].
    + timed_result.
    + exact I.
Qed.

Lemma direct_path_timed (ingredient : string) (attempt : Z) (locals : Locals)
    (md : Metadata) (q : string) (best : Food) (others : list Food) (s : Q) (st : State) :
  m_processing_time_seconds md = None ->
  step_timed (fst (direct_path w ingredient attempt locals md q best others s st)).
Proof.
  intros Hmd. unfold direct_path.
  match goal with |- context [negb (truthy_id ?i)] => set (fdc_id := i) end.
  destruct (truthy_id fdc_id); cbn [negb]; [|timed_result].
  unfold_monad. cbn [fst snd tick events stats].
  destruct (w_food_details w (tick st) fdc_id) as [[fd|]|e]; cbn [fst snd].
  - cbn. split; discriminate.
  - match goal with |- context [fetch_alternatives ?a ?b ?c ?d] =>
      destruct (fetch_alternatives a b c d) as [[[fd|]|e] st1] end; cbn [fst snd].
    + cbn. split; discriminate.
    + timed_result.
    + exact I.
  - exact I.
Qed.

Lemma attempt_body_timed (ingredient : string) (attempt : Z) (locals : Locals)
    (st : State) :
  m_processing_time_seconds (result_metadata locals) = None ->
  step_timed (fst (attempt_body w ingredient attempt locals st)).
Proof.
  intros Hmd. unfold attempt_body. unfold_monad. cbn [fst snd tick events stats].
  match goal with |- context [begin_attempt ?a ?b ?c] => set (md := begin_attempt a b c) end.
  assert (Hmd' : m_processing_time_seconds md = None) by exact Hmd.
  clearbody md.
  match goal with |- context [search_usda_food_multi_tier_comprehensive ?a ?b ?c] =>
    destruct (search_usda_food_multi_tier_comprehensive a b c) as [[|c0 cs]|e] end;
    cbn [fst snd]; [timed_result| |exact I].
  match goal with |- context [w_verify_semantic ?a ?b ?c ?d] =>
    destruct (w_verify_semantic a b c d) as [|best rest] end; [timed_result|].
  destruct (Qle_bool 65 _); [|timed_result].
  destruct (proceed_to_step4 _).
  - now apply nutritional_path_timed.
  - now apply direct_path_timed.
Qed.

Lemma attempts_timed (ingredient : string) (remaining : nat) :
  forall (attempt : Z) (locals : Locals) (st : State) (r : ResultRecord) (st' : State),
    m_processing_time_seconds (result_metadata locals) = None ->
    attempts w ingredient remaining attempt locals st = (Returned r, st') ->
    timed r.
Proof.
  induction remaining as [|remaining IH]; intros attempt locals st r st' Hmd Hrun.
  - cbn in Hrun. injection Hrun as <- _. split; discriminate.
  - cbn [attempts] in Hrun. unfold bind at 1 in Hrun.
    pose proof (attempt_body_timed ingredient attempt locals st Hmd) as Hstep.
    destruct (attempt_body w ingredient attempt locals st) as [[[r1|locals1]|e] st1];
      cbn [fst step_timed] in Hstep.
    + injection Hrun as <- _. exact Hstep.
    + eapply IH; eassumption.
    + discriminate Hrun.
Qed.

(** Every record that the pipeline returns has a processing time, but
    for the failed result of the status nutritional_mismatch. *)
Lemma fetch_timed (ingredient : string) (st : State) (r : ResultRecord) (st' : State) :
  fetch_nutrition_for_ingredient w ingredient st = (Returned r, st') ->
  timed r.
Proof.
  unfold fetch_nutrition_for_ingredient.
  destruct (search_mappings ingredient (w_mappings w)) as [mapping|].
  - unfold_monad. cbn [fst snd tick events stats].
    destruct (w_food_details w (tick st) (Some (e_fdc_id mapping))) as [[fd|]|e].
    + cbn. intros H. injection H as <- _. split; discriminate.
    + apply attempts_timed. reflexivity.
    + discriminate.
  - apply attempts_timed. reflexivity.
Qed.

(** *** The loop *)

(** The [try] statement of the batch loop returns: it appends the record
    of the ingredient and its processing time when the pipeline returns
    one, and when the pipeline raises it logs the exception, appends no
    record and no time and lists the ingredient as failed. *)
Lemma process_one_cases (ingredient : string) (results : list ResultRecord)
    (failed : list string) (processing_times : list (option Seconds)) (st : State) :
  exists results' failed' processing_times' st',
    process_one w ingredient (results, failed, processing_times) st
    = (Returned (results', failed', processing_times'), st')
    /\ st_total (stats st') = st_total (stats st)
    /\ match fst (fetch_nutrition_for_ingredient w ingredient st) with
       | Returned r =>
           results' = results ++ [r]
           /\ processing_times' = processing_times ++ [r_processing_time_seconds r]
           /\ logged st' = logged st
           /\ (failed' = failed \/ failed' = failed ++ [ingredient])
       | Raised e =>
           results' = results /\ processing_times' = processing_times
           /\ logged st' = S (logged st)
           /\ failed' = failed ++ [ingredient]
       end.
Proof.
  unfold process_one. unfold_monad.
  destruct (fetch_quiet ingredient st) as [Hlog Htotal].
  destruct (fetch_nutrition_for_ingredient w ingredient st) as [[r|e] st1];
    cbn [fst snd] in *.
  - destruct (in_list (r_flag r) _); [|destruct (String.eqb (r_flag r) _)];
      eexists _, _, _, _; (split; [reflexivity|]); (split; [exact Htotal|]);
      (split; [reflexivity|]); (split; [reflexivity|]); (split; [exact Hlog | auto]).
  - eexists _, _, _, _. split; [reflexivity|]. split; [exact Htotal|].
    split; [reflexivity|]. split; [reflexivity|]. split; [|reflexivity].
    revert Hlog. unfold count_events. cbn [events].
    rewrite List.filter_app, length_app. cbn. lia.
Qed.

Lemma emitted_not_exception (ingredient : string) (r : ResultRecord) :
  emitted w ingredient r ->
  r_mapping_status r <> "exception" /\ r_ingredient r = ingredient.
Proof.
  intros [fd|fd s attempt queries H90|fd s n attempt queries H65 H90 Hgate
          |md Hing Hflag Hstatus]; cbn.
  - split; [discriminate | reflexivity].
  - split; [discriminate | reflexivity].
  - split; [|reflexivity].
    destruct (confidence_level_cases s n Hgate) as [->|[->| ->]]; discriminate.
  - split; [|exact Hing]. intros Heq. rewrite Heq in Hstatus. cbn in Hstatus.
    repeat destruct Hstatus as [Hstatus|Hstatus]; try discriminate Hstatus.
    exact Hstatus.
Qed.

(** With a supported format, saving the progress raises nothing. *)
Lemma periodic_save_returns (format output_mode : string) (saver : Saver) (i : Z)
    (st : State) :
  save_results_enhanced format output_mode = Returned saver ->
  (if (i mod 10 =? 0)%Z
   then let* _ := lift (save_results_enhanced format output_mode) in ret tt
   else ret tt)%orch st = (Returned tt, st).
Proof.
  intros ->. destruct (i mod 10 =? 0)%Z; reflexivity.
Qed.

(** With a supported format the loop returns; it keeps the processing
    times in step with the records. *)
Lemma process_loop_returns (format output_mode : string) (saver : Saver)
    (ingredients : list string) :
  save_results_enhanced format output_mode = Returned saver ->
  forall (i : Z) (results : list ResultRecord) (failed : list string) (st : State),
  exists results' failed' st',
    process_loop w format output_mode ingredients i
      (results, failed, r_processing_time_seconds <$> results) st
    = (Returned (results', failed', r_processing_time_seconds <$> results'), st')
    /\ st_total (stats st') = st_total (stats st)
    /\ (length results' + logged st' = length results + logged st + length ingredients)%nat
    /\ (forall r, r ∈ results' ->
          r ∈ results
          \/ (r_mapping_status r <> "exception" /\ r_ingredient r ∈ ingredients
              /\ timed r)).
Proof.
  intros Hfmt.
  induction ingredients as [|ingredient ingredients IH]; intros i results failed st;
    cbn [process_loop].
  - eexists _, _, _. split; [reflexivity|]. split; [reflexivity|].
    split; [cbn; lia | auto].
  - unfold bind at 1.
    destruct (process_one_cases ingredient results failed
                (r_processing_time_seconds <$> results) st)
      as (results1 & failed1 & times1 & st1 & -> & Htotal1 & Hone).
    unfold bind at 1. rewrite (periodic_save_returns _ _ saver i st1 Hfmt).
    destruct (fetch_nutrition_for_ingredient w ingredient st) as [[r|e] st0] eqn:Hfetch;
      cbn [fst] in Hone.
    + destruct Hone as (-> & -> & Hlog & _).
      replace ((r_processing_time_seconds <$> results) ++ [r_processing_time_seconds r])
        with (r_processing_time_seconds <$> (results ++ [r]))
        by (rewrite fmap_app; reflexivity).
      destruct (IH (i + 1)%Z (results ++ [r]) failed1 st1)
        as (results' & failed' & st' & -> & Htotal & Hlen & Hrec).
      eexists _, _, _. split; [reflexivity|]. split; [congruence|]. split.
      * rewrite length_app in Hlen. cbn in *. lia.
      * intros r' Hr'. destruct (Hrec r' Hr') as [Hold|(Hst & Hin & Ht)].
        -- apply elem_of_app in Hold as [Hold|Hnew]; [auto|].
           apply list_elem_of_singleton in Hnew. subst r'. right.
           pose proof (fetch_timed _ _ _ _ Hfetch) as Ht.
           apply fetch_emits in Hfetch. apply emitted_not_exception in Hfetch as [Hst ->].
           split; [exact Hst|]. split; [apply elem_of_cons; auto | exact Ht].
        -- right. split; [exact Hst|]. split; [apply elem_of_cons; auto | exact Ht].
    + destruct Hone as (-> & -> & Hlog & _).
      destruct (IH (i + 1)%Z results failed1 st1)
        as (results' & failed' & st' & -> & Htotal & Hlen & Hrec).
      eexists _, _, _. split; [reflexivity|]. split; [congruence|]. split.
      * cbn in *. lia.
      * intros r' Hr'. destruct (Hrec r' Hr') as [Hold|(Hst & Hin & Ht)]; [auto|].
        right. split; [exact Hst|]. split; [apply elem_of_cons; auto | exact Ht].
Qed.

(** *** The code after the loop *)

Lemma sum_of_times (results : list ResultRecord) :
  (Forall (fun r => r_processing_time_seconds r <> None) results ->
   sum_of (r_processing_time_seconds <$> results) = Returned elapsed_time)
  /\ (~ Forall (fun r => r_processing_time_seconds r <> None) results ->
      sum_of (r_processing_time_seconds <$> results) = Raised TypeError).
Proof.
  induction results as [|r results [IHok IHno]]; cbn [fmap list_fmap sum_of].
  - split; [reflexivity|]. intros H. destruct H. constructor.
  - destruct (r_processing_time_seconds r) as [t|] eqn:Ht.
    + split.
      * intros H. apply IHok. now inversion H.
      * intros H. apply IHno. intros Hall. apply H. constructor; [|exact Hall].
        rewrite Ht. discriminate.
    + split; [|reflexivity]. intros H. inversion H as [|? ? Hr _]. now destruct Hr.
Qed.

Section AfterLoop.

Variables (ending : Ending) (ingredients : list string) (format : string)
  (limit : option Z) (start_from : Z) (output_mode : string) (saver : Saver)
  (st : State).
Variables (results : list ResultRecord) (failed : list string) (st' : State).

Let selected := slice_to limit (slice_from start_from ingredients).

Hypothesis Hformat : save_results_enhanced format output_mode = Returned saver.
Hypothesis Hloop :
  process_loop w format output_mode selected 1 ([], [], [])
    {| tick := tick st; events := events st;
       stats := set_total (Z.of_nat (length selected)) (stats st) |}
  = (Returned (results, failed, r_processing_time_seconds <$> results), st').
Hypothesis Htotal : st_total (stats st') = Z.of_nat (length selected).

Let summary : Summary :=
  {| sum_stats := stats st'; sum_results := results;
     sum_failed_ingredients := failed |}.

(** What [process_ingredients] answers once the loop has returned. *)
Lemma process_ingredients_after_loop :
  process_ingredients w ending ingredients format limit start_from output_mode st
  = (match (match failed with
            | [] => Returned tt
            | _ :: _ => failed_file_written ending
            end) with
     | Raised e => Raised e
     | Returned _ =>
         match selected, results with
         | [], _ => Raised ZeroDivisionError
         | _ :: _, [] => Returned summary
         | _ :: _, _ :: _ =>
             match sum_of (r_processing_time_seconds <$> results) with
             | Raised e => Raised e
             | Returned _ =>
                 if Qeq_bool (total_time ending) 0 then Raised ZeroDivisionError
                 else Returned summary
             end
         end
     end, st').
Proof.
  unfold process_ingredients. fold selected.
  unfold bind at 1. unfold modify_stats at 1. unfold bind at 1.
  rewrite Hloop. cbv beta iota.
  assert (Hsaved : forall st0,
            (match results with
             | [] => ret tt
             | _ :: _ =>
                 let* _ := lift (save_results_enhanced format output_mode) in ret tt
             end)%orch st0 = (Returned tt, st0)).
  { intros st0. rewrite Hformat. destruct results; reflexivity. }
  assert (Hprint :
            _print_summary (total_time ending) (r_processing_time_seconds <$> results) st'
            = (match selected, results with
               | [], _ => Raised ZeroDivisionError
               | _ :: _, [] => Returned tt
               | _ :: _, _ :: _ =>
                   match sum_of (r_processing_time_seconds <$> results) with
                   | Raised e => Raised e
                   | Returned _ =>
                       if Qeq_bool (total_time ending) 0 then Raised ZeroDivisionError
                       else Returned tt
                   end
               end, st')).
  { unfold _print_summary. rewrite Htotal.
    destruct selected as [|ingredient selected']; [reflexivity|].
    cbn [length Z.of_nat Z.eqb].
    destruct results as [|r results']; [reflexivity|].
    cbn [fmap list_fmap]. destruct (sum_of _); [|reflexivity].
    destruct (Qeq_bool (total_time ending) 0); reflexivity. }
  unfold bind at 1. rewrite Hsaved. unfold bind at 1.
  assert (Hrest :
            bind (_print_summary (total_time ending)
                    (r_processing_time_seconds <$> results))
              (fun (_ : unit) (st0 : State) =>
                 (Returned {| sum_stats := stats st0; sum_results := results;
                              sum_failed_ingredients := failed |}, st0)) st'
            = (match selected, results with
               | [], _ => Raised ZeroDivisionError
               | _ :: _, [] => Returned summary
               | _ :: _, _ :: _ =>
                   match sum_of (r_processing_time_seconds <$> results) with
                   | Raised e => Raised e
                   | Returned _ =>
                       if Qeq_bool (total_time ending) 0 then Raised ZeroDivisionError
                       else Returned summary
                   end
               end, st')).
  { unfold bind. rewrite Hprint.
    destruct selected as [|ingredient selected']; [reflexivity|].
    destruct results as [|r results']; [reflexivity|].
    destruct (sum_of _); [|reflexivity].
    destruct (Qeq_bool (total_time ending) 0); reflexivity. }
  destruct failed as [|name failed'].
  - unfold ret at 1. exact Hrest.
  - unfold lift. destruct (failed_file_written ending) as [[]|e]; [exact Hrest | reflexivity].
Qed.

(** The run returns when the code after the loop raises nothing. *)
Lemma process_ingredients_returns :
  selected <> [] ->
  ends_well ending results failed ->
  process_ingredients w ending ingredients format limit start_from output_mode st
  = (Returned summary, st').
Proof.
  intros Hne (Hfile & Htimes & Hclock). rewrite process_ingredients_after_loop.
  f_equal.
  assert (Hwritten : match failed with
                     | [] => Returned tt
                     | _ :: _ => failed_file_written ending
                     end = Returned tt).
  { destruct failed; [reflexivity|]. destruct Hfile as [Hnil|Hw]; [discriminate Hnil|].
    exact Hw. }
  rewrite Hwritten. destruct selected; [contradiction|].
  rewrite (proj1 (sum_of_times results) Htimes).
  destruct results; [reflexivity|].
  destruct Hclock as [Hnil| ->]; [discriminate Hnil | reflexivity].
Qed.

(** In every other case it raises. *)
Lemma process_ingredients_raises :
  selected = [] \/ ~ ends_well ending results failed ->
  exists e,
    process_ingredients w ending ingredients format limit start_from output_mode st
    = (Raised e, st').
Proof.
  intros Hbad. rewrite process_ingredients_after_loop.
  clear Hloop Htotal. clearbody summary selected.
  destruct (match failed with
            | [] => Returned tt
            | _ :: _ => failed_file_written ending
            end) as [[]|e] eqn:Hwritten; [|eauto].
  destruct selected as [|ingredient selected']; [eauto|].
  destruct Hbad as [Hnil|Hbad]; [discriminate Hnil|].
  assert (Hfile : failed = [] \/ failed_file_written ending = Returned tt).
  { destruct failed; [left; reflexivity | right; exact Hwritten]. }
  destruct (sum_of (r_processing_time_seconds <$> results)) as [t|e] eqn:Hsum.
  - assert (Hall : Forall (fun r => r_processing_time_seconds r <> None) results).
    { clear Hbad. induction results as [|r results' IH]; constructor.
      - intros Hnone. cbn [fmap list_fmap sum_of] in Hsum. rewrite Hnone in Hsum.
        discriminate Hsum.
      - apply IH. cbn [fmap list_fmap sum_of] in Hsum.
        destruct (r_processing_time_seconds r); [exact Hsum | discriminate Hsum]. }
    destruct results as [|r results'].
    { exfalso. apply Hbad. split; [exact Hfile|]. split; [constructor | left; reflexivity]. }
    destruct (Qeq_bool (total_time ending) 0) eqn:Hclock; [eauto|].
    exfalso. apply Hbad. split; [exact Hfile|]. split; [exact Hall | right; exact Hclock].
  - destruct results as [|r results']; [discriminate Hsum | eauto].
Qed.


End AfterLoop.



End BatchLoop.

Section BatchLoopWitness.
Import Py PyStr Catalog NutrientMapper MappingTool UsdaApi Orchestrator Samples.


End BatchLoopWitness.

(** ** The statistics of a batch *)

Section BatchStatistics.
Import Py PyStr Catalog NutrientMapper MappingTool UsdaApi Orchestrator Accounting.
Local Open Scope list_scope.

Variable w : World.

Ltac unfold_monad :=
  cbv [bind ret raise lift call log modify_stats try_except
       get_usda_food_details search_comprehensive verify_semantic_match
       calculate_nutritional_similarity_score plan_query].

Lemma retry_or_fail_counted (attempt : Z) (on_retry : Locals) (on_fail : Metadata)
    (st : State) :
  stats (snd (retry_or_fail attempt on_retry on_fail st))
  = counted_step (stats st) (fst (retry_or_fail attempt on_retry on_fail st)).
Proof.
  unfold retry_or_fail. destruct (attempt <? max_retries)%Z; reflexivity.
Qed.

Lemma alternatives_counted (fdc_id : option Z) (others : list Food) :
  forall st, stats (snd (fetch_alternatives w fdc_id others st)) = stats st.
Proof.
  induction others as [|alt others IH]; intros st; cbn [fetch_alternatives].
  - reflexivity.
  - destruct (truthy_id (fdc_id_of alt) && _); [|apply IH].
    unfold_monad. cbn [fst snd tick events stats].
    destruct (w_food_details w (tick st) (fdc_id_of alt)) as [[fd|]|e]; cbn [fst snd].
    + reflexivity.
    + now rewrite IH.
    + reflexivity.
Qed.

Lemma nutritional_path_counted (ingredient : string) (attempt : Z) (locals : Locals)
    (md : Metadata) (q : string) (verified : list Food) (s : Q) (d : Decision) (st : State) :
  let out := nutritional_path w ingredient attempt locals md q verified s d st in
  stats (snd out) = counted_step (stats st) (fst out).
Proof.
  cbv zeta. unfold nutritional_path. unfold_monad. cbn [fst snd tick events stats].
  destruct (w_nutritional w (tick st) ingredient verified) as [|best_match others].
  - now rewrite retry_or_fail_counted.
  - destruct (allow_mapping d && _); [|reflexivity].
    destruct (confidence_level s _) as [flag mapping_status]. cbn [tick events stats].
    destruct (w_food_details w (S (tick st)) (s_fdc_id best_match)) as [[fd|]|e];
      cbn [fst snd].
    + destruct (extraction_start_bound locals); reflexivity.
    + now rewrite retry_or_fail_counted.
    + reflexivity.
Qed.

Lemma direct_path_counted (ingredient : string) (attempt : Z) (locals : Locals)
    (md : Metadata) (q : string) (best : Food) (others : list Food) (s : Q) (st : State) :
  let out := direct_path w ingredient attempt locals md q best others s st in
  stats (snd out) = counted_step (stats st) (fst out).
Proof.
  cbv zeta. unfold direct_path.
  match goal with |- context [negb (truthy_id ?i)] => set (fdc_id := i) end.
  destruct (truthy_id fdc_id); cbn [negb]; [|apply retry_or_fail_counted].
  unfold_monad. cbn [fst snd tick events stats].
  destruct (w_food_details w (tick st) fdc_id) as [[fd|]|e]; cbn [fst snd].
  - reflexivity.
  - match goal with |- context [fetch_alternatives ?a ?b ?c ?d] =>
      pose proof (alternatives_counted b c d) as Halt;
      destruct (fetch_alternatives a b c d) as [[[fd|]|e] st1] end; cbn [fst snd] in *.
    + cbn. now rewrite Halt.
    + now rewrite retry_or_fail_counted, Halt.
    + exact Halt.
  - reflexivity.
Qed.

Lemma attempt_body_counted (ingredient : string) (attempt : Z) (locals : Locals)
    (st : State) :
  let out := attempt_body w ingredient attempt locals st in
  stats (snd out) = counted_step (stats st) (fst out).
Proof.
  cbv zeta. unfold attempt_body. unfold_monad. cbn [fst snd tick events stats].
  match goal with |- context [search_usda_food_multi_tier_comprehensive ?a ?b ?c] =>
    destruct (search_usda_food_multi_tier_comprehensive a b c) as [[|c0 cs]|e] end;
    cbn [fst snd].
  - now rewrite retry_or_fail_counted.
  - match goal with |- context [w_verify_semantic ?a ?b ?c ?d] =>
      destruct (w_verify_semantic a b c d) as [|best rest] end.
    + now rewrite retry_or_fail_counted.
    + destruct (Qle_bool 65 _).
      * destruct (proceed_to_step4 _).
        -- now rewrite nutritional_path_counted.
        -- now rewrite direct_path_counted.
      * now rewrite retry_or_fail_counted.
  - reflexivity.
Qed.

Lemma attempts_counted (ingredient : string) (remaining : nat) :
  forall (attempt : Z) (locals : Locals) (st : State),
    let out := attempts w ingredient remaining attempt locals st in
    stats (snd out) = counted_fetch (stats st) (fst out).
Proof.
  induction remaining as [|remaining IH]; intros attempt locals st; cbv zeta;
    cbn [attempts].
  - reflexivity.
  - unfold bind.
    pose proof (attempt_body_counted ingredient attempt locals st) as Hbody.
    cbv zeta in Hbody.
    destruct (attempt_body w ingredient attempt locals st) as [[[r|locals1]|e] st1];
      cbn [fst snd counted_step] in *.
    + exact Hbody.
    + rewrite <- Hbody. apply IH.
    + exact Hbody.
Qed.

(** Processing one ingredient bumps exactly one source counter when it
    returns a record, and none when it raises. *)
Lemma fetch_counted (ingredient : string) (st : State) :
  let out := fetch_nutrition_for_ingredient w ingredient st in
  stats (snd out) = counted_fetch (stats st) (fst out).
Proof.
  cbv zeta. unfold fetch_nutrition_for_ingredient.
  destruct (search_mappings ingredient (w_mappings w)) as [mapping|];
    [|apply attempts_counted].
  unfold_monad. cbn [fst snd tick events stats].
  destruct (w_food_details w (tick st) (Some (e_fdc_id mapping))) as [[fd|]|e];
    cbn [fst snd].
  - reflexivity.
  - now rewrite attempts_counted.
  - reflexivity.
Qed.

Lemma emitted_classified (ingredient : string) (r : ResultRecord) :
  emitted w ingredient r ->
  (is_Some (r_source r)
   /\ Orchestrator.in_list (r_flag r) ["HIGH_CONFIDENCE"; "MID_CONFIDENCE"] = true)
  \/ (r_source r = None
      /\ Orchestrator.in_list (r_flag r) ["HIGH_CONFIDENCE"; "MID_CONFIDENCE"] = false).
Proof.
  intros [fd|fd s attempt queries H90|fd s n attempt queries H65 H90 Hgate
          |md Hing Hflag Hstatus]; cbn [r_source r_flag curated_record search_record
                                        _create_failed_result].
  - left. split; [eauto | reflexivity].
  - left. split; [eauto | reflexivity].
  - left. split; [eauto|].
    destruct (confidence_level_cases s n Hgate) as [->|[->| ->]]; reflexivity.
  - right. split; [reflexivity|]. rewrite Hflag. reflexivity.
Qed.

Lemma count_events_log (p : Event -> bool) (t : nat) (es : list Event) (s : Stats)
    (e : Event) :
  count_events p {| tick := t; events := es ++ [e]; stats := s |}
  = (length (List.filter p es) + if p e then 1 else 0)%nat.
Proof.
  unfold count_events. cbn [events]. rewrite List.filter_app, length_app. cbn.
  destruct (p e); reflexivity.
Qed.

(** The [try] statement of the batch loop keeps the tally and counts the
    ingredient once, as successful or as failed. *)
Lemma process_one_tally (logged0 : nat) (ingredient : string)
    (results : list ResultRecord) (failed : list string)
    (processing_times : list (option Seconds)) (st : State) :
  tally logged0 st results failed ->
  exists results' failed' processing_times' st',
    process_one w ingredient (results, failed, processing_times) st
    = (Returned (results', failed', processing_times'), st')
    /\ tally logged0 st' results' failed'
    /\ st_total (stats st') = st_total (stats st)
    /\ (st_successful (stats st') + st_failed (stats st')
        = st_successful (stats st) + st_failed (stats st) + 1)%Z.
Proof.
  intros (Hlog0 & Hsucc & Hfail & Hres & Hfailed).
  unfold process_one. unfold_monad.
  destruct (fetch_quiet w ingredient st) as [Hlog Htotal].
  pose proof (fetch_counted ingredient st) as Hcount. cbv zeta in Hcount.
  pose proof (fetch_emits w ingredient st) as Hem.
  destruct (fetch_nutrition_for_ingredient w ingredient st) as [[r|e] st1];
    cbn [fst snd counted_fetch] in *.
  - specialize (Hem r st1 eq_refl).
    unfold counted_record in Hcount.
    destruct (emitted_classified ingredient r Hem) as [[[src Hsrc] Hflag]|[Hsrc Hflag]];
      rewrite Hsrc in Hcount; rewrite Hflag.
    + eexists _, _, _, _. split; [reflexivity|].
      unfold tally, count_events in *. cbn [stats events tick].
      rewrite length_app. cbn [length].
      destruct (String.eqb src "curated_mapping"); rewrite Hcount in *;
        cbn [bump_successful bump_from_mappings bump_from_search st_total st_successful
             st_failed st_from_mappings st_from_search st_no_mapping_found] in *;
        repeat split; lia.
    + destruct (String.eqb (r_flag r) "LOW_CONFIDENCE");
        eexists _, _, _, _; (split; [reflexivity|]);
        unfold tally, count_events in *; cbn [stats events tick];
        rewrite !length_app; cbn [length]; rewrite Hcount in *;
        cbn [bump_failed bump_no_mapping_found st_total st_successful
             st_failed st_from_mappings st_from_search st_no_mapping_found] in *;
        repeat split; lia.
  - eexists _, _, _, _. split; [reflexivity|].
    unfold tally. cbn [stats events tick]. rewrite count_events_log.
    unfold count_events in *.
    cbn [stats events tick is_logged_exception].
    rewrite length_app. cbn [length]. rewrite Hcount in *.
    cbn [bump_failed st_total st_successful
         st_failed st_from_mappings st_from_search st_no_mapping_found] in *.
    repeat split; lia.
Qed.

Lemma process_loop_tally (logged0 : nat) (format output_mode : string) (saver : Saver)
    (ingredients : list string) :
  save_results_enhanced format output_mode = Returned saver ->
  forall (i : Z) (results : list ResultRecord) (failed : list string)
         (processing_times : list (option Seconds)) (st : State),
  tally logged0 st results failed ->
  exists results' failed' processing_times' st',
    process_loop w format output_mode ingredients i (results, failed, processing_times) st
    = (Returned (results', failed', processing_times'), st')
    /\ tally logged0 st' results' failed'
    /\ st_total (stats st') = st_total (stats st)
    /\ (st_successful (stats st') + st_failed (stats st')
        = st_successful (stats st) + st_failed (stats st)
          + Z.of_nat (length ingredients))%Z.
Proof.
  intros Hformat.
  induction ingredients as [|ingredient ingredients IH];
    intros i results failed processing_times st Ht; cbn [process_loop].
  - eexists _, _, _, _. split; [reflexivity|]. split; [exact Ht|].
    split; [reflexivity | cbn; lia].
  - unfold bind at 1.
    destruct (process_one_tally logged0 ingredient results failed processing_times st Ht)
      as (results1 & failed1 & times1 & st1 & -> & Ht1 & Htotal1 & Hsum1).
    unfold bind at 1. rewrite (periodic_save_returns _ _ saver i st1 Hformat).
    destruct (IH (i + 1)%Z results1 failed1 times1 st1 Ht1)
      as (results' & failed' & times' & st' & -> & Ht' & Htotal & Hsum).
    eexists _, _, _, _. split; [reflexivity|]. split; [exact Ht'|].
    split; [congruence|]. cbn [length]. lia.
Qed.

(** The batch loop inside [process_ingredients]: on fresh statistics, a
    non-empty selection and a supported format the loop returns and keeps
    the tally; the run returns what the loop leaves when the code after
    the loop ends well, and raises when it does not. *)
Lemma process_ingredients_tally (ending : Ending) (ingredients : list string)
    (format : string) (limit : option Z) (start_from : Z) (output_mode : string)
    (saver : Saver) (st : State) :
  let selected := slice_to limit (slice_from start_from ingredients) in
  let run :=
    process_ingredients w ending ingredients format limit start_from output_mode st in
  selected <> [] ->
  fresh (stats st) ->
  save_results_enhanced format output_mode = Returned saver ->
  exists results failed st1,
    process_loop w format output_mode selected 1 ([], [], [])
      {| tick := tick st; events := events st;
         stats := set_total (Z.of_nat (length selected)) (stats st) |}
    = (Returned (results, failed, r_processing_time_seconds <$> results), st1)
    /\ (ends_well ending results failed ->
        run = (Returned {| sum_stats := stats st1; sum_results := results;
                           sum_failed_ingredients := failed |}, st1))
    /\ (~ ends_well ending results failed -> exists e, run = (Raised e, st1))
    /\ tally (count_events is_logged_exception st) st1 results failed
    /\ st_total (stats st1) = Z.of_nat (length selected)
    /\ (st_successful (stats st1) + st_failed (stats st1)
        = Z.of_nat (length selected))%Z.
Proof.
  intros selected run Hne (Hs & Hf & Hm & Hsr & Hn) Hformat.
  set (st0 := {| tick := tick st; events := events st;
                 stats := set_total (Z.of_nat (length selected)) (stats st) |}).
  assert (Ht0 : tally (count_events is_logged_exception st) st0 [] []).
  { unfold tally, count_events. subst st0.
    cbn [stats events set_total st_successful st_failed st_from_mappings st_from_search
         st_no_mapping_found length].
    rewrite Hs, Hf, Hm, Hsr, Hn, Nat.sub_diag. repeat split; lia. }
  destruct (process_loop_tally _ format output_mode saver selected Hformat 1 [] [] [] st0 Ht0)
    as (results & failed & times & st1 & Hloop & Ht1 & Htotal & Hsum).
  destruct (process_loop_returns w format output_mode saver selected Hformat 1 [] [] st0)
    as (results' & failed' & st1' & Hloop' & _).
  change (r_processing_time_seconds <$> []) with (@nil (option Seconds)) in Hloop'.
  assert (Heq : (Returned (results, failed, times), st1)
                = (Returned (results', failed', r_processing_time_seconds <$> results'),
                   st1'))
    by (etransitivity; [symmetry; exact Hloop | exact Hloop']).
  injection Heq as <- <- -> <-.
  assert (Htotal' : st_total (stats st1) = Z.of_nat (length selected))
    by (rewrite Htotal; reflexivity).
  exists results, failed, st1. split; [exact Hloop|].
  split.
  { intros Hends.
    exact (process_ingredients_returns w ending ingredients format limit start_from
             output_mode saver st results failed st1 Hformat Hloop Htotal' Hne Hends). }
  split.
  { intros Hbad.
    exact (process_ingredients_raises w ending ingredients format limit start_from
             output_mode saver st results failed st1 Hformat Hloop Htotal'
             (or_intror Hbad)). }
  split; [exact Ht1|]. split; [exact Htotal'|].
  subst st0. cbn [stats set_total st_total st_successful st_failed] in Hsum.
  rewrite Hs, Hf in Hsum. lia.
Qed.

(** X1: on a freshly constructed orchestrator, a non-empty selection and
    a supported format, the batch loop returns with statistics that add
    up: the total is the number of selected ingredients and the sum of
    the successful and the failed ones; every success was counted under
    exactly one source; the failures are the ingredients without a
    mapping plus the exceptions logged; the result list holds one record
    per success and per ingredient without a mapping; and the failed list
    has one name per failure.  [process_ingredients] returns these
    statistics and lists as its summary when the code after the loop ends
    well, and raises when it does not. *)
Theorem batch_statistics_add_up (ending : Ending) (ingredients : list string)
    (format : string) (limit : option Z) (start_from : Z) (output_mode : string)
    (saver : Saver) (st : State) :
  let selected := slice_to limit (slice_from start_from ingredients) in
  let run :=
    process_ingredients w ending ingredients format limit start_from output_mode st in
  selected <> [] ->
  fresh (stats st) ->
  save_results_enhanced format output_mode = Returned saver ->
  exists results failed st',
    process_loop w format output_mode selected 1 ([], [], [])
      {| tick := tick st; events := events st;
         stats := set_total (Z.of_nat (length selected)) (stats st) |}
    = (Returned (results, failed, r_processing_time_seconds <$> results), st')
    /\ (ends_well ending results failed ->
        run = (Returned {| sum_stats := stats st'; sum_results := results;
                           sum_failed_ingredients := failed |}, st'))
    /\ (~ ends_well ending results failed -> exists e, run = (Raised e, st'))
    /\ let s := stats st' in
       let exceptions :=
         (count_events is_logged_exception st' - count_events is_logged_exception st)%nat in
       st_total s = Z.of_nat (length selected)
       /\ (st_successful s + st_failed s = st_total s)%Z
       /\ st_successful s = (st_from_mappings s + st_from_search s)%Z
       /\ st_failed s = (st_no_mapping_found s + Z.of_nat exceptions)%Z
       /\ Z.of_nat (length results) = (st_successful s + st_no_mapping_found s)%Z
       /\ Z.of_nat (length failed) = st_failed s.
Proof.
  intros selected run Hne Hfresh Hformat.
  destruct (process_ingredients_tally ending ingredients format limit start_from
              output_mode saver st Hne Hfresh Hformat)
    as (results & failed & st1 & Hloop & Hrun & Hraise & Ht1 & Htotal & Hsum).
  exists results, failed, st1. split; [exact Hloop|].
  split; [exact Hrun|]. split; [exact Hraise|].
  destruct Ht1 as (Hlog1 & Hsucc1 & Hfail1 & Hres1 & Hfailed1).
  cbv zeta. repeat split; try assumption; lia.
Qed.

End BatchStatistics.

Section BatchStatisticsWitness.
Import Py PyStr Catalog NutrientMapper MappingTool UsdaApi Orchestrator Accounting Samples.

Lemma batch_statistics_add_up_witness :
  exists summary st',
    process_ingredients (world_of cinnamon_store 92 0 (Returned (Some cinnamon_detail)))
      good_ending ["cinnamon"; "cinnamon sticks"; "salt"] "json-batch" (Some 2%Z) 0
      "standard" initial_state
    = (Returned summary, st')
    /\ st_total (sum_stats summary) = 2%Z
    /\ (st_successful (sum_stats summary) + st_failed (sum_stats summary) = 2)%Z
    /\ length (sum_results summary) = 2%nat.
Proof.
  set (w := world_of cinnamon_store 92 0 (Returned (Some cinnamon_detail))).
  destruct (batch_statistics_add_up w good_ending
              ["cinnamon"; "cinnamon sticks"; "salt"] "json-batch" (Some 2%Z) 0 "standard"
              json_batch initial_state)
    as (results & failed & st' & Hloop & Hrun & _ & Htotal & Hsum & _).
  - discriminate.
  - repeat split; reflexivity.
  - reflexivity.
  - match type of Hloop with
    | ?l = _ =>
        assert (Htimes : match fst l with
                         | Returned (rs, fs, ts) => (ts, fs)
                         | Raised _ => ([], [])
                         end = ([Some elapsed_time; Some elapsed_time], []))
          by (vm_compute; reflexivity)
    end.
    rewrite Hloop in Htimes. injection Htimes as Htimes ->.
    eexists _, st'. split.
    + apply Hrun.
      split; [left; reflexivity|]. split; [|right; reflexivity].
      apply Forall_forall. intros r Hr Hnone.
      apply (list_elem_of_fmap_2 r_processing_time_seconds) in Hr.
      rewrite Htimes, Hnone in Hr. apply elem_of_cons in Hr as [Hr|Hr]; [discriminate Hr|].
      apply elem_of_cons in Hr as [Hr|Hr]; [discriminate Hr|].
      apply elem_of_nil in Hr. exact Hr.
    + cbv zeta in Htotal, Hsum. cbn [sum_stats sum_results].
      rewrite Htotal in Hsum. split; [exact Htotal|]. split; [exact Hsum|].
      rewrite <- (length_fmap r_processing_time_seconds), Htimes. reflexivity.
Defined.

End BatchStatisticsWitness.

(** ** The service calls spent on one ingredient *)

Section CallBudget.
Import Py PyStr Catalog NutrientMapper MappingTool UsdaApi Orchestrator Accounting.
Local Open Scope list_scope.

Variable w : World.

Ltac unfold_monad :=
  cbv [bind ret raise lift call log modify_stats try_except
       get_usda_food_details search_comprehensive verify_semantic_match
       calculate_nutritional_similarity_score plan_query].

(** Count the calls of a state that extends [st] by listed events. *)
Ltac count_calls :=
  unfold same_calls, spent, count_events in *; cbn [fst snd events tick stats] in *;
  rewrite ?List.filter_app, ?length_app in *; cbn in *; repeat split; lia.

Lemma same_calls_refl (st : State) : same_calls st st.
Proof. repeat split. Qed.

Lemma same_calls_trans (st1 st2 st3 : State) :
  same_calls st1 st2 -> same_calls st2 st3 -> same_calls st1 st3.
Proof. intros (? & ? & ? & ?) (? & ? & ? & ?). repeat split; congruence. Qed.

Lemma spent_trans (st1 st2 st3 : State) (j k : nat) :
  spent st1 st2 j -> spent st2 st3 k -> spent st1 st3 (j + k).
Proof. unfold spent. intros ? ?. repeat split; lia. Qed.

Lemma spent_same_calls (st1 st2 st3 : State) (k : nat) :
  spent st1 st2 k -> same_calls st2 st3 -> spent st1 st3 k.
Proof. unfold spent, same_calls. intros ? ?. repeat split; lia. Qed.

Lemma retry_or_fail_calls (attempt : Z) (on_retry : Locals) (on_fail : Metadata)
    (st : State) :
  same_calls st (snd (retry_or_fail attempt on_retry on_fail st)).
Proof.
  unfold retry_or_fail. destruct (attempt <? max_retries)%Z; repeat split.
Qed.

Lemma alternatives_calls (fdc_id : option Z) (others : list Food) :
  forall st, same_calls st (snd (fetch_alternatives w fdc_id others st)).
Proof.
  induction others as [|alt others IH]; intros st; cbn [fetch_alternatives].
  - apply same_calls_refl.
  - destruct (truthy_id (fdc_id_of alt) && _); [|apply IH].
    unfold_monad. cbn [fst snd tick events stats].
    destruct (w_food_details w (tick st) (fdc_id_of alt)) as [[fd|]|e]; cbn [fst snd].
    + count_calls.
    + eapply same_calls_trans; [|apply IH]. count_calls.
    + count_calls.
Qed.

(** The gated path calls the nutritional gate once and nothing else that
    is counted. *)
Lemma nutritional_path_calls (ingredient : string) (attempt : Z) (locals : Locals)
    (md : Metadata) (q : string) (verified : list Food) (s : Q) (d : Decision) (st : State) :
  same_calls
    {| tick := S (tick st); events := events st ++ [CallNutritional]; stats := stats st |}
    (snd (nutritional_path w ingredient attempt locals md q verified s d st)).
Proof.
  unfold nutritional_path. unfold_monad. cbn [fst snd tick events stats].
  destruct (w_nutritional w (tick st) ingredient verified) as [|best_match others].
  - apply retry_or_fail_calls.
  - destruct (allow_mapping d && _); [|apply same_calls_refl].
    destruct (confidence_level s _) as [flag mapping_status]. cbn [tick events stats].
    destruct (w_food_details w (S (tick st)) (s_fdc_id best_match)) as [[fd|]|e];
      cbn [fst snd].
    + destruct (extraction_start_bound locals); count_calls.
    + eapply same_calls_trans; [|apply retry_or_fail_calls]. count_calls.
    + count_calls.
Qed.

Lemma direct_path_calls (ingredient : string) (attempt : Z) (locals : Locals)
    (md : Metadata) (q : string) (best : Food) (others : list Food) (s : Q) (st : State) :
  same_calls st (snd (direct_path w ingredient attempt locals md q best others s st)).
Proof.
  unfold direct_path.
  match goal with |- context [negb (truthy_id ?i)] => set (fdc_id := i) end.
  destruct (truthy_id fdc_id); cbn [negb]; [|apply retry_or_fail_calls].
  unfold_monad. cbn [fst snd tick events stats].
  destruct (w_food_details w (tick st) fdc_id) as [[fd|]|e]; cbn [fst snd].
  - count_calls.
  - match goal with |- context [fetch_alternatives ?a ?b ?c ?d] =>
      pose proof (alternatives_calls b c d) as Halt;
      destruct (fetch_alternatives a b c d) as [[[fd|]|e] st1] end; cbn [fst snd] in *.
    + eapply same_calls_trans; [|eapply same_calls_trans; [exact Halt|]]; count_calls.
    + eapply same_calls_trans;
        [|eapply same_calls_trans; [exact Halt | apply retry_or_fail_calls]].
      count_calls.
    + eapply same_calls_trans; [|exact Halt]. count_calls.
  - count_calls.
Qed.

(** One iteration: one query plan, one search, at most one semantic
    verification and, only after it, at most one gate call. *)
Lemma attempt_body_spent (ingredient : string) (attempt : Z) (locals : Locals)
    (st : State) :
  spent st (snd (attempt_body w ingredient attempt locals st)) 1.
Proof.
  unfold attempt_body. unfold_monad. cbn [fst snd tick events stats].
  match goal with |- context [search_usda_food_multi_tier_comprehensive ?a ?b ?c] =>
    destruct (search_usda_food_multi_tier_comprehensive a b c) as [[|c0 cs]|e] end;
    cbn [fst snd].
  - eapply spent_same_calls; [|apply retry_or_fail_calls]. count_calls.
  - match goal with |- context [w_verify_semantic ?a ?b ?c ?d] =>
      destruct (w_verify_semantic a b c d) as [|best rest] end.
    + eapply spent_same_calls; [|apply retry_or_fail_calls]. count_calls.
    + destruct (Qle_bool 65 _).
      * destruct (proceed_to_step4 _).
        -- eapply spent_same_calls; [|apply nutritional_path_calls]. count_calls.
        -- eapply spent_same_calls; [|apply direct_path_calls]. count_calls.
      * eapply spent_same_calls; [|apply retry_or_fail_calls]. count_calls.
  - count_calls.
Qed.

Lemma attempts_spent (ingredient : string) (remaining : nat) :
  forall (attempt : Z) (locals : Locals) (st : State),
    exists k, (k <= remaining)%nat
      /\ spent st (snd (attempts w ingredient remaining attempt locals st)) k.
Proof.
  induction remaining as [|remaining IH]; intros attempt locals st; cbn [attempts].
  - exists 0%nat. split; [lia|]. count_calls.
  - unfold bind.
    pose proof (attempt_body_spent ingredient attempt locals st) as Hbody.
    destruct (attempt_body w ingredient attempt locals st) as [[[r|locals1]|e] st1];
      cbn [fst snd] in *.
    + exists 1%nat. split; [lia | exact Hbody].
    + destruct (IH (attempt + 1)%Z locals1 st1) as (k & Hk & Hrest).
      exists (1 + k)%nat. split; [lia|]. eapply spent_trans; eassumption.
    + exists 1%nat. split; [lia | exact Hbody].
Qed.

(** X2: processing one ingredient plans and runs at most two
    comprehensive searches, verifies at most as many result lists as it
    searched and calls the nutritional gate at most as often as it
    verified; an ingredient whose curated entry has a detail record is
    answered without any of these calls. *)
Theorem search_budget_per_ingredient (ingredient : string) (st : State) :
  let st' := snd (fetch_nutrition_for_ingredient w ingredient st) in
  let plans s := count_events is_plan_call s in
  let searches s := count_events is_search_call s in
  let verifications s := count_events is_semantic_call s in
  let gate_calls s := count_events is_gate_call s in
  (searches st <= searches st' <= searches st + 2)%nat
  /\ (plans st' - plans st = searches st' - searches st)%nat
  /\ (verifications st' - verifications st <= searches st' - searches st)%nat
  /\ (gate_calls st' - gate_calls st <= verifications st' - verifications st)%nat
  /\ (forall mapping fd,
        search_mappings ingredient (w_mappings w) = Some mapping ->
        w_food_details w (tick st) (Some (e_fdc_id mapping)) = Returned (Some fd) ->
        searches st' = searches st /\ plans st' = plans st
        /\ verifications st' = verifications st /\ gate_calls st' = gate_calls st).
Proof.
  cbv zeta.
  assert (Hspent : exists k, (k <= 2)%nat
            /\ spent st (snd (fetch_nutrition_for_ingredient w ingredient st)) k).
  { unfold fetch_nutrition_for_ingredient.
    destruct (search_mappings ingredient (w_mappings w)) as [mapping|];
      [|apply attempts_spent].
    unfold_monad. cbn [fst snd tick events stats].
    destruct (w_food_details w (tick st) (Some (e_fdc_id mapping))) as [[fd|]|e];
      cbn [fst snd].
    - exists 0%nat. split; [lia|]. count_calls.
    - match goal with |- context [attempts ?a ?b ?c ?d ?e ?f] =>
        destruct (attempts_spent b c d e f) as (k & Hk & Hrest) end.
      exists k. split; [exact Hk|].
      change k with (0 + k)%nat. eapply spent_trans; [|exact Hrest]. count_calls.
    - exists 0%nat. split; [lia|]. count_calls. }
  destruct Hspent as (k & Hk & Hp & Hs & Hv1 & Hv2 & Hg1 & Hg2).
  split; [lia|]. split; [lia|]. split; [lia|]. split; [lia|].
  intros mapping fd Hmap Hfd. unfold fetch_nutrition_for_ingredient.
  rewrite Hmap. unfold_monad. cbn [fst snd tick events stats]. rewrite Hfd.
  cbn [fst snd]. count_calls.
Qed.

End CallBudget.

Section CallBudgetWitness.
Import Py PyStr Catalog NutrientMapper MappingTool UsdaApi Orchestrator Accounting Samples.

Lemma search_budget_per_ingredient_witness :
  count_events is_search_call
    (snd (fetch_nutrition_for_ingredient
            (world_of cinnamon_store 92 0 (Returned (Some cinnamon_detail)))
            " Cinnamon" initial_state))
  = count_events is_search_call initial_state.
Proof.
  refine (proj1 (proj2 (proj2 (proj2 (proj2
            (search_budget_per_ingredient
               (world_of cinnamon_store 92 0 (Returned (Some cinnamon_detail)))
               " Cinnamon" initial_state))))
            {| e_fdc_id := 171320; e_description := "Spices, cinnamon, ground";
               e_data_type := "SR Legacy"; e_verified := true; e_notes := "" |}
            cinnamon_detail _ _)); vm_compute; reflexivity.
Defined.

End CallBudgetWitness.

(** ** The requests and waits of the catalog client *)

Section ClientTraces.
Import Py Catalog UsdaApi.

(** The effects of the retry loop of a freshly constructed client, by the
    outcome of the first two requests. *)
Lemma request_loop_trace {A B} (send : nat -> http_reply A) (on_ok : A -> B)
    (exhausted : B) :
  let effects := fst (request_loop new_client send on_ok exhausted 3 0) in
  (~ transport_error (send 0%nat) -> effects = [Request 0])
  /\ (transport_error (send 0%nat) -> ~ transport_error (send 1%nat) ->
      effects = [Request 0; Sleep 2; Request 1])
  /\ (transport_error (send 0%nat) -> transport_error (send 1%nat) ->
      effects = [Request 0; Sleep 2; Request 1; Sleep 4; Request 2; Sleep (1 # 2)]).
Proof.
  cbv zeta. unfold transport_error. cbn.
  destruct (send 0%nat) as [b0| | |e0]; cbn;
    (split; [intros H; try reflexivity; exfalso; apply H; auto|]);
    (split; [intros [H|H]; try discriminate H|intros [H|H]; try discriminate H]);
    destruct (send 1%nat) as [b1| | |e1]; cbn;
    intros H1; try reflexivity;
    try (exfalso; apply H1; auto; fail);
    try (destruct H1 as [H1|H1]; discriminate H1);
    destruct (send 2%nat) as [b2| | |e2]; reflexivity.
Qed.

(** X3: a search or a detail fetch of a freshly constructed client sends
    one request when the first reply is not a transport error, two
    requests separated by a wait of 2 seconds when only the first one
    fails, and otherwise three requests, with waits of 2 and 4 seconds.
    The rate-limit delay of half a second is slept after a third request,
    whether that request is answered or not, and after no other: a call
    answered by its first or its second request is not delayed by it. *)
Theorem client_request_traces
    (http_search : SearchParams -> nat -> http_reply (option (list Food)))
    (http_details : Z -> nat -> http_reply (option FoodData))
    (query : string) (page_size : Z) (data_type_filter : option string) (fdc_id : Z) :
  let params :=
    {| p_query := query; p_pageSize := Z.min page_size 200;
       p_dataType := match data_type_filter with
                     | Some f => if PyStr.truthy f then f else "Foundation,SR Legacy"
                     | None => "Foundation,SR Legacy"
                     end |} in
  let searched := fst (search_food new_client http_search query page_size data_type_filter) in
  let fetched := fst (get_food_details new_client http_details fdc_id) in
  let short := [Request 0] in
  let medium := [Request 0; Sleep 2; Request 1] in
  let long := [Request 0; Sleep 2; Request 1; Sleep 4; Request 2; Sleep (1 # 2)] in
  (~ transport_error (http_search params 0%nat) -> searched = short)
  /\ (transport_error (http_search params 0%nat) ->
      ~ transport_error (http_search params 1%nat) -> searched = medium)
  /\ (transport_error (http_search params 0%nat) ->
      transport_error (http_search params 1%nat) -> searched = long)
  /\ (~ transport_error (http_details fdc_id 0%nat) -> fetched = short)
  /\ (transport_error (http_details fdc_id 0%nat) ->
      ~ transport_error (http_details fdc_id 1%nat) -> fetched = medium)
  /\ (transport_error (http_details fdc_id 0%nat) ->
      transport_error (http_details fdc_id 1%nat) -> fetched = long).
Proof.
  cbv zeta. unfold search_food, get_food_details. cbn [max_retries new_client].
  match goal with |- context [request_loop _ ?s ?k ?x 3 0] =>
    destruct (request_loop_trace s k x) as (S1 & S2 & S3) end.
  destruct (request_loop_trace (http_details fdc_id) (fun b => b) None) as (D1 & D2 & D3).
  repeat split; assumption.
Qed.

Lemma client_request_traces_witness :
  fst (search_food new_client
         (fun _ attempt => match attempt with O => HttpTimeout | _ => HttpOk (Some []) end)
         "basmati rice" 30 None)
  = [Request 0; Sleep 2; Request 1]
  /\ fst (get_food_details new_client (fun _ _ => HttpOk None) 746782) = [Request 0]
  /\ fst (get_food_details new_client
            (fun _ attempt =>
               match attempt with
               | 2%nat => HttpOk None
               | _ => HttpTimeout
               end) 746782)
     = [Request 0; Sleep 2; Request 1; Sleep 4; Request 2; Sleep (1 # 2)].
Proof.
  destruct (client_request_traces
              (fun _ attempt => match attempt with O => HttpTimeout | _ => HttpOk (Some []) end)
              (fun _ _ => HttpOk None) "basmati rice" 30 None 746782)
    as (_ & S2 & _ & D1 & _).
  destruct (client_request_traces
              (fun _ _ => HttpOk (Some []))
              (fun _ attempt =>
                 match attempt with
                 | 2%nat => HttpOk None
                 | _ => HttpTimeout
                 end) "basmati rice" 30 None 746782)
    as (_ & _ & _ & _ & _ & D3).
  split; [|split].
  - apply S2; [left; reflexivity|]. intros [H|H]; discriminate H.
  - apply D1. intros [H|H]; discriminate H.
  - apply D3; left; reflexivity.
Defined.

End ClientTraces.

(** ** The names of catalog nutrients *)

Section NutrientNames.
Import PyStr Catalog NutrientMapper.
Local Open Scope list_scope.

(** In an association list whose keys stay distinct under [f], the first
    entry whose key agrees with that of a member under [f] is that
    member. *)
Lemma find_by_key {V} (f : string -> string) (l : list (string * V)) (k : string) (v : V) :
  NoDup ((fun p => f (fst p)) <$> l) ->
  (k, v) ∈ l ->
  find (fun p => String.eqb (f (fst p)) (f k)) l = Some (k, v).
Proof.
  induction l as [|[k' v'] l IH]; intros Hnd Hin.
  - apply elem_of_nil in Hin. destruct Hin.
  - cbn [fmap list_fmap] in Hnd. apply NoDup_cons in Hnd as [Hfresh Hnd].
    cbn [find fst]. destruct (String.eqb_spec (f k') (f k)) as [Heq|Hne].
    + apply elem_of_cons in Hin as [Hin|Hin]; [congruence|].
      exfalso. apply Hfresh. cbn [fst]. rewrite Heq.
      apply (list_elem_of_fmap_2 (fun p => f (fst p)) l (k, v)). exact Hin.
    + apply elem_of_cons in Hin as [Hin|Hin]; [|auto].
      injection Hin as -> ->. contradiction.
Qed.

Lemma nutrient_names_distinct :
  NoDup ((fun p => lower (fst p)) <$> USDA_NUTRIENT_MAPPINGS).
Proof.
  apply (bool_decide_unpack (NoDup ((fun p => lower (fst p)) <$> USDA_NUTRIENT_MAPPINGS))).
  vm_compute. exact I.
Qed.

(** X4: the names of the nutrient table are matched without regard to
    letter case: a catalog name that differs from a table name only in
    case is mapped to the identifier of that table entry. *)
Theorem nutrient_names_case_insensitive (name id usda_nutrient_name : string) :
  (name, id) ∈ USDA_NUTRIENT_MAPPINGS ->
  lower usda_nutrient_name = lower name ->
  map_usda_nutrient_to_standard usda_nutrient_name = Some id.
Proof.
  intros Hin Hlower.
  pose proof (find_by_key lower USDA_NUTRIENT_MAPPINGS name id
                nutrient_names_distinct Hin) as Hfind.
  unfold map_usda_nutrient_to_standard, dict_get.
  destruct (find (fun p => String.eqb (fst p) usda_nutrient_name) USDA_NUTRIENT_MAPPINGS)
    as [[k v]|] eqn:Edirect; cbv beta iota zeta.
  - apply find_some in Edirect as [Hk Heq]. cbn [fst] in Heq.
    apply String.eqb_eq in Heq. subst k.
    apply list_elem_of_In in Hk.
    pose proof (find_by_key lower USDA_NUTRIENT_MAPPINGS usda_nutrient_name v
                  nutrient_names_distinct Hk) as Hfind'.
    rewrite Hlower in Hfind'. rewrite Hfind in Hfind'. injection Hfind' as _ ->.
    reflexivity.
  - rewrite Hlower, Hfind. reflexivity.
Qed.

Lemma nutrient_names_case_insensitive_witness :
  map_usda_nutrient_to_standard "VITAMIN B-12" = Some "nutrient-vitamin-b12".
Proof.
  apply (nutrient_names_case_insensitive "Vitamin B-12").
  - apply list_elem_of_In. vm_compute. tauto.
  - reflexivity.
Defined.

(** X5: the name mapping never invents an identifier: whatever it returns
    is the identifier of some entry of the nutrient table. *)
Theorem nutrient_ids_come_from_table (usda_nutrient_name id : string) :
  map_usda_nutrient_to_standard usda_nutrient_name = Some id ->
  id ∈ snd <$> USDA_NUTRIENT_MAPPINGS.
Proof.
  assert (Htable : forall p, In p USDA_NUTRIENT_MAPPINGS ->
            snd p ∈ snd <$> USDA_NUTRIENT_MAPPINGS).
  { intros p Hp. apply list_elem_of_fmap_2. apply list_elem_of_In. exact Hp. }
  assert (Hfallback : forall x,
            In x [ "nutrient-calories-energy"; "nutrient-protein"; "nutrient-total-fat";
                   "nutrient-total-carbohydrates"; "nutrient-dietary-fiber";
                   "nutrient-total-sugars"; "nutrient-sodium"; "nutrient-calcium";
                   "nutrient-iron"; "nutrient-vitamin-c-ascorbic-acid" ] ->
            x ∈ snd <$> USDA_NUTRIENT_MAPPINGS).
  { intros x Hx. apply list_elem_of_In.
    assert (Hall : forallb (fun y => existsb (String.eqb y)
                                       (snd <$> USDA_NUTRIENT_MAPPINGS))
                     [ "nutrient-calories-energy"; "nutrient-protein"; "nutrient-total-fat";
                       "nutrient-total-carbohydrates"; "nutrient-dietary-fiber";
                       "nutrient-total-sugars"; "nutrient-sodium"; "nutrient-calcium";
                       "nutrient-iron"; "nutrient-vitamin-c-ascorbic-acid" ] = true)
      by (vm_compute; reflexivity).
    rewrite forallb_forall in Hall. specialize (Hall x Hx).
    apply existsb_exists in Hall as (y & Hy & Heq).
    apply String.eqb_eq in Heq. now subst y. }
  unfold map_usda_nutrient_to_standard, dict_get.
  destruct (find _ USDA_NUTRIENT_MAPPINGS) as [p|] eqn:E1; cbv beta iota zeta.
  { intros H. injection H. intros Hid. subst id.
    apply find_some in E1. destruct E1 as [Hin _]. apply Htable. exact Hin. }
  destruct (find (fun p => String.eqb (lower (fst p)) _) USDA_NUTRIENT_MAPPINGS)
    as [p|] eqn:E2; cbv beta iota.
  { intros H. injection H. intros Hid. subst id.
    apply find_some in E2. destruct E2 as [Hin _]. apply Htable. exact Hin. }
  repeat match goal with
         | |- (if ?b then _ else _) = _ -> _ => destruct b
         end;
    intros H; try discriminate H; injection H; intros Hid; subst id;
    apply Hfallback; cbn; tauto.
Qed.

Lemma nutrient_ids_come_from_table_witness :
  "nutrient-dietary-fiber" ∈ snd <$> USDA_NUTRIENT_MAPPINGS.
Proof.
  apply (nutrient_ids_come_from_table "Total dietary fibre (AOAC)").
  vm_compute. reflexivity.
Defined.

End NutrientNames.

(** ** The raw nutrient dictionary *)

Section RawNutrients.
Import PyStr Catalog NutrientMapper.
Local Open Scope list_scope.

Lemma truthy_nonempty (s : string) : truthy s = true <-> s <> "".
Proof. destruct s; cbn; split; intros H; congruence. Qed.

Lemma dict_get_set_eq {V} (k : string) (v : V) (d : list (string * V)) :
  dict_get k (dict_set k v d) = Some v.
Proof.
  unfold dict_get. induction d as [|[k' v'] d IH]; cbn [dict_set find fst].
  - now rewrite String.eqb_refl.
  - destruct (String.eqb_spec k' k) as [->|Hne]; cbn [find fst].
    + now rewrite String.eqb_refl.
    + apply String.eqb_neq in Hne. now rewrite Hne.
Qed.

Lemma dict_get_set_ne {V} (k k0 : string) (v : V) (d : list (string * V)) :
  k <> k0 -> dict_get k (dict_set k0 v d) = dict_get k d.
Proof.
  intros Hne. unfold dict_get.
  induction d as [|[k' v'] d IH]; cbn [dict_set find fst].
  - apply not_eq_sym, String.eqb_neq in Hne. now rewrite Hne.
  - destruct (String.eqb_spec k' k0) as [->|Hne']; cbn [find fst].
    + apply not_eq_sym, String.eqb_neq in Hne. now rewrite Hne.
    + destruct (String.eqb k' k); [reflexivity | exact IH].
Qed.

Lemma dict_set_keys {V} (k : string) (v : V) (d : list (string * V)) :
  fst <$> dict_set k v d
  = if bool_decide (k ∈ fst <$> d) then fst <$> d else (fst <$> d) ++ [k].
Proof.
  induction d as [|[k' v'] d IH]; cbn [dict_set].
  - reflexivity.
  - destruct (String.eqb_spec k' k) as [->|Hne].
    + rewrite bool_decide_eq_true_2; [reflexivity | cbn; apply elem_of_cons; auto].
    + cbn [fmap list_fmap fst] in *. rewrite IH.
      destruct (bool_decide (k ∈ fst <$> d)) eqn:E.
      * apply bool_decide_eq_true in E.
        rewrite bool_decide_eq_true_2; [reflexivity | apply elem_of_cons; auto].
      * apply bool_decide_eq_false in E.
        rewrite bool_decide_eq_false_2; [reflexivity|].
        intros H. apply elem_of_cons in H as [H|H]; [congruence | contradiction].
Qed.

Lemma dict_set_NoDup {V} (k : string) (v : V) (d : list (string * V)) :
  NoDup (fst <$> d) -> NoDup (fst <$> dict_set k v d).
Proof.
  intros Hnd. rewrite dict_set_keys.
  destruct (bool_decide (k ∈ fst <$> d)) eqn:E; [exact Hnd|].
  apply bool_decide_eq_false in E. apply NoDup_app. split; [exact Hnd|].
  split; [|apply NoDup_singleton].
  intros x Hx Hx'. apply list_elem_of_singleton in Hx'. now subst x.
Qed.

(** The name under which a member of [foodNutrients] is stored, and the
    entry stored for it. *)
Let key_of (raw : RawNutrient) : string := default "" (fst (nutrient_info_of raw)).

Lemma collect_nutrient_get (acc : list (string * NutrientData)) (raw : RawNutrient)
    (name : string) :
  dict_get name (collect_nutrient acc raw)
  = match n_amount raw with
    | Some amount =>
        if truthy (key_of raw) && String.eqb (key_of raw) name
        then Some {| nd_amount := amount;
                     nd_unit := default "" (snd (nutrient_info_of raw)) |}
        else dict_get name acc
    | None => dict_get name acc
    end.
Proof.
  unfold collect_nutrient. fold (key_of raw).
  destruct (n_amount raw) as [amount|]; [|reflexivity].
  destruct (truthy (key_of raw)); cbn [andb]; [|reflexivity].
  destruct (String.eqb_spec (key_of raw) name) as [<-|Hne].
  - apply dict_get_set_eq.
  - apply dict_get_set_ne. congruence.
Qed.

Lemma collect_nutrients_skip (raws : list RawNutrient) (name : string) :
  forall acc,
    (forall raw, raw ∈ raws -> is_Some (n_amount raw) -> key_of raw <> name) ->
    dict_get name (fold_left collect_nutrient raws acc) = dict_get name acc.
Proof.
  induction raws as [|raw raws IH]; intros acc Hnone; cbn [fold_left]; [reflexivity|].
  rewrite IH.
  - rewrite collect_nutrient_get.
    destruct (n_amount raw) as [amount|] eqn:Ea; [|reflexivity].
    destruct (String.eqb_spec (key_of raw) name) as [Heq|Hne].
    + exfalso. apply (Hnone raw); [apply elem_of_cons; auto | rewrite Ea; eauto | exact Heq].
    + now rewrite andb_false_r.
  - intros raw' Hin. apply Hnone. apply elem_of_cons. auto.
Qed.

Lemma collect_nutrients_NoDup (raws : list RawNutrient) :
  forall acc, NoDup (fst <$> acc) -> NoDup (fst <$> fold_left collect_nutrient raws acc).
Proof.
  induction raws as [|raw raws IH]; intros acc Hnd; cbn [fold_left]; [exact Hnd|].
  apply IH. unfold collect_nutrient.
  destruct (n_amount raw); [|exact Hnd].
  destruct (truthy _); [|exact Hnd]. now apply dict_set_NoDup.
Qed.

Lemma dict_get_is_Some {V} (k : string) (d : list (string * V)) :
  is_Some (dict_get k d) <-> k ∈ fst <$> d.
Proof.
  unfold dict_get. split.
  - destruct (find _ d) as [[k' v]|] eqn:E; [|intros [x Hx]; discriminate Hx].
    intros _. apply find_some in E as [Hin Heq]. cbn in Heq.
    apply String.eqb_eq in Heq. subst k'.
    apply list_elem_of_In in Hin. apply (list_elem_of_fmap_2 fst d (k, v)). exact Hin.
  - intros Hin. apply list_elem_of_fmap in Hin as ([k' v] & -> & Hin). cbn [fst].
    destruct (find (fun p => String.eqb (fst p) k') d) as [p|] eqn:E; [eauto|].
    exfalso. apply list_elem_of_In in Hin.
    pose proof (find_none _ _ E _ Hin) as Hno. cbn in Hno.
    now rewrite String.eqb_refl in Hno.
Qed.

Lemma collect_nutrients_keys (raws : list RawNutrient) (name : string) :
  forall acc,
    is_Some (dict_get name (fold_left collect_nutrient raws acc))
    <-> is_Some (dict_get name acc)
        \/ (name <> "" /\ exists raw, raw ∈ raws /\ is_Some (n_amount raw)
                                      /\ key_of raw = name).
Proof.
  induction raws as [|raw raws IH]; intros acc; cbn [fold_left].
  - split; [auto|]. intros [H|(_ & raw & Hin & _)]; [exact H|].
    apply elem_of_nil in Hin. destruct Hin.
  - rewrite IH, collect_nutrient_get. split.
    + intros [H|(Hne & raw' & Hin & Hrest)].
      * destruct (n_amount raw) as [amount|] eqn:Ea; [|auto].
        destruct (truthy (key_of raw)) eqn:Et; cbn [andb] in H; [|auto].
        destruct (String.eqb_spec (key_of raw) name) as [Heq|Hne]; [|auto].
        right. split; [rewrite <- Heq; now apply truthy_nonempty|].
        exists raw. split; [apply elem_of_cons; auto|]. rewrite Ea. eauto.
      * right. split; [exact Hne|]. exists raw'. split; [apply elem_of_cons; auto|].
        exact Hrest.
    + intros [H|(Hne & raw' & Hin & Ha & Hk)].
      * left. destruct (n_amount raw); [|exact H].
        destruct (_ && _); [eauto | exact H].
      * apply elem_of_cons in Hin as [->|Hin].
        -- left. destruct Ha as [amount Ha]. rewrite Ha, Hk.
           apply truthy_nonempty in Hne. rewrite Hne, String.eqb_refl. cbn. eauto.
        -- right. split; [exact Hne|]. eauto.
Qed.

(** X6: the raw nutrient dictionary of an extracted record has one entry
    per distinct non-empty name reported with an amount, and no other
    entry; the entry of a name repeats the amount, zero included, and the
    unit of the last member of [foodNutrients] that reports that name
    with an amount. *)
Theorem raw_nutrient_dictionary (all_nutrient_ids : list string) (food_data : FoodData) :
  let nutrients := nu_nutrients (extract_nutrition_data all_nutrient_ids food_data) in
  let name_of raw := default "" (fst (nutrient_info_of raw)) in
  NoDup (fst <$> nutrients)
  /\ (forall name,
        is_Some (dict_get name nutrients)
        <-> name <> "" /\ exists raw, raw ∈ d_foodNutrients food_data
                                     /\ is_Some (n_amount raw) /\ name_of raw = name)
  /\ (forall before raw after amount,
        d_foodNutrients food_data = before ++ raw :: after ->
        n_amount raw = Some amount ->
        name_of raw <> "" ->
        (forall later, later ∈ after -> is_Some (n_amount later) ->
           name_of later <> name_of raw) ->
        dict_get (name_of raw) nutrients
        = Some {| nd_amount := amount;
                  nd_unit := default "" (snd (nutrient_info_of raw)) |}).
Proof.
  cbv zeta. unfold extract_nutrition_data. cbn [nu_nutrients].
  split; [apply collect_nutrients_NoDup; constructor|].
  split.
  - intros name. rewrite collect_nutrients_keys. split.
    + intros [[x Hx]|H]; [discriminate Hx | exact H].
    + auto.
  - intros before raw after amount Hsplit Ha Hname Hlast.
    rewrite Hsplit, fold_left_app. cbn [fold_left].
    rewrite collect_nutrients_skip by exact Hlast.
    rewrite collect_nutrient_get, Ha. fold (key_of raw).
    apply truthy_nonempty in Hname. unfold key_of in *.
    now rewrite Hname, String.eqb_refl.
Qed.

Lemma raw_nutrient_dictionary_witness :
  let reported (amount : Q) :=
    {| n_nested := Some (Some "Sodium, Na", Some "mg");
       n_name := None; n_unitName := None; n_amount := Some amount |} in
  let food_data :=
    {| d_fdcId := Some 173468%Z; d_description := Some "Salt, table";
       d_dataType := Some "SR Legacy"; d_brandOwner := None;
       d_foodNutrients := [reported (38758 # 1)%Q; reported 0%Q] |} in
  dict_get "Sodium, Na" (nu_nutrients (extract_nutrition_data [] food_data))
  = Some {| nd_amount := 0%Q; nd_unit := "mg" |}.
Proof.
  intros reported food_data.
  refine (proj2 (proj2 (raw_nutrient_dictionary [] food_data))
            [reported (38758 # 1)%Q] (reported 0%Q) [] 0%Q eq_refl eq_refl _ _).
  - discriminate.
  - intros later Hin. apply elem_of_nil in Hin. destruct Hin.
Defined.

End RawNutrients.

(** ** The ranked filter of search results *)

Section RankedFilter.
Import PyStr Catalog ScoringTool UsdaApi MatchQuality.
Local Open Scope list_scope.

(** Insertion with a total and transitive test keeps a list sorted. *)
Lemma insert_sorted_strongly {A} (before : A -> A -> bool) (x : A) (l : list A) :
  (forall a b, before a b = false -> before b a = true) ->
  (forall a b c, before a b = true -> before b c = true -> before a c = true) ->
  Sorted.StronglySorted (fun a b => before a b = true) l ->
  Sorted.StronglySorted (fun a b => before a b = true) (insert_sorted before x l).
Proof.
  intros Htotal Htrans. induction l as [|y l IH]; intros Hs; cbn [insert_sorted].
  - constructor; constructor.
  - apply Sorted.StronglySorted_inv in Hs as [Hl Hy].
    destruct (before x y) eqn:E.
    + constructor; [constructor; assumption|].
      constructor; [exact E|].
      eapply Forall_impl; [exact Hy|]. intros z Hz. cbn in Hz. eauto.
    + constructor; [auto|].
      rewrite (insert_sorted_perm before x l). constructor; [auto | exact Hy].
Qed.

Lemma stable_sort_strongly {A} (before : A -> A -> bool) (l : list A) :
  (forall a b, before a b = false -> before b a = true) ->
  (forall a b c, before a b = true -> before b c = true -> before a c = true) ->
  Sorted.StronglySorted (fun a b => before a b = true) (stable_sort before l).
Proof.
  intros Htotal Htrans. induction l as [|x l IH]; cbn.
  - constructor.
  - apply insert_sorted_strongly; assumption.
Qed.

Lemma by_base_then_type_spec (x y : (Z * Z * string) * Food) :
  by_base_then_type x y = true
  <-> (x.1.1.1 < y.1.1.1 \/ (x.1.1.1 = y.1.1.1 /\ x.1.1.2 <= y.1.1.2))%Z.
Proof.
  unfold by_base_then_type. cbn [fst snd].
  rewrite orb_true_iff, andb_true_iff, Z.ltb_lt, Z.eqb_eq, Z.leb_le. reflexivity.
Qed.

Lemma elem_of_imap_pair {A B} (g : nat -> A -> B) (l : list A) (b : B) (a : A) :
  (b, a) ∈ imap (fun idx x => (g idx x, x)) l
  <-> exists idx, l !! idx = Some a /\ b = g idx a.
Proof.
  rewrite list_elem_of_lookup. split.
  - intros (i & Hi). rewrite list_lookup_imap in Hi.
    destruct (l !! i) as [x|] eqn:E; [|discriminate Hi].
    cbn in Hi. injection Hi as Hb Ha. subst. eauto.
  - intros (i & Hi & ->). exists i. rewrite list_lookup_imap, Hi. reflexivity.
Qed.

(** The rows of the ranked filter: those whose score, computed at the
    position of the row, passes the test. *)
Lemma filter_search_results_members (search_results : list Food) (ingredient : string)
    (max_score : Z) (use_enhanced : bool) (score : Z * Z * string) (food : Food) :
  (score, food) ∈ filter_search_results search_results ingredient max_score use_enhanced
  <-> exists idx, search_results !! idx = Some food
        /\ score = score_at ingredient use_enhanced idx food
        /\ acceptable max_score use_enhanced score = true.
Proof.
  unfold filter_search_results.
  rewrite (stable_sort_perm by_base_then_type).
  rewrite list_elem_of_In, filter_In, <- list_elem_of_In. cbn [fst].
  rewrite elem_of_imap_pair. split.
  - intros [(idx & Hidx & ->) Hacc]. eauto.
  - intros (idx & Hidx & -> & Hacc). eauto.
Qed.

(** Rows of the enhanced filter for a [max_score] of at least 25. *)
Lemma enhanced_threshold (max_score : Z) (score : Z * Z * string) :
  (25 <= max_score)%Z -> acceptable max_score true score = (score.1.1 <? 1500)%Z.
Proof. intros Hm. unfold acceptable. now rewrite Z.max_l by lia. Qed.

Lemma enhanced_filter_fixed (search_results : list Food) (ingredient : string)
    (max_score max_score' : Z) :
  (25 <= max_score)%Z -> (25 <= max_score')%Z ->
  filter_search_results search_results ingredient max_score true
  = filter_search_results search_results ingredient max_score' true.
Proof.
  intros H1 H2. unfold filter_search_results. f_equal.
  apply filter_ext. intros item. now rewrite !enhanced_threshold.
Qed.

(** X7: the ranked filter returns exactly the rows whose score passes its
    test, each with the score computed at the row's position, in
    ascending order of base score and then of type score; it never
    returns more rows than it was given. *)
Theorem filter_search_results_ranked (search_results : list Food) (ingredient : string)
    (max_score : Z) (use_enhanced : bool) :
  let out := filter_search_results search_results ingredient max_score use_enhanced in
  Sorted.StronglySorted
    (fun x y => (x.1.1.1 < y.1.1.1 \/ (x.1.1.1 = y.1.1.1 /\ x.1.1.2 <= y.1.1.2))%Z) out
  /\ (forall score food,
        (score, food) ∈ out
        <-> exists idx, search_results !! idx = Some food
              /\ score = score_at ingredient use_enhanced idx food
              /\ acceptable max_score use_enhanced score = true)
  /\ (length out <= length search_results)%nat.
Proof.
  cbv zeta. unfold filter_search_results.
  set (scored := imap _ search_results).
  set (kept := List.filter _ scored).
  split; [|split].
  - assert (Hs : Sorted.StronglySorted (fun a b => by_base_then_type a b = true)
                   (stable_sort by_base_then_type kept)).
    { apply stable_sort_strongly.
      - intros a b. rewrite <- not_true_iff_false, !by_base_then_type_spec. lia.
      - intros a b c. rewrite !by_base_then_type_spec. lia. }
    induction Hs as [|a l Hl IH Ha]; constructor; [exact IH|].
    eapply Forall_impl; [exact Ha|]. intros z Hz. now apply by_base_then_type_spec.
  - intros score food. apply filter_search_results_members.
  - rewrite (stable_sort_perm by_base_then_type kept). subst kept scored.
    etransitivity; [apply filter_length_le|]. now rewrite length_imap.
Qed.

(** X8: with the enhanced scoring the acceptance threshold is
    [max(1500, 2000 - 20 * max_score)], which is 1500 for every
    [max_score] of at least 25: the filter then keeps exactly the rows
    whose relevance score exceeds 500, so that filtering again with a
    larger [max_score], as the first orchestrator does with 200 after
    50, returns the same list. *)
Theorem enhanced_filter_saturates (search_results : list Food) (ingredient : string)
    (max_score max_score' : Z) :
  (25 <= max_score)%Z -> (25 <= max_score')%Z ->
  filter_search_results search_results ingredient max_score true
  = filter_search_results search_results ingredient max_score' true
  /\ forall score food,
       (score, food) ∈ filter_search_results search_results ingredient max_score true
       <-> exists idx, search_results !! idx = Some food
             /\ score = score_match_quality_enhanced food ingredient idx None
             /\ (500 < _score_relevance_advanced food ingredient idx)%Z.
Proof.
  intros H1 H2. split; [now apply enhanced_filter_fixed|].
  pose proof enhanced_threshold as Hacc.
  - intros score food.
    rewrite filter_search_results_members. unfold score_at. split.
    + intros (idx & Hidx & -> & Hok). exists idx. split; [exact Hidx|].
      split; [reflexivity|]. rewrite Hacc in Hok by exact H1.
      apply Z.ltb_lt in Hok. unfold score_match_quality_enhanced in Hok.
      cbn [fst snd intent_penalty] in Hok. lia.
    + intros (idx & Hidx & -> & Hrel). exists idx. split; [exact Hidx|].
      split; [reflexivity|]. rewrite Hacc by exact H1.
      apply Z.ltb_lt. unfold score_match_quality_enhanced.
      cbn [fst snd intent_penalty]. lia.
Qed.

Lemma enhanced_filter_saturates_witness :
  filter_search_results [Samples.cinnamon] "cinnamon" 50 true
  = filter_search_results [Samples.cinnamon] "cinnamon" 200 true.
Proof.
  apply (enhanced_filter_saturates [Samples.cinnamon] "cinnamon" 50 200); lia.
Defined.

(** The base score of the first scorer is a sum of penalties of 50, 150
    and 200 points. *)
Lemma match_quality_base_score (food_item : Food) (ingredient : string)
    (search_intent : option (list (option string))) :
  exists k, (0 <= k)%Z
    /\ (score_match_quality food_item ingredient search_intent).1.1 = (50 * k)%Z.
Proof.
  unfold score_match_quality. cbn [fst].
  set (dl := lower (strip _)). set (iw := split (lower ingredient)).
  set (dw := rstrip_char "," <$> split dl).
  assert (H1 : exists k, (0 <= k)%Z /\ start_penalty dw iw = (50 * k)%Z).
  { unfold start_penalty. destruct (in_list _ _); [exists 0%Z; lia|].
    destruct (existsb _ _); [exists 0%Z | exists 1%Z]; lia. }
  assert (H2 : exists k, (0 <= k)%Z /\ intent_penalty dl iw search_intent = (50 * k)%Z).
  { unfold intent_penalty. destruct search_intent as [avoid_words|]; [|exists 0%Z; lia].
    assert (Hone : forall a, exists k, (0 <= k)%Z /\ avoid_penalty dl iw a = (50 * k)%Z).
    { intros [a|]; cbn [avoid_penalty]; [|exists 0%Z; lia].
      destruct (3 <=? _)%nat; [|exists 0%Z; lia].
      destruct (contains _ _); [|exists 0%Z; lia].
      destruct (index_of _ _) as [pos|]; [|exists 0%Z; lia].
      destruct (existsb _ _); [exists 0%Z; lia|].
      destruct (_ && _); [exists 4%Z; lia|].
      destruct (negb _); [exists 4%Z | exists 0%Z]; lia. }
    assert (Hfold : forall ws acc, (exists k, (0 <= k)%Z /\ acc = (50 * k)%Z) ->
              exists k, (0 <= k)%Z
                /\ fold_left (fun b a => (b + avoid_penalty dl iw a)%Z) ws acc = (50 * k)%Z).
    { induction ws as [|a ws IH]; intros acc Hacc; cbn [fold_left]; [exact Hacc|].
      apply IH. destruct Hacc as (k & Hk & ->). destruct (Hone a) as (j & Hj & ->).
      exists (k + j)%Z. lia. }
    apply Hfold. exists 0%Z. lia. }
  assert (H3 : exists k, (0 <= k)%Z /\ conjunction_penalty dl dw = (50 * k)%Z).
  { unfold conjunction_penalty. destruct (existsb _ conjunction_words); [|exists 0%Z; lia].
    destruct (existsb _ conjunction_words); [|exists 0%Z; lia].
    destruct (negb _); [exists 3%Z | exists 0%Z]; lia. }
  assert (H4 : exists k, (0 <= k)%Z /\ modifier_penalty dl = (50 * k)%Z).
  { unfold modifier_penalty. destruct (contains _ _); [|exists 0%Z; lia].
    destruct (_ <? _)%nat; [|exists 0%Z; lia].
    destruct (existsb _ _); [exists 0%Z | exists 1%Z]; lia. }
  destruct H1 as (k1 & ? & ->), H2 as (k2 & ? & ->), H3 as (k3 & ? & ->),
    H4 as (k4 & ? & ->).
  exists (k1 + k2 + k3 + k4)%Z. lia.
Qed.

(** X9: without the enhanced scoring a [max_score] of at most 50, the
    default, leaves room for no penalty at all: base scores are multiples of 50,
    so the filter keeps exactly the rows whose base score is 0. *)
Theorem plain_filter_keeps_unpenalised (search_results : list Food) (ingredient : string)
    (max_score : Z) :
  (max_score <= 50)%Z ->
  forall score food,
    (score, food) ∈ filter_search_results search_results ingredient max_score false
    <-> exists idx, search_results !! idx = Some food
          /\ score = score_match_quality food ingredient None
          /\ score.1.1 = 0%Z.
Proof.
  intros Hmax score food.
  rewrite filter_search_results_members. unfold score_at, acceptable.
  split; intros (idx & Hidx & -> & Hok); exists idx; (split; [exact Hidx|]);
    (split; [reflexivity|]).
  - destruct (match_quality_base_score food ingredient None) as (k & Hk & Hbase).
    apply orb_true_iff in Hok as [Hok|Hok]; [apply Z.ltb_lt in Hok; lia|].
    now apply Z.eqb_eq.
  - rewrite Hok. cbn. apply orb_true_r.
Qed.

Lemma plain_filter_keeps_unpenalised_witness :
  exists idx, [Samples.cinnamon] !! idx = Some Samples.cinnamon
    /\ (score_match_quality Samples.cinnamon "spices" None).1.1 = 0%Z.
Proof.
  destruct (proj1 (plain_filter_keeps_unpenalised [Samples.cinnamon] "spices" 50
                     ltac:(lia)
                     (score_match_quality Samples.cinnamon "spices" None)
                     Samples.cinnamon))
    as (idx & Hidx & _ & Hzero).
  - vm_compute. left.
  - exists idx. split; [exact Hidx | exact Hzero].
Defined.

End RankedFilter.

(** ** The conditional search and the fast path *)

Section TieredSearches.
Import Py PyStr Catalog ScoringTool UsdaApi TieredSearch.
Local Open Scope list_scope.

(** The retry loop depends on the replies only. *)
Lemma request_loop_ext {A B} (self : USDAApiClient) (send send' : nat -> http_reply A)
    (on_ok : A -> B) (exhausted : B) (remaining : nat) :
  (forall a, send a = send' a) ->
  forall attempt,
    request_loop self send on_ok exhausted remaining attempt
    = request_loop self send' on_ok exhausted remaining attempt.
Proof.
  intros Hext. induction remaining as [|remaining IH]; intros attempt; cbn [request_loop].
  - reflexivity.
  - rewrite <- Hext. destruct (send attempt); try reflexivity;
      destruct (_ <? _)%Z; try reflexivity; now rewrite IH.
Qed.

Lemma py_take_nil {A} (n : Z) : py_take n (@nil A) = [].
Proof. unfold py_take. destruct (0 <=? n)%Z; now rewrite take_nil. Qed.

Lemma elem_of_py_take {A} (n : Z) (l : list A) (x : A) : x ∈ py_take n l -> x ∈ l.
Proof.
  unfold py_take. destruct (0 <=? n)%Z; intros H; apply elem_of_take in H as (i & Hi & _);
    eapply list_elem_of_lookup_2; exact Hi.
Qed.

(** Cutting every reply down to its first rows cuts the result of the
    search down to its first rows. *)
Lemma request_loop_first_rows (self : USDAApiClient)
    (send send' : nat -> http_reply (option (list Food))) (n : Z) (remaining : nat) :
  (forall a, send' a = first_rows n (send a)) ->
  forall attempt,
    snd (request_loop self send' (default []) [] remaining attempt)
    = match snd (request_loop self send (default []) [] remaining attempt) with
      | Returned rows => Returned (py_take n rows)
      | Raised e => Raised e
      end.
Proof.
  intros Hcut. induction remaining as [|remaining IH]; intros attempt; cbn [request_loop].
  - cbn. now rewrite py_take_nil.
  - rewrite Hcut. destruct (send attempt) as [[rows|]| | |e]; cbn [first_rows fmap option_fmap option_map];
      cbn [snd default]; try reflexivity; try (now rewrite py_take_nil).
    + destruct (_ <? _)%Z.
      * specialize (IH (S attempt)).
        destruct (request_loop self send' _ _ remaining (S attempt)) as [effs' r'].
        destruct (request_loop self send _ _ remaining (S attempt)) as [effs r].
        exact IH.
      * cbn. now rewrite py_take_nil.
    + destruct (_ <? _)%Z.
      * specialize (IH (S attempt)).
        destruct (request_loop self send' _ _ remaining (S attempt)) as [effs' r'].
        destruct (request_loop self send _ _ remaining (S attempt)) as [effs r].
        exact IH.
      * cbn. now rewrite py_take_nil.
Qed.

Lemma ranked_perm (all_results : list Food) (ingredient : option string) :
  ranked all_results ingredient ≡ₚ all_results.
Proof.
  unfold ranked. destruct (truthy _).
  - rewrite stable_sort_perm. now rewrite fst_imap_pair.
  - apply stable_sort_perm.
Qed.

(** A row whose id is falsy or already seen is not merged. *)
Lemma merge_unbranded_seen (tier : Z) (results : list Food) (acc : list Food * gset Z) :
  (forall raw z, raw ∈ results -> f_fdcId raw = Some z -> z <> 0%Z -> z ∈ acc.2) ->
  fold_left (merge_step_unbranded tier) results acc = acc.
Proof.
  induction results as [|r results IH]; intros Hseen; cbn [fold_left]; [reflexivity|].
  assert (Hstep : merge_step_unbranded tier acc r = acc).
  { unfold merge_step_unbranded. destruct acc as [all seen].
    destruct (f_fdcId r) as [z|] eqn:Hid; [|reflexivity].
    destruct (Z.eqb_spec z 0) as [Hz|Hz]; [reflexivity|]. cbn [negb andb].
    rewrite bool_decide_eq_true_2; [reflexivity|].
    apply (Hseen r z); [apply elem_of_cons; auto | exact Hid | exact Hz]. }
  rewrite Hstep. apply IH. intros raw z Hin. apply Hseen. apply elem_of_cons. auto.
Qed.

Lemma merge_seen (tier : Z) (results : list Food) (raw : Food) (z : Z) :
  forall (E : list (Z * Food)) (acc : list Food * gset Z),
    merged E acc ->
    (forall t r, (t, r) ∈ E -> (t <= tier)%Z) ->
    raw ∈ results -> f_fdcId raw = Some z -> z <> 0%Z ->
    z ∈ (merge_tier tier acc results).2.
Proof.
  intros E acc Hm Hle Hin Hid Hz.
  destruct (merged_tier tier results E acc Hm Hle) as (_ & _ & _ & Hoffered).
  apply (Hoffered tier raw z); [|exact Hid | exact Hz].
  apply elem_of_app. right. apply list_elem_of_fmap. eauto.
Qed.

(** X10: in the conditional search the third call passes no filter,
    which the client replaces by its default filter: it repeats the
    request of the first call.  With a transport that answers equal
    requests equally the third tier therefore adds nothing: every row
    returned was found by the first or by the second tier. *)
Theorem third_tier_repeats_first_tier (self : USDAApiClient) (http : search_transport)
    (query : string) (page_size : Z) (ingredient : option string)
    (log : list ClientCall) (out : list Food) :
  repeatable http ->
  snd (search_usda_food_multi_tier self http query page_size ingredient log)
  = Returned out ->
  forall c, c ∈ out -> f_search_tier c = Some 1%Z \/ f_search_tier c = Some 2%Z.
Proof.
  intros Hrep. unfold search_usda_food_multi_tier, bind, client_search_food, ret.
  cbn [fst snd].
  assert (Hthird : forall k,
            snd (search_food self (http k) query page_size None)
            = snd (search_food self (http (length log)) query page_size
                     (Some "Foundation,SR Legacy"))).
  { intros k. unfold search_food. cbn [truthy]. f_equal.
    apply request_loop_ext. intros a. apply Hrep. }
  destruct (snd (search_food self (http (length log)) query page_size
                   (Some "Foundation,SR Legacy"))) as [t1|e] eqn:H1;
    [|discriminate].
  set (acc1 := merge_tier 1 ([], ∅) t1).
  set (tag := fun (t : Z) (rs : list Food) => (fun r => (t, r)) <$> rs).
  assert (Hm1 : merged ([] ++ tag 1%Z t1) acc1).
  { apply merged_tier; [apply merged_empty|].
    intros t r Hin. apply elem_of_nil in Hin. destruct Hin. }
  assert (Htag : forall t rs x raw, (x, raw) ∈ tag t rs -> x = t /\ raw ∈ rs).
  { intros t rs x raw Hin. apply list_elem_of_fmap in Hin as (r & Heq & Hr).
    injection Heq as -> ->. auto. }
  assert (Hsecond : forall (acc2 : list Food * gset Z),
            (acc2 = acc1 \/ exists t2, acc2 = merge_tier 2 acc1 t2) ->
            (forall c, c ∈ acc2.1 ->
               f_search_tier c = Some 1%Z \/ f_search_tier c = Some 2%Z)
            /\ (forall raw z, raw ∈ t1 -> f_fdcId raw = Some z -> z <> 0%Z -> z ∈ acc2.2)).
  { intros acc2 [->|[t2 ->]].
    - split.
      + intros c Hc. destruct Hm1 as (_ & _ & Hrows & _).
        destruct (Hrows c Hc) as (t & raw & Hin & _ & -> & _).
        rewrite app_nil_l in Hin. apply Htag in Hin as [-> _]. auto.
      + intros raw z Hin Hid Hz.
        apply (merge_seen 1 t1 raw z [] ([], ∅)); auto using merged_empty.
        intros t r Hr. apply elem_of_nil in Hr. destruct Hr.
    - assert (Hle : forall t r, (t, r) ∈ [] ++ tag 1%Z t1 -> (t <= 2)%Z).
      { intros t r Hin. rewrite app_nil_l in Hin. apply Htag in Hin. lia. }
      pose proof (merged_tier 2 t2 _ acc1 Hm1 Hle) as (_ & _ & Hrows & Hoffered).
      split.
      + intros c Hc. destruct (Hrows c Hc) as (t & raw & Hin & _ & -> & _).
        rewrite app_nil_l in Hin.
        apply elem_of_app in Hin as [Hin|Hin]; apply Htag in Hin as [-> _]; auto.
      + intros raw z Hin Hid Hz. apply (Hoffered 1%Z raw z); [|exact Hid | exact Hz].
        apply elem_of_app. left. rewrite app_nil_l. apply list_elem_of_fmap. eauto. }
  assert (Hout : forall acc2 : list Food * gset Z,
            (acc2 = acc1 \/ exists t2, acc2 = merge_tier 2 acc1 t2) ->
            Returned (py_take page_size (ranked acc2.1 ingredient)) = Returned out ->
            forall c, c ∈ out -> f_search_tier c = Some 1%Z \/ f_search_tier c = Some 2%Z).
  { intros acc2 Hacc2 Heq c Hc. injection Heq as <-.
    apply elem_of_py_take in Hc. rewrite ranked_perm in Hc.
    now apply (proj1 (Hsecond acc2 Hacc2)). }
  assert (Hkeep : forall acc2 : list Food * gset Z,
            (acc2 = acc1 \/ exists t2, acc2 = merge_tier 2 acc1 t2) ->
            fold_left (merge_step_unbranded 3) t1 acc2 = acc2).
  { intros acc2 Hacc2. apply merge_unbranded_seen. apply (Hsecond acc2 Hacc2). }
  destruct (length t1 <? 10)%nat.
  - destruct (snd (search_food self (http _) query page_size (Some "Survey (FNDDS)")))
      as [t2|e]; [|discriminate].
    destruct (length (merge_tier 2 acc1 t2).1 <? 5)%nat.
    + rewrite Hthird. cbn [fst snd]. rewrite Hkeep by eauto. apply Hout. eauto.
    + cbn [fst snd]. apply Hout. eauto.
  - destruct (length acc1.1 <? 5)%nat.
    + rewrite Hthird. cbn [fst snd]. rewrite Hkeep by eauto. apply Hout. eauto.
    + cbn [fst snd]. apply Hout. eauto.
Qed.

Lemma third_tier_repeats_first_tier_witness :
  let http : search_transport := fun _ _ _ => HttpOk (Some [Samples.cinnamon]) in
  let row := set_search_tier 1 Samples.cinnamon in
  snd (search_usda_food_multi_tier new_client http "cinnamon" 50 None []) = Returned [row]
  /\ (f_search_tier row = Some 1%Z \/ f_search_tier row = Some 2%Z).
Proof.
  intros http row.
  assert (Hrun : snd (search_usda_food_multi_tier new_client http "cinnamon" 50 None [])
                 = Returned [row]) by (vm_compute; reflexivity).
  split; [exact Hrun|].
  refine (third_tier_repeats_first_tier new_client http "cinnamon" 50 None [] [row]
            _ Hrun row _).
  - intros k k' params attempt. reflexivity.
  - apply list_elem_of_singleton. reflexivity.
Defined.

(** X11: the fourth call of the comprehensive search passes no filter
    either, so it asks for 10 rows under the filter of the first call,
    which asks for 30.  With a transport that pages through one ranking
    the fourth tier adds nothing: every row returned carries the tier 1,
    2 or 3. *)
Theorem fourth_tier_repeats_first_tier (self : USDAApiClient) (http : search_transport)
    (query : string) (ingredient : option string) (out : list Food) :
  paginating http ->
  search_usda_food_multi_tier_comprehensive (comprehensive_client self http)
    query ingredient = Returned out ->
  forall c, c ∈ out ->
    f_search_tier c = Some 1%Z \/ f_search_tier c = Some 2%Z \/ f_search_tier c = Some 3%Z.
Proof.
  intros Hpage. unfold search_usda_food_multi_tier_comprehensive.
  assert (Hfourth :
            comprehensive_client self http query 10 None
            = match comprehensive_client self http query 30 (Some "Foundation,SR Legacy") with
              | Returned rows => Returned (py_take 10 rows)
              | Raised e => Raised e
              end).
  { unfold comprehensive_client, search_food. cbn [truthy].
    apply request_loop_first_rows. intros a.
    change (Z.min 10 200) with 10%Z. change (Z.min 30 200) with 30%Z.
    apply Hpage. lia. }
  rewrite Hfourth.
  destruct (comprehensive_client self http query 30 (Some "Foundation,SR Legacy"))
    as [t1|e]; cbn [bind_result]; [|discriminate].
  destruct (comprehensive_client self http query 20 (Some "Survey (FNDDS)"))
    as [t2|e]; cbn [bind_result]; [|discriminate].
  destruct (comprehensive_client self http query 20 (Some "Branded"))
    as [t3|e]; cbn [bind_result]; [|discriminate].
  set (t4 := py_take 10 t1).
  set (tag := fun (t : Z) (rs : list Food) => (fun r => (t, r)) <$> rs).
  set (E := (((([] ++ tag 1%Z t1) ++ tag 2%Z t2) ++ tag 3%Z t3) ++ tag 4%Z t4)).
  set (acc := merge_tier 4 (merge_tier 3 (merge_tier 2 (merge_tier 1 ([], ∅) t1) t2) t3) t4).
  assert (Htag : forall t rs x raw, (x, raw) ∈ tag t rs -> x = t /\ raw ∈ rs).
  { intros t rs x raw Hin. apply list_elem_of_fmap in Hin as (r & Heq & Hr).
    injection Heq as -> ->. auto. }
  assert (Hm : merged E acc).
  { subst E acc. apply merged_tier; [apply merged_tier; [apply merged_tier;
      [apply merged_tier; [apply merged_empty|]|]|]|].
    - intros t raw Hin. apply elem_of_nil in Hin. destruct Hin.
    - intros t raw Hin. rewrite app_nil_l in Hin. apply Htag in Hin. lia.
    - intros t raw Hin. rewrite app_nil_l in Hin.
      apply elem_of_app in Hin as [Hin|Hin]; apply Htag in Hin; lia.
    - intros t raw Hin. rewrite app_nil_l in Hin.
      apply elem_of_app in Hin as [Hin|Hin];
        [apply elem_of_app in Hin as [Hin|Hin]|]; apply Htag in Hin; lia. }
  destruct Hm as (_ & _ & Hrows & _).
  assert (Hacc : forall c, c ∈ acc.1 ->
            f_search_tier c = Some 1%Z \/ f_search_tier c = Some 2%Z
            \/ f_search_tier c = Some 3%Z).
  { intros c Hc. destruct (Hrows c Hc) as (tier & raw & Hin & _ & -> & Hfirst).
    subst E. rewrite app_nil_l in Hin.
    apply elem_of_app in Hin as [Hin|Hin];
      [apply elem_of_app in Hin as [Hin|Hin];
         [apply elem_of_app in Hin as [Hin|Hin]|]|];
      pose proof Hin as Hin'; apply Htag in Hin' as [-> Hraw]; cbn; auto.
    exfalso. apply (Hfirst 1%Z raw); [|lia | reflexivity].
    rewrite app_nil_l. do 3 (apply elem_of_app; left).
    apply list_elem_of_fmap. exists raw. split; [reflexivity|].
    now apply elem_of_py_take in Hraw. }
  destruct (truthy (default "" ingredient)); intros Heq c Hc; injection Heq as <-;
    apply elem_of_take in Hc as (i & Hi & _); apply list_elem_of_lookup_2 in Hi;
    apply Hacc.
  - rewrite stable_sort_perm, fst_imap_pair in Hi. exact Hi.
  - rewrite stable_sort_perm in Hi. exact Hi.
Qed.

Lemma fourth_tier_repeats_first_tier_witness :
  let http : search_transport :=
    fun _ params _ => HttpOk (Some (py_take (p_pageSize params) [Samples.cinnamon])) in
  let row := set_search_tier 1 Samples.cinnamon in
  search_usda_food_multi_tier_comprehensive (comprehensive_client new_client http)
    "cinnamon" None = Returned [row]
  /\ (f_search_tier row = Some 1%Z \/ f_search_tier row = Some 2%Z
      \/ f_search_tier row = Some 3%Z).
Proof.
  intros http row.
  assert (Hrun : search_usda_food_multi_tier_comprehensive
                   (comprehensive_client new_client http) "cinnamon" None
                 = Returned [row]) by (vm_compute; reflexivity).
  split; [exact Hrun|].
  refine (fourth_tier_repeats_first_tier new_client http "cinnamon" None [row] _ Hrun row _).
  - intros k k' query data_type n m attempt Hnm. subst http. cbn.
    do 2 f_equal. unfold py_take.
    destruct (Z.leb_spec 0 n) as [_|?]; [|lia]. destruct (Z.leb_spec 0 m) as [_|?]; [|lia].
    destruct (Z.to_nat n) as [|n'] eqn:En; [reflexivity|].
    destruct (Z.to_nat m) as [|m'] eqn:Em; [lia|]. cbn [take]. now rewrite !take_nil.
  - apply list_elem_of_singleton. reflexivity.
Defined.

(** The head of the list sorted by descending score is the first row of
    the highest score. *)
Lemma sorted_head_first_max (l : list (Food * Z)) :
  match stable_sort by_score_desc l with
  | [] => l = []
  | best :: _ =>
      exists i, l !! i = Some best
        /\ (forall j y, l !! j = Some y -> (snd y <= snd best)%Z)
        /\ (forall j y, (j < i)%nat -> l !! j = Some y -> (snd y < snd best)%Z)
  end.
Proof.
  induction l as [|x l IH]; cbn [stable_sort fold_right]; [reflexivity|].
  fold (stable_sort by_score_desc l).
  destruct (stable_sort by_score_desc l) as [|h t]; cbn [insert_sorted].
  - subst l. exists 0%nat. split; [reflexivity|]. split.
    + intros [|j] y Hy; [injection Hy as <-; lia | discriminate Hy].
    + intros j y Hj. lia.
  - destruct IH as (i & Hi & Hmax & Hfirst). unfold by_score_desc at 1.
    destruct (Z.leb_spec (snd h) (snd x)) as [Hle|Hlt].
    + exists 0%nat. split; [reflexivity|]. split.
      * intros [|j] y Hy; [injection Hy as <-; lia|]. cbn in Hy.
        specialize (Hmax j y Hy). lia.
      * intros j y Hj. lia.
    + exists (S i). split; [exact Hi|]. split.
      * intros [|j] y Hy; [injection Hy as <-; lia|]. exact (Hmax j y Hy).
      * intros [|j] y Hj Hy; [injection Hy as <-; lia|]. apply (Hfirst j y); [lia | exact Hy].
Qed.

(** X12: when the first search of the fast path returns rows, no other
    search is made; the best match is the first row of the highest
    relevance score; its detail record is fetched, once, when its id is
    truthy, and returned when found; otherwise the row itself is
    returned. *)
Theorem fast_path_takes_best_match (self : USDAApiClient) (http_search : search_transport)
    (http_details : details_transport) (query : string) (log : list ClientCall)
    (foods : list Food) :
  snd (search_food self (http_search (length log)) query 50 (Some "Foundation,SR Legacy"))
  = Returned foods ->
  foods <> [] ->
  let score food idx := _score_relevance_advanced food query idx in
  let searched := log ++ [Searched 50 (Some "Foundation,SR Legacy")] in
  let run :=
    get_ingredient_nutrition_profile_fast self http_search http_details query log in
  exists idx best_food,
    foods !! idx = Some best_food
    /\ (forall j other, foods !! j = Some other -> (score other j <= score best_food idx)%Z)
    /\ (forall j other, (j < idx)%nat -> foods !! j = Some other ->
          (score other j < score best_food idx)%Z)
    /\ match f_fdcId best_food with
       | Some fdc_id =>
           if (fdc_id =? 0)%Z then run = (searched, Returned (Some (SearchRow best_food)))
           else
             run = (searched ++ [Fetched fdc_id],
                    match snd (get_food_details self (http_details (length searched)) fdc_id)
                    with
                    | Returned (Some fd) => Returned (Some (FullDetails fd))
                    | Returned None => Returned (Some (SearchRow best_food))
                    | Raised e => Raised e
                    end)
       | None => run = (searched, Returned (Some (SearchRow best_food)))
       end.
Proof.
  intros Hsearch Hne score searched run. subst run.
  unfold get_ingredient_nutrition_profile_fast, bind, client_search_food.
  cbn [fst snd]. rewrite Hsearch.
  destruct foods as [|f0 foods']; [contradiction|]. unfold ret.
  cbv beta iota. cbn [fst snd].
  set (foods := f0 :: foods') in *.
  set (scored := imap (fun idx food => (food, _score_relevance_advanced food query idx)) foods).
  pose proof (sorted_head_first_max scored) as Hhead.
  destruct (stable_sort by_score_desc scored) as [|[best_food best_score] rest].
  { subst scored foods. discriminate Hhead. }
  destruct Hhead as (idx & Hidx & Hmax & Hfirst).
  assert (Hlook : forall j, scored !! j = (fun food => (food, score food j)) <$> foods !! j).
  { intros j. subst scored. now rewrite list_lookup_imap. }
  rewrite Hlook in Hidx.
  destruct (foods !! idx) as [food|] eqn:Hfood; [|discriminate Hidx].
  cbn in Hidx. injection Hidx as -> <-.
  exists idx, best_food. split; [exact Hfood|]. split; [|split].
  - intros j other Hj. apply (Hmax j (other, score other j)). now rewrite Hlook, Hj.
  - intros j other Hlt Hj. apply (Hfirst j (other, score other j) Hlt).
    now rewrite Hlook, Hj.
  - destruct (f_fdcId best_food) as [fdc_id|]; [|reflexivity].
    destruct (fdc_id =? 0)%Z; cbn [negb]; [reflexivity|].
    unfold client_get_food_details. fold searched.
    destruct (snd (get_food_details self (http_details (length searched)) fdc_id))
      as [[fd|]|e]; reflexivity.
Qed.

Lemma fast_path_takes_best_match_witness :
  get_ingredient_nutrition_profile_fast new_client
    (fun _ _ _ => HttpOk (Some [Samples.cinnamon]))
    (fun _ _ _ => HttpOk (Some Samples.cinnamon_detail)) "cinnamon" []
  = ([Searched 50 (Some "Foundation,SR Legacy"); Fetched 171320],
     Returned (Some (FullDetails Samples.cinnamon_detail))).
Proof.
  destruct (fast_path_takes_best_match new_client
              (fun _ _ _ => HttpOk (Some [Samples.cinnamon]))
              (fun _ _ _ => HttpOk (Some Samples.cinnamon_detail)) "cinnamon" []
              [Samples.cinnamon] eq_refl ltac:(discriminate))
    as (idx & best_food & Hidx & _ & _ & Hrun).
  destruct idx as [|idx]; [|destruct idx; discriminate Hidx].
  injection Hidx as <-. exact Hrun.
Defined.

End TieredSearches.

(** ** The fallback of the nutritional gate *)

Section BasicSimilarity.
Import Py PyStr Catalog NutrientMapper MappingTool UsdaApi Orchestrator TieredSearch
  SimilarityTool.
Local Open Scope list_scope.

Variable w : World.

Lemma basic_rows_spec (results : list Food) :
  forall (acc : list BasicRow) (st : State) (rows : list BasicRow) (st' : State),
    basic_rows w results acc st = (Returned rows, st') ->
    exists new,
      rows = acc ++ new
      /\ Forall (fun row => b_nutritional_similarity_score row = 70%Q) new
      /\ (b_fdc_id <$> new) `sublist_of` asked_ids results
      /\ count_events is_details_call st'
         = (count_events is_details_call st + length (asked_ids results))%nat.
Proof.
  induction results as [|result results IH]; intros acc st rows st' Hrun;
    cbn [basic_rows] in Hrun.
  - injection Hrun as <- <-. exists []. rewrite app_nil_r. cbn.
    split; [reflexivity|]. split; [constructor|]. split; [constructor | lia].
  - unfold asked_ids. cbn [omap list_omap]. fold (asked_ids results).
    destruct (f_fdcId result) as [fdc_id|]; [|cbn; now apply IH].
    destruct (fdc_id =? 0)%Z; cbn [negb] in *; [now apply IH|].
    cbv [Orchestrator.bind get_usda_food_details call lift] in Hrun.
    cbn [fst snd tick events stats] in Hrun.
    destruct (w_food_details w (tick st) (Some fdc_id)) as [[fd|]|e];
      cbv beta iota in Hrun; cbn [fst snd] in Hrun; [| |discriminate Hrun].
    + apply IH in Hrun as (new & -> & Hall & Hsub & Hcount).
      eexists (_ :: new). rewrite <- app_assoc. split; [reflexivity|].
      split; [constructor; [reflexivity | exact Hall]|].
      split; [cbn; now constructor|].
      rewrite Hcount. unfold count_events. cbn [events].
      rewrite List.filter_app, length_app. cbn. lia.
    + apply IH in Hrun as (new & -> & Hall & Hsub & Hcount).
      exists new. split; [reflexivity|]. split; [exact Hall|].
      split; [now constructor|].
      rewrite Hcount. unfold count_events. cbn [events].
      rewrite List.filter_app, length_app. cbn. lia.
Qed.

(** X13: the fallback of the nutritional gate asks one detail record
    for every truthy id among the first [top_n] results and gives each
    record found the score 70.  That score is below the threshold of
    either band, 80 and 90, so a list scored by the fallback is never
    accepted by the gate. *)
Theorem basic_similarity_never_passes (ingredient : string) (usda_results : list Food)
    (top_n : Z) (st : State) (rows : list BasicRow) (st' : State) :
  _calculate_basic_similarity w ingredient usda_results top_n st = (Returned rows, st') ->
  (forall row, row ∈ rows -> b_nutritional_similarity_score row = 70%Q)
  /\ (b_fdc_id <$> rows) `sublist_of` asked_ids (py_take top_n usda_results)
  /\ count_events is_details_call st'
     = (count_events is_details_call st + length (asked_ids (py_take top_n usda_results)))%nat
  /\ forall best_semantic_score,
       gate_accepts (nutritional_threshold (semantic_decision best_semantic_score))
         (as_similarity <$> rows) = false.
Proof.
  intros Hrun. apply basic_rows_spec in Hrun as (new & -> & Hall & Hsub & Hcount).
  rewrite app_nil_l. split; [|split; [exact Hsub|split; [exact Hcount|]]].
  - intros row Hrow. rewrite Forall_forall in Hall. now apply Hall.
  - intros s. destruct new as [|row new]; [reflexivity|].
    apply Forall_cons in Hall as [Hrow _]. cbn [fmap list_fmap gate_accepts as_similarity
      s_nutritional_similarity_score default]. rewrite Hrow.
    unfold semantic_decision.
    destruct (Qle_bool 90 s); [reflexivity|].
    destruct (Qle_bool 80 s); [reflexivity|].
    destruct (Qle_bool 65 s); reflexivity.
Qed.

End BasicSimilarity.

Section BasicSimilarityWitness.
Import Py PyStr Catalog NutrientMapper MappingTool UsdaApi Orchestrator TieredSearch
  SimilarityTool Samples.

Lemma basic_similarity_never_passes_witness :
  let w := world_of ∅ 85 0 (Returned (Some cinnamon_detail)) in
  let run := _calculate_basic_similarity w "cinnamon sticks" [cinnamon] 3 initial_state in
  exists rows,
    run = (Returned rows, snd run)
    /\ length rows = 1%nat
    /\ gate_accepts (nutritional_threshold (semantic_decision 85)) (as_similarity <$> rows)
       = false.
Proof.
  intros w run.
  set (rows := match fst run with Returned rows => rows | Raised _ => [] end).
  assert (Hrun : run = (Returned rows, snd run)) by (vm_compute; reflexivity).
  exists rows. split; [exact Hrun|]. split; [vm_compute; reflexivity|].
  exact (proj2 (proj2 (proj2
           (basic_similarity_never_passes w "cinnamon sticks" [cinnamon] 3 initial_state
              rows (snd run) Hrun))) 85%Q).
Defined.

End BasicSimilarityWitness.

(** ** The basic nutrients of the similarity tool *)

Section BasicNutrients.
Import Py PyStr Catalog NutrientMapper MappingTool UsdaApi Orchestrator TieredSearch
  SimilarityTool.
Local Open Scope list_scope.

Lemma dict_get_app {V} (k : string) (l1 l2 : list (string * V)) :
  dict_get k (l1 ++ l2)
  = match dict_get k l1 with Some v => Some v | None => dict_get k l2 end.
Proof.
  unfold dict_get. induction l1 as [|[k' v'] l1 IH]; cbn [app find fst]; [reflexivity|].
  destruct (String.eqb k' k); [reflexivity | exact IH].
Qed.

Lemma dict_get_elem_of {V} (k : string) (v : V) (l : list (string * V)) :
  dict_get k l = Some v -> (k, v) ∈ l.
Proof.
  unfold dict_get. destruct (find _ l) as [[k' v']|] eqn:E; [|discriminate].
  apply find_some in E as [Hin Heq]. cbn in Heq. apply String.eqb_eq in Heq. subst k'.
  intros H. injection H as <-. now apply list_elem_of_In.
Qed.

Lemma dict_get_absent {V} (k : string) (l : list (string * V)) :
  k ∉ fst <$> l -> dict_get k l = None.
Proof.
  intros Hk. unfold dict_get. destruct (find _ l) as [[k' v']|] eqn:E; [|reflexivity].
  apply find_some in E as [Hin Heq]. cbn in Heq. apply String.eqb_eq in Heq. subst k'.
  exfalso. apply Hk. apply list_elem_of_In in Hin.
  apply (list_elem_of_fmap_2 fst l (k, v')). exact Hin.
Qed.

(** The entries copied from a list of sources with distinct keys. *)
Lemma copied_keys {V} (g : string -> option V) (sources : list (string * string)) :
  (fst <$> omap (fun source => match g (snd source) with
                               | Some amount => Some (fst source, amount)
                               | None => None
                               end) sources)
  `sublist_of` fst <$> sources.
Proof.
  induction sources as [|[k id] sources IH]; cbn; [constructor|].
  destruct (g id); cbn; now constructor.
Qed.

Lemma copied_get {V} (g : string -> option V) (sources : list (string * string))
    (k id : string) :
  NoDup (fst <$> sources) ->
  (k, id) ∈ sources ->
  dict_get k (omap (fun source => match g (snd source) with
                                  | Some amount => Some (fst source, amount)
                                  | None => None
                                  end) sources)
  = g id.
Proof.
  induction sources as [|[k' id'] sources IH]; intros Hnd Hin.
  - apply elem_of_nil in Hin. destruct Hin.
  - cbn [fmap list_fmap fst] in Hnd. apply NoDup_cons in Hnd as [Hfresh Hnd].
    cbn [omap list_omap fst snd].
    apply elem_of_cons in Hin as [Heq|Hin].
    + injection Heq as <- <-. destruct (g id) as [v|].
      * unfold dict_get. cbn. now rewrite String.eqb_refl.
      * apply dict_get_absent. intros Hk. apply Hfresh.
        eapply elem_of_sublist; [exact Hk | apply copied_keys].
    + assert (Hne : k' <> k).
      { intros ->. apply Hfresh. apply (list_elem_of_fmap_2 fst sources (k, id)). exact Hin. }
      destruct (g id') as [v|]; [|now apply IH].
      unfold dict_get. cbn [find fst]. apply String.eqb_neq in Hne. rewrite Hne.
      now apply IH.
Qed.

Lemma copied_values {V} (g : string -> option V) (sources : list (string * string))
    (k : string) (v : V) :
  (k, v) ∈ omap (fun source => match g (snd source) with
                               | Some amount => Some (fst source, amount)
                               | None => None
                               end) sources ->
  exists id, (k, id) ∈ sources /\ g id = Some v.
Proof.
  intros Hin. apply list_elem_of_omap in Hin as ([k' id] & Hsrc & Hg). cbn in Hg.
  destruct (g id) as [a|] eqn:E; [|discriminate Hg]. injection Hg as -> ->. eauto.
Qed.

Lemma assignable_keys_distinct : NoDup assignable_keys.
Proof. apply (bool_decide_unpack (NoDup assignable_keys)). vm_compute. exact I. Qed.

Lemma assignable_keys_weighted (k : string) : k ∈ assignable_keys -> k ∈ fst <$> NUTRIENT_WEIGHTS.
Proof.
  intros Hk. apply list_elem_of_In in Hk. apply list_elem_of_In.
  assert (Hall : forallb (fun y => existsb (String.eqb y) (fst <$> NUTRIENT_WEIGHTS))
                   assignable_keys = true) by (vm_compute; reflexivity).
  rewrite forallb_forall in Hall. specialize (Hall k Hk).
  apply existsb_exists in Hall as (y & Hy & Heq). apply String.eqb_eq in Heq. now subst y.
Qed.

Lemma truthy_amount_nonzero (standardized : gmap string (option NutrientData))
    (id : string) (v : Q) :
  truthy_amount standardized id = Some v -> ~ (v == 0)%Q.
Proof.
  unfold truthy_amount. destruct (std_get standardized id) as [data|]; [|discriminate].
  destruct (Qeq_bool (nd_amount data) 0) eqn:E; [discriminate|].
  intros H. injection H as <-. now apply Qeq_bool_neq.
Qed.

Lemma basic_calories_nonzero (nutrition_data : Nutrition) (v : Q) :
  basic_calories nutrition_data = Some v -> ~ (v == 0)%Q.
Proof.
  unfold basic_calories. destruct (std_get _ _) as [data|]; [|discriminate].
  destruct (Qeq_bool (nd_amount data) 0) eqn:E; [discriminate|].
  apply Qeq_bool_neq in E.
  destruct (contains _ _); intros H; injection H as <-; [|exact E].
  intros Hz. apply E. unfold Qdiv in Hz. apply Qmult_integral in Hz as [Hz|Hz]; [exact Hz|].
  discriminate Hz.
Qed.

(** X14: the basic nutrients are keyed by names of the weight table,
    each at most once; they hold the energy in kilocalories, the amount
    of every slot of the fixed list that is filled with an amount other
    than zero, and nine times the total fat as the calories from fat.  A
    nutrient reported as zero is left out, like one that is not
    reported. *)
Theorem basic_nutrients_leave_out_zero (nutrition_data : Nutrition) :
  let nutrients := _extract_basic_nutrients nutrition_data in
  NoDup (fst <$> nutrients)
  /\ (forall k v, (k, v) ∈ nutrients -> k ∈ fst <$> NUTRIENT_WEIGHTS /\ ~ (v == 0)%Q)
  /\ dict_get "calories" nutrients = basic_calories nutrition_data
  /\ (forall k id, (k, id) ∈ basic_sources ->
        dict_get k nutrients
        = truthy_amount (nu_standardized_nutrients nutrition_data) id)
  /\ dict_get "calories_from_fat" nutrients
     = (fun total_fat_g => (total_fat_g * 9)%Q) <$> dict_get "total_fat_g" nutrients.
Proof.
  cbv zeta. unfold _extract_basic_nutrients.
  set (std := nu_standardized_nutrients nutrition_data).
  set (calories := match basic_calories nutrition_data with
                   | Some amount => [("calories", amount)]
                   | None => []
                   end).
  set (copied := omap _ basic_sources).
  set (tail := match dict_get "total_fat_g" (calories ++ copied) with
               | Some total_fat_g =>
                   if Qeq_bool total_fat_g 0 then []
                   else [("calories_from_fat", (total_fat_g * 9)%Q)]
               | None => []
               end).
  assert (Hshape : match dict_get "total_fat_g" (calories ++ copied) with
                   | Some total_fat_g =>
                       if Qeq_bool total_fat_g 0 then calories ++ copied
                       else (calories ++ copied) ++ [("calories_from_fat", (total_fat_g * 9)%Q)]
                   | None => calories ++ copied
                   end = calories ++ copied ++ tail).
  { subst tail. destruct (dict_get "total_fat_g" (calories ++ copied)) as [f|];
      [destruct (Qeq_bool f 0)|]; now rewrite <- ?app_assoc, ?app_nil_r. }
  rewrite Hshape. clear Hshape.
  assert (Hsources : NoDup (fst <$> basic_sources)).
  { pose proof assignable_keys_distinct as Hnd. unfold assignable_keys in Hnd.
    apply NoDup_cons in Hnd as [_ Hnd]. now apply NoDup_app in Hnd as [Hnd _]. }
  assert (Hkeys : (fst <$> calories ++ copied ++ tail) `sublist_of` assignable_keys).
  { rewrite !fmap_app. unfold assignable_keys.
    change ("calories" :: (fst <$> basic_sources) ++ ["calories_from_fat"])
      with (["calories"] ++ (fst <$> basic_sources) ++ ["calories_from_fat"]).
    apply sublist_app; [|apply sublist_app].
    - subst calories. destruct (basic_calories nutrition_data); cbn;
        [reflexivity | apply sublist_nil_l].
    - apply copied_keys.
    - subst tail. destruct (dict_get _ _) as [f|]; [destruct (Qeq_bool f 0)|]; cbn;
        first [reflexivity | apply sublist_nil_l]. }
  assert (Hcal : forall k, k <> "calories" -> dict_get k calories = None).
  { intros k Hk. subst calories. destruct (basic_calories nutrition_data); [|reflexivity].
    unfold dict_get. cbn [find fst]. apply not_eq_sym, String.eqb_neq in Hk.
    now rewrite Hk. }
  assert (Hfat : dict_get "total_fat_g" (calories ++ copied)
                 = truthy_amount std "nutrient-total-fat").
  { rewrite dict_get_app, Hcal by discriminate. subst copied.
    apply (copied_get (truthy_amount std)); [exact Hsources|].
    apply list_elem_of_In. vm_compute. tauto. }
  split; [eapply sublist_NoDup; [apply assignable_keys_distinct | exact Hkeys]|].
  split; [|split; [|split]].
  - intros k v Hin. split.
    + apply assignable_keys_weighted. eapply elem_of_sublist; [|exact Hkeys].
      apply (list_elem_of_fmap_2 fst _ (k, v)). exact Hin.
    + apply elem_of_app in Hin as [Hin|Hin]; [|apply elem_of_app in Hin as [Hin|Hin]].
      * subst calories. destruct (basic_calories nutrition_data) as [a|] eqn:E.
        -- apply list_elem_of_singleton in Hin. injection Hin as -> ->.
           now apply (basic_calories_nonzero nutrition_data).
        -- apply elem_of_nil in Hin. destruct Hin.
      * subst copied. apply copied_values in Hin as (id & _ & Hg).
        now apply (truthy_amount_nonzero std id).
      * subst tail. rewrite Hfat in Hin.
        destruct (truthy_amount std "nutrient-total-fat") as [f|] eqn:E;
          [|apply elem_of_nil in Hin; destruct Hin].
        destruct (Qeq_bool f 0); [apply elem_of_nil in Hin; destruct Hin|].
        apply list_elem_of_singleton in Hin. injection Hin as -> ->.
        apply truthy_amount_nonzero in E. intros Hz.
        apply Qmult_integral in Hz as [Hz|Hz]; [contradiction | discriminate Hz].
  - rewrite dict_get_app. subst calories.
    destruct (basic_calories nutrition_data) as [a|].
    + unfold dict_get. cbn. reflexivity.
    + cbn [dict_get find]. apply dict_get_absent. rewrite fmap_app. intros Hk.
      apply elem_of_app in Hk as [Hk|Hk].
      * pose proof assignable_keys_distinct as Hnd. unfold assignable_keys in Hnd.
        apply NoDup_cons in Hnd as [Hfresh _]. apply Hfresh.
        apply elem_of_app. left. eapply elem_of_sublist; [exact Hk | apply copied_keys].
      * subst tail. destruct (dict_get _ _) as [f|]; [destruct (Qeq_bool f 0)|];
          cbn in Hk; try (apply elem_of_nil in Hk; destruct Hk).
        apply list_elem_of_singleton in Hk. discriminate Hk.
  - intros k id Hin.
    assert (Hk : k <> "calories" /\ k <> "calories_from_fat").
    { pose proof assignable_keys_distinct as Hnd. unfold assignable_keys in Hnd.
      apply NoDup_cons in Hnd as [Hfresh Hnd]. apply NoDup_app in Hnd as (_ & Hdisj & _).
      assert (Hkey : k ∈ fst <$> basic_sources)
        by (apply (list_elem_of_fmap_2 fst _ (k, id)); exact Hin).
      split; intros ->.
      - apply Hfresh. apply elem_of_app. auto.
      - apply (Hdisj _ Hkey). apply list_elem_of_singleton. reflexivity. }
    rewrite dict_get_app, Hcal by apply Hk. rewrite dict_get_app.
    subst copied. rewrite (copied_get (truthy_amount std) basic_sources k id Hsources Hin).
    destruct (truthy_amount std id); [reflexivity|].
    subst tail. destruct (dict_get _ _) as [f|]; [destruct (Qeq_bool f 0)|];
      try reflexivity.
    unfold dict_get. cbn [find fst]. destruct Hk as [_ Hk].
    apply not_eq_sym, String.eqb_neq in Hk. now rewrite Hk.
  - rewrite !dict_get_app, !Hcal by discriminate.
    assert (Hnone : dict_get "calories_from_fat" copied = None).
    { apply dict_get_absent. intros Hk.
      pose proof assignable_keys_distinct as Hnd. unfold assignable_keys in Hnd.
      apply NoDup_cons in Hnd as [_ Hnd]. apply NoDup_app in Hnd as (_ & Hdisj & _).
      apply (Hdisj "calories_from_fat").
      - eapply elem_of_sublist; [exact Hk | apply copied_keys].
      - apply list_elem_of_singleton. reflexivity. }
    rewrite Hnone. rewrite dict_get_app, Hcal in Hfat by discriminate.
    subst tail. rewrite dict_get_app, Hcal by discriminate. rewrite Hfat.
    destruct (truthy_amount std "nutrient-total-fat") as [f|] eqn:E; [|reflexivity].
    pose proof (truthy_amount_nonzero std _ _ E) as Hnz.
    destruct (Qeq_bool f 0) eqn:Ez; [apply Qeq_bool_iff in Ez; contradiction|]. reflexivity.
Qed.

End BasicNutrients.

(** ** The weighted similarity of two nutrient profiles *)

Section WeightedSimilarity.
Import Py PyStr Catalog NutrientMapper MappingTool UsdaApi Orchestrator TieredSearch
  SimilarityTool.
Local Open Scope list_scope.

Variables ingredient_nutrients usda_nutrients : gmap string (option Q).

Lemma weights_positive (item : string * Q) :
  item ∈ NUTRIENT_WEIGHTS -> (0 < snd item)%Q.
Proof.
  intros Hin. apply list_elem_of_In in Hin.
  assert (Hall : forallb (fun item => negb (Qle_bool (snd item) 0)) NUTRIENT_WEIGHTS = true)
    by (vm_compute; reflexivity).
  rewrite forallb_forall in Hall. specialize (Hall item Hin).
  apply negb_true_iff in Hall. now apply Qle_bool_false_iff in Hall.
Qed.

(** The weighted score stays between zero and the total weight. *)
Let bounded (state : LoopState) : Prop :=
  (0 <= weighted_score state)%Q /\ (weighted_score state <= total_weight state)%Q.

Lemma similarity_in_unit (ing_value usda_value : Q) :
  let diff := q_abs (ing_value - usda_value) in
  let avg := ((ing_value + usda_value) / 2)%Q in
  let relative_diff := if Qle_bool avg 0 then 1%Q else (diff / avg)%Q in
  let similarity := q_max 0 (1 - q_min relative_diff 2) in
  (0 <= similarity)%Q /\ (similarity <= 1)%Q.
Proof.
  cbv zeta.
  set (avg := ((ing_value + usda_value) / 2)%Q).
  set (diff := q_abs (ing_value - usda_value)).
  assert (Hdiff : (0 <= diff)%Q).
  { subst diff. unfold q_abs. destruct (Qle_bool 0 _) eqn:E.
    - now apply Qle_bool_iff.
    - apply Qle_bool_false_iff in E. Lqa.lra. }
  set (rd := if Qle_bool avg 0 then 1%Q else (diff / avg)%Q).
  assert (Hrd : (0 <= rd)%Q).
  { subst rd. destruct (Qle_bool avg 0) eqn:E; [Lqa.lra|].
    apply Qle_bool_false_iff in E. apply Qle_shift_div_l; [exact E | Lqa.lra]. }
  unfold q_max, q_min.
  destruct (Qle_bool rd 2) eqn:E2.
  - destruct (Qle_bool (1 - rd) 0) eqn:E1.
    + split; Lqa.lra.
    + apply Qle_bool_false_iff in E1. split; Lqa.lra.
  - destruct (Qle_bool (1 - 2) 0) eqn:E1.
    + split; Lqa.lra.
    + apply Qle_bool_false_iff in E1. split; Lqa.lra.
Qed.

Lemma compare_nutrient_bounded (state : LoopState) (item : string * Q) (state' : LoopState) :
  (0 < snd item)%Q ->
  bounded state ->
  compare_nutrient ingredient_nutrients usda_nutrients state item = Returned state' ->
  bounded state'.
Proof.
  intros Hw [H0 H1]. unfold compare_nutrient. destruct item as [nutrient weight].
  cbn [snd] in Hw.
  destruct (get_value ingredient_nutrients nutrient) as [x|],
           (get_value usda_nutrients nutrient) as [y|].
  - destruct (Qeq_bool x 0 && Qeq_bool y 0).
    + destruct (relative_diff state) as [rd|]; [|discriminate].
      intros H. injection H as <-. split; cbn; Lqa.lra.
    + destruct (Qeq_bool x 0 || Qeq_bool y 0).
      * destruct (relative_diff state) as [rd|]; [|discriminate].
        intros H. injection H as <-. split; cbn; Lqa.lra.
      * pose proof (similarity_in_unit x y) as Hs. cbv zeta in Hs.
        match type of Hs with (0 <= ?t)%Q /\ _ => set (s := t) in * end.
        intros H. injection H as <-. destruct Hs as [Hs0 Hs1].
        split; cbn [weighted_score total_weight]; Lqa.nra.
  - intros H. injection H as <-. split; cbn; Lqa.lra.
  - intros H. injection H as <-. split; cbn; Lqa.lra.
  - intros H. injection H as <-. split; assumption.
Qed.

Lemma compare_nutrients_bounded (items : list (string * Q)) :
  forall state state',
    (forall item, item ∈ items -> (0 < snd item)%Q) ->
    bounded state ->
    compare_nutrients ingredient_nutrients usda_nutrients items state = Returned state' ->
    bounded state'.
Proof.
  induction items as [|item items IH]; intros state state' Hw Hb; cbn [compare_nutrients].
  - intros H. injection H as <-. exact Hb.
  - destruct (compare_nutrient _ _ state item) as [state1|e] eqn:E; [|discriminate].
    apply IH.
    + intros it Hit. apply Hw. apply elem_of_cons. auto.
    + eapply compare_nutrient_bounded; [|exact Hb | exact E].
      apply Hw. apply elem_of_cons. auto.
Qed.

(** X15: a similarity score that is returned lies between 0 and 100. *)
Theorem similarity_score_in_range (final_score : Q) (reasoning : Reasoning) :
  _calculate_nutritional_similarity ingredient_nutrients usda_nutrients
  = Returned (final_score, reasoning) ->
  (0 <= final_score)%Q /\ (final_score <= 100)%Q.
Proof.
  unfold _calculate_nutritional_similarity.
  destruct (_ || _).
  { intros H. injection H as <- _. split; Lqa.lra. }
  destruct (compare_nutrients _ _ _ _) as [state|e] eqn:E; [|discriminate].
  apply compare_nutrients_bounded in E as [H0 H1].
  - destruct (Qeq_bool (total_weight state) 0) eqn:Ez.
    + intros H. injection H as <- _. split; Lqa.lra.
    + apply Qeq_bool_neq in Ez. intros H. injection H as <- _.
      assert (Hpos : (0 < total_weight state)%Q) by Lqa.lra.
      assert (Hlo : (0 <= weighted_score state / total_weight state)%Q)
        by (apply Qle_shift_div_l; [exact Hpos | Lqa.lra]).
      assert (Hhi : (weighted_score state / total_weight state <= 1)%Q)
        by (apply Qle_shift_div_r; [exact Hpos | Lqa.lra]).
      split; Lqa.lra.
  - intros item Hitem. now apply weights_positive.
  - split; cbn; Lqa.lra.
Qed.

(** Once [relative_diff] is bound, the loop returns. *)
Lemma compare_nutrients_bound (items : list (string * Q)) :
  forall state, is_Some (relative_diff state) ->
    exists state', compare_nutrients ingredient_nutrients usda_nutrients items state
                   = Returned state'.
Proof.
  induction items as [|[nutrient weight] items IH]; intros state [rd Hrd];
    cbn [compare_nutrients]; [eauto|].
  unfold compare_nutrient.
  destruct (get_value ingredient_nutrients nutrient) as [x|],
           (get_value usda_nutrients nutrient) as [y|];
    try (apply IH; cbn; rewrite Hrd; eauto; fail).
  - destruct (Qeq_bool x 0 && Qeq_bool y 0); [rewrite Hrd; apply IH; cbn; eauto|].
    destruct (Qeq_bool x 0 || Qeq_bool y 0); [rewrite Hrd; apply IH; cbn; eauto|].
    apply IH. cbn. eauto.
Qed.

Lemma compare_nutrients_unbound (items : list (string * Q)) :
  forall state, relative_diff state = None ->
    compare_nutrients ingredient_nutrients usda_nutrients items state
    = Raised (UnboundLocalError "relative_diff")
    <-> match find (fun item => comparable ingredient_nutrients usda_nutrients (fst item))
                   items with
        | Some (nutrient, _) =>
            is_zero (get_value ingredient_nutrients nutrient)
            || is_zero (get_value usda_nutrients nutrient) = true
        | None => False
        end.
Proof.
  induction items as [|[nutrient weight] items IH]; intros state Hnone;
    cbn [compare_nutrients find fst].
  - split; [discriminate | tauto].
  - unfold compare_nutrient, comparable.
    destruct (get_value ingredient_nutrients nutrient) as [x|] eqn:Ex,
             (get_value usda_nutrients nutrient) as [y|] eqn:Ey;
      try (apply IH; exact Hnone).
    rewrite Ex, Ey. cbn [is_zero].
    destruct (Qeq_bool x 0), (Qeq_bool y 0); cbn [andb orb]; cbv beta iota zeta;
      rewrite ?Hnone; try (split; intros _; reflexivity).
    match goal with |- context [compare_nutrients _ _ items ?s] =>
      destruct (compare_nutrients_bound items s) as [state' ->]; [cbn; eauto|] end.
    split; discriminate.
Qed.

(** X16: the similarity raises exactly when both profiles are non-empty
    and the first nutrient of the weight table that both give a value for
    has a zero on either side: the comparison of [relative_diff] then
    reads a local that no assignment has bound.  It raises nothing
    else. *)
Theorem similarity_raises_at_first_zero :
  (_calculate_nutritional_similarity ingredient_nutrients usda_nutrients
   = Raised (UnboundLocalError "relative_diff")
   <-> ingredient_nutrients <> ∅ /\ usda_nutrients <> ∅
       /\ zero_at_first_comparison ingredient_nutrients usda_nutrients = true)
  /\ (forall e,
        _calculate_nutritional_similarity ingredient_nutrients usda_nutrients = Raised e ->
        e = UnboundLocalError "relative_diff").
Proof.
  unfold _calculate_nutritional_similarity, zero_at_first_comparison.
  destruct (bool_decide (ingredient_nutrients = ∅)) eqn:Ea.
  { apply bool_decide_eq_true in Ea. cbn [orb]. split; [|discriminate].
    split; [discriminate | tauto]. }
  destruct (bool_decide (usda_nutrients = ∅)) eqn:Eb.
  { apply bool_decide_eq_true in Eb. cbn [orb]. split; [|discriminate].
    split; [discriminate | tauto]. }
  apply bool_decide_eq_false in Ea, Eb. cbn [orb].
  set (state0 := {| total_weight := 0; weighted_score := 0; differences := [];
                    relative_diff := None |}).
  pose proof (compare_nutrients_unbound NUTRIENT_WEIGHTS state0 eq_refl) as Hraise.
  destruct (compare_nutrients _ _ NUTRIENT_WEIGHTS state0) as [state|e] eqn:E.
  - split; [|destruct (Qeq_bool _ _); discriminate].
    split.
    + destruct (Qeq_bool _ _); discriminate.
    + intros (_ & _ & Hz). exfalso.
      destruct (find _ NUTRIENT_WEIGHTS) as [[nutrient weight]|]; [|discriminate Hz].
      apply Hraise in Hz. discriminate Hz.
  - assert (He : e = UnboundLocalError "relative_diff").
    { clear Hraise. revert E. generalize state0. generalize NUTRIENT_WEIGHTS.
      induction l as [|[nutrient weight] items IH]; intros state; cbn [compare_nutrients];
        [discriminate|].
      destruct (compare_nutrient _ _ state (nutrient, weight)) as [state1|e1] eqn:E1;
        [apply IH|].
      intros H. injection H as <-. unfold compare_nutrient in E1.
      destruct (get_value ingredient_nutrients nutrient) as [x|],
               (get_value usda_nutrients nutrient) as [y|]; try discriminate E1.
      destruct (Qeq_bool x 0 && Qeq_bool y 0);
        [destruct (relative_diff state); [discriminate E1 | now injection E1]|].
      destruct (Qeq_bool x 0 || Qeq_bool y 0);
        [destruct (relative_diff state); [discriminate E1 | now injection E1]|].
      discriminate E1. }
    subst e. split; [|intros e H; now injection H].
    split.
    + intros _. split; [exact Ea|]. split; [exact Eb|].
      pose proof (proj1 Hraise eq_refl) as Hz.
      destruct (find _ NUTRIENT_WEIGHTS) as [[nutrient weight]|]; [exact Hz | destruct Hz].
    + reflexivity.
Qed.

End WeightedSimilarity.

Section WeightedSimilarityWitness.
Import Py PyStr Catalog NutrientMapper SimilarityTool.

Lemma similarity_score_in_range_witness :
  let expected : gmap string (option Q) :=
    {[ "calories" := Some (52 # 1)%Q; "protein_g" := Some (3 # 10)%Q;
       "sodium_mg" := None ]} in
  let found : gmap string (option Q) :=
    {[ "calories" := Some (48 # 1)%Q; "protein_g" := Some (3 # 10)%Q;
       "total_fat_g" := Some (2 # 10)%Q ]} in
  exists final_score reasoning,
    _calculate_nutritional_similarity expected found = Returned (final_score, reasoning)
    /\ (0 <= final_score)%Q /\ (final_score <= 100)%Q.
Proof.
  intros expected found.
  set (out := _calculate_nutritional_similarity expected found).
  set (final_score := match out with Returned (s, _) => s | Raised _ => 0%Q end).
  set (reasoning := match out with Returned (_, r) => r | Raised _ => MissingData end).
  assert (Hout : out = Returned (final_score, reasoning)) by (vm_compute; reflexivity).
  exists final_score, reasoning. split; [exact Hout|].
  exact (similarity_score_in_range expected found final_score reasoning Hout).
Defined.

Lemma similarity_raises_at_first_zero_witness :
  _calculate_nutritional_similarity
    {[ "calories" := Some (52 # 1)%Q; "total_fat_g" := Some 0%Q ]}
    {[ "total_fat_g" := Some (2 # 10)%Q ]}
  = Raised (Py.UnboundLocalError "relative_diff").
Proof.
  apply (proj1 (similarity_raises_at_first_zero _ _)).
  split; [|split]; [| |vm_compute; reflexivity].
  - intros H. apply (f_equal (fun m => m !! "calories")) in H. vm_compute in H. discriminate H.
  - intros H. apply (f_equal (fun m => m !! "total_fat_g")) in H. vm_compute in H.
    discriminate H.
Defined.

End WeightedSimilarityWitness.

(** ** The pipeline without a language model *)

Section WithoutLanguageModel.
Import Py PyStr Catalog NutrientMapper MappingTool UsdaApi Orchestrator Accounting
  SemanticTool.
Local Open Scope list_scope.

Variable w : World.
Hypothesis Hworld : without_language_model w.

Ltac unfold_monad :=
  cbv [bind ret raise lift call log modify_stats try_except
       get_usda_food_details search_comprehensive verify_semantic_match
       calculate_nutritional_similarity_score plan_query].

(** Every row of the comprehensive search is a row of the client with a
    tier written on it. *)
Lemma comprehensive_rows_tagged
    (client_search : string -> Z -> option string -> result (list Food))
    (query : string) (ingredient : option string) (out : list Food) :
  search_usda_food_multi_tier_comprehensive client_search query ingredient = Returned out ->
  forall c, c ∈ out ->
    exists tier raw page_size data_type_filter rows,
      client_search query page_size data_type_filter = Returned rows
      /\ raw ∈ rows /\ c = set_search_tier tier raw.
Proof.
  unfold search_usda_food_multi_tier_comprehensive.
  destruct (client_search query 30%Z (Some "Foundation,SR Legacy")) as [t1|e] eqn:H1;
    cbn [bind_result]; [|discriminate].
  destruct (client_search query 20%Z (Some "Survey (FNDDS)")) as [t2|e] eqn:H2;
    cbn [bind_result]; [|discriminate].
  destruct (client_search query 20%Z (Some "Branded")) as [t3|e] eqn:H3;
    cbn [bind_result]; [|discriminate].
  destruct (client_search query 10%Z None) as [t4|e] eqn:H4;
    cbn [bind_result]; [|discriminate].
  set (tag := fun (t : Z) (rs : list Food) => (fun r => (t, r)) <$> rs).
  set (E := (((([] ++ tag 1%Z t1) ++ tag 2%Z t2) ++ tag 3%Z t3) ++ tag 4%Z t4)).
  set (acc := merge_tier 4 (merge_tier 3 (merge_tier 2 (merge_tier 1 ([], ∅) t1) t2) t3) t4).
  assert (Htag : forall t rs x raw, (x, raw) ∈ tag t rs -> x = t /\ raw ∈ rs).
  { intros t rs x raw Hin. apply list_elem_of_fmap in Hin as (r & Heq & Hr).
    injection Heq as -> ->. auto. }
  assert (Hm : merged E acc).
  { subst E acc. apply merged_tier; [apply merged_tier; [apply merged_tier;
      [apply merged_tier; [apply merged_empty|]|]|]|].
    - intros t raw Hin. apply elem_of_nil in Hin. destruct Hin.
    - intros t raw Hin. rewrite app_nil_l in Hin. apply Htag in Hin. lia.
    - intros t raw Hin. rewrite app_nil_l in Hin.
      apply elem_of_app in Hin as [Hin|Hin]; apply Htag in Hin; lia.
    - intros t raw Hin. rewrite app_nil_l in Hin.
      apply elem_of_app in Hin as [Hin|Hin];
        [apply elem_of_app in Hin as [Hin|Hin]|]; apply Htag in Hin; lia. }
  destruct Hm as (_ & _ & Hrows & _).
  assert (Hacc : forall c, c ∈ acc.1 ->
            exists tier raw page_size data_type_filter rows,
              client_search query page_size data_type_filter = Returned rows
              /\ raw ∈ rows /\ c = set_search_tier tier raw).
  { intros c Hc. destruct (Hrows c Hc) as (tier & raw & Hin & _ & -> & _).
    subst E. rewrite app_nil_l in Hin.
    apply elem_of_app in Hin as [Hin|Hin];
      [apply elem_of_app in Hin as [Hin|Hin];
         [apply elem_of_app in Hin as [Hin|Hin]|]|];
      apply Htag in Hin as [-> Hraw]; eauto 10. }
  destruct (truthy (default "" ingredient)); intros Heq c Hc; injection Heq as <-;
    apply elem_of_take in Hc as (i & Hi & _); apply list_elem_of_lookup_2 in Hi;
    apply Hacc.
  - rewrite stable_sort_perm, fst_imap_pair in Hi. exact Hi.
  - rewrite stable_sort_perm in Hi. exact Hi.
Qed.

(** What an iteration does without a language model: it retries, or it
    fails for want of search results or of a semantic score; it calls
    neither the nutritional gate nor the detail endpoint. *)
Let stranded (attempt : Z) (st : State) (out : result Step * State) : Prop :=
  count_events is_gate_call (snd out) = count_events is_gate_call st
  /\ count_events is_details_call (snd out) = count_events is_details_call st
  /\ match fst out with
     | Returned (Next _) => (attempt < max_retries)%Z
     | Returned (Return r) =>
         r_source r = None /\ r_flag r = "NO_MAPPING_FOUND"
         /\ (r_mapping_status r = "no_search_results"
             \/ r_mapping_status r = "semantic_score_too_low")
     | Raised _ => True
     end.

Lemma attempt_body_stranded (ingredient : string) (attempt : Z) (locals : Locals)
    (st : State) :
  stranded attempt st (attempt_body w ingredient attempt locals st).
Proof.
  destruct Hworld as [Hverify Hrows].
  unfold stranded, attempt_body. unfold_monad. cbn [fst snd tick events stats].
  match goal with |- context [search_usda_food_multi_tier_comprehensive ?a ?b ?c] =>
    pose proof (comprehensive_rows_tagged a b c) as Htagged;
    destruct (search_usda_food_multi_tier_comprehensive a b c) as [[|c0 cs]|e] end;
    cbn [fst snd].
  - unfold retry_or_fail. destruct (Z.ltb_spec attempt max_retries);
      unfold_monad; cbn [fst snd];
      (split; [unfold count_events; cbn [events];
               rewrite ?List.filter_app, ?length_app; cbn; lia|]);
      (split; [unfold count_events; cbn [events];
               rewrite ?List.filter_app, ?length_app; cbn; lia|]); cbn; auto.
  - rewrite Hverify. unfold verify_semantic_match_without_client.
    change (TieredSearch.py_take 3 (c0 :: cs)) with (c0 :: take 2 cs). cbv beta iota.
    assert (Hscore : f_semantic_match_score c0 = None).
    { destruct (Htagged (c0 :: cs) eq_refl c0) as (tier & raw & ps & f & rows & Hcall & Hraw & ->).
      - apply elem_of_cons. auto.
      - cbn. eapply Hrows; eassumption. }
    rewrite Hscore. cbn [default].
    change (Qle_bool 65 0) with false. cbv beta iota.
    unfold retry_or_fail. destruct (Z.ltb_spec attempt max_retries);
      unfold_monad; cbn [fst snd];
      (split; [unfold count_events; cbn [events];
               rewrite ?List.filter_app, ?length_app; cbn; lia|]);
      (split; [unfold count_events; cbn [events];
               rewrite ?List.filter_app, ?length_app; cbn; lia|]); cbn; auto.
  - split; [|split; [|exact I]]; unfold count_events; cbn [events];
      rewrite ?List.filter_app, ?length_app; cbn; lia.
Qed.

Lemma attempts_stranded (ingredient : string) (remaining : nat) :
  forall (attempt : Z) (locals : Locals) (st : State),
    (1 <= remaining)%nat ->
    (attempt + Z.of_nat remaining = max_retries + 1)%Z ->
    let out := attempts w ingredient remaining attempt locals st in
    count_events is_gate_call (snd out) = count_events is_gate_call st
    /\ count_events is_details_call (snd out) = count_events is_details_call st
    /\ forall r, fst out = Returned r ->
         r_source r = None /\ r_flag r = "NO_MAPPING_FOUND"
         /\ (r_mapping_status r = "no_search_results"
             \/ r_mapping_status r = "semantic_score_too_low").
Proof.
  induction remaining as [|remaining IH]; intros attempt locals st Hpos Hlast; cbv zeta;
    [lia|].
  cbn [attempts]. unfold bind.
  pose proof (attempt_body_stranded ingredient attempt locals st) as (Hgate & Hdet & Hout).
  destruct (attempt_body w ingredient attempt locals st) as [[[r|locals1]|e] st1];
    cbn [fst snd] in *.
  - split; [exact Hgate|]. split; [exact Hdet|].
    intros r' Hr'. injection Hr' as <-. exact Hout.
  - destruct (IH (attempt + 1)%Z locals1 st1) as (Hgate' & Hdet' & Hout'); [lia | lia|].
    split; [congruence|]. split; [congruence | exact Hout'].
  - split; [exact Hgate|]. split; [exact Hdet|]. discriminate.
Qed.

(** X17: without a language model the search path maps nothing.  The
    semantic verification then returns the first three search results
    without a score, the orchestrator reads the missing score as 0, and
    every attempt ends below the floor of 65: an ingredient that has no
    curated entry gets the flag NO_MAPPING_FOUND, with the status
    [no_search_results] or [semantic_score_too_low], and neither the
    nutritional gate nor the detail endpoint is called for it. *)
Theorem no_language_model_no_search_mapping (ingredient : string) (st : State) :
  search_mappings ingredient (w_mappings w) = None ->
  let out := fetch_nutrition_for_ingredient w ingredient st in
  count_events is_gate_call (snd out) = count_events is_gate_call st
  /\ count_events is_details_call (snd out) = count_events is_details_call st
  /\ forall r, fst out = Returned r ->
       r_source r = None /\ r_flag r = "NO_MAPPING_FOUND"
       /\ (r_mapping_status r = "no_search_results"
           \/ r_mapping_status r = "semantic_score_too_low").
Proof.
  intros Hmap. cbv zeta. unfold fetch_nutrition_for_ingredient. rewrite Hmap.
  apply attempts_stranded; unfold max_retries; simpl; lia.
Qed.

End WithoutLanguageModel.

Section WithoutLanguageModelWitness.
Import Py PyStr Catalog NutrientMapper MappingTool UsdaApi Orchestrator Accounting
  SemanticTool Samples.

(** The sample world with the semantic verification replaced by the one
    without a client. *)
Let offline : World :=
  let w := world_of ∅ 0 0 (Returned None) in
  {| w_mappings := w_mappings w;
     w_nutrient_ids := w_nutrient_ids w;
     w_first_intent := w_first_intent w;
     w_retry_intent := w_retry_intent w;
     w_search_food := w_search_food w;
     w_verify_semantic := fun _ ingredient usda_results =>
       verify_semantic_match_without_client ingredient usda_results 3;
     w_nutritional := w_nutritional w;
     w_food_details := w_food_details w |}.

Lemma no_language_model_no_search_mapping_witness :
  exists r,
    fst (fetch_nutrition_for_ingredient offline "cinnamon sticks" initial_state)
    = Returned r
    /\ r_flag r = "NO_MAPPING_FOUND"
    /\ r_mapping_status r = "semantic_score_too_low".
Proof.
  set (out := fetch_nutrition_for_ingredient offline "cinnamon sticks" initial_state).
  set (r := match fst out with
            | Returned r => r
            | Raised _ => _create_failed_result (initial_metadata "")
            end).
  assert (Hout : fst out = Returned r) by (vm_compute; reflexivity).
  assert (Hoffline : without_language_model offline).
  { split; [reflexivity|].
    intros t query page_size data_type_filter rows row Hrows Hrow. cbn in Hrows.
    destruct data_type_filter as [f|]; injection Hrows as <-.
    - destruct (String.eqb_spec f "Foundation,SR Legacy") as [->|Hne].
      + apply list_elem_of_singleton in Hrow. now subst row.
      + exfalso. revert Hrow.
        repeat match goal with
               | |- context [match ?s with EmptyString => _ | String _ _ => _ end] =>
                   destruct s; try (intros H; apply elem_of_nil in H; destruct H; fail)
               | |- context [match ?a with Ascii _ _ _ _ _ _ _ _ => _ end] =>
                   destruct a
               | |- context [if ?b then _ else _] =>
                   destruct b; try (intros H; apply elem_of_nil in H; destruct H; fail)
               end.
        intros _. apply Hne. reflexivity.
    - apply elem_of_nil in Hrow. destruct Hrow. }
  destruct (no_language_model_no_search_mapping offline Hoffline "cinnamon sticks"
              initial_state eq_refl) as (_ & _ & Hr).
  exists r. split; [exact Hout|].
  destruct (Hr r Hout) as (_ & Hflag & _). split; [exact Hflag | vm_compute; reflexivity].
Defined.

End WithoutLanguageModelWitness.

(** ** The names read from a text file *)

Section TextFormat.
Import PyStr DataLoader.
Local Open Scope list_scope.

Lemma prefix_nil_r (p : string) : String.prefix p "" = true -> p = "".
Proof. destruct p; [reflexivity | discriminate]. Qed.

Lemma prefix_append (p a b : string) :
  String.prefix p a = true -> String.prefix p (a +:+ b) = true.
Proof.
  revert p. induction a as [|c a IH]; intros p Hp.
  - apply prefix_nil_r in Hp. subst p. now destruct b.
  - destruct p as [|d p]; [reflexivity|]. rewrite append_cons. cbn in *.
    destruct (ascii_dec d c); [apply IH; exact Hp | discriminate].
Qed.

Lemma prefix_of_append (a b : string) : String.prefix a (a +:+ b) = true.
Proof. apply prefix_append, prefix_refl. Qed.

Lemma contains_append_l (needle a b : string) :
  contains needle a = true -> contains needle (a +:+ b) = true.
Proof.
  induction a as [|c a IH]; intros H.
  - cbn in H. rewrite orb_false_r in H. apply prefix_nil_r in H. subst needle.
    now destruct b.
  - cbn [contains] in H. apply orb_true_iff in H as [H|H].
    + apply (prefix_append _ _ b) in H. rewrite append_cons in *. cbn [contains].
      now rewrite H.
    + rewrite append_cons. cbn [contains]. rewrite (IH H). apply orb_true_r.
Qed.

Lemma contains_append_r (needle a b : string) :
  contains needle b = true -> contains needle (a +:+ b) = true.
Proof.
  intros H. induction a as [|c a IH]; [exact H|].
  rewrite append_cons. cbn [contains]. rewrite IH. apply orb_true_r.
Qed.

Lemma lstrip_suffix (s : string) : exists t, s = t +:+ lstrip s.
Proof.
  induction s as [|c s [t Ht]]; [now exists ""|]. cbn [lstrip].
  destruct (is_space c).
  - exists (String c t). rewrite append_cons. now f_equal.
  - now exists "".
Qed.

Lemma lstrip_idem (s : string) : lstrip (lstrip s) = lstrip s.
Proof.
  induction s as [|c s IH]; [reflexivity|]. cbn [lstrip].
  destruct (is_space c) eqn:Hc; [exact IH|]. cbn [lstrip]. now rewrite Hc.
Qed.

Lemma lstrip_append (u v : string) :
  lstrip (u +:+ v) = if truthy (lstrip u) then lstrip u +:+ v else lstrip v.
Proof.
  induction u as [|c u IH]; [reflexivity|]. rewrite append_cons. cbn [lstrip].
  destruct (is_space c); [exact IH|]. cbn [truthy]. now rewrite append_cons.
Qed.

Lemma list_ascii_of_append (s t : string) :
  list_ascii_of_string (s +:+ t) = list_ascii_of_string s ++ list_ascii_of_string t.
Proof. induction s as [|c s IH]; [reflexivity|]. rewrite append_cons. cbn. now rewrite IH. Qed.

Lemma string_of_list_app (l l' : list ascii) :
  string_of_list_ascii (l ++ l') = string_of_list_ascii l +:+ string_of_list_ascii l'.
Proof. induction l as [|c l IH]; [reflexivity|]. cbn. now rewrite IH. Qed.

Lemma rev_string_append (s t : string) :
  rev_string (s +:+ t) = rev_string t +:+ rev_string s.
Proof.
  unfold rev_string. now rewrite list_ascii_of_append, rev_app_distr, string_of_list_app.
Qed.

Lemma rev_string_cons (c : ascii) (s : string) :
  rev_string (String c s) = rev_string s +:+ String c "".
Proof. exact (rev_string_append (String c "") s). Qed.

Lemma rev_string_involutive (s : string) : rev_string (rev_string s) = s.
Proof.
  unfold rev_string.
  now rewrite list_ascii_of_string_of_list_ascii, rev_involutive,
    string_of_list_ascii_of_string.
Qed.

Lemma truthy_rev_string (s : string) : truthy (rev_string s) = truthy s.
Proof.
  destruct s as [|c s]; [reflexivity|]. rewrite rev_string_cons.
  now destruct (rev_string s).
Qed.

Lemma not_truthy (s : string) : truthy s = false -> s = "".
Proof. now destruct s. Qed.

(** [rstrip] by recursion on the string. *)
Lemma rstrip_cons (c : ascii) (s : string) :
  rstrip (String c s)
  = if truthy (rstrip s) then String c (rstrip s)
    else if is_space c then "" else String c "".
Proof.
  unfold rstrip. rewrite rev_string_cons, lstrip_append, truthy_rev_string.
  destruct (truthy (lstrip (rev_string s))) eqn:Ht.
  - now rewrite rev_string_append.
  - cbn [lstrip]. now destruct (is_space c).
Qed.

Lemma rstrip_prefix (s : string) : exists t, s = rstrip s +:+ t.
Proof.
  induction s as [|c s [t Ht]]; [now exists ""|]. rewrite rstrip_cons.
  destruct (truthy (rstrip s)) eqn:Hr.
  - exists t. rewrite append_cons. now f_equal.
  - apply not_truthy in Hr. rewrite Hr in Ht. change (s = t) in Ht. subst t.
    destruct (is_space c); [now exists (String c s) | now exists s].
Qed.

Lemma rstrip_idem (s : string) : rstrip (rstrip s) = rstrip s.
Proof. unfold rstrip. now rewrite rev_string_involutive, lstrip_idem. Qed.

Lemma lstrip_bare_head (s : string) : truthy (lstrip s) = true -> bare_head (lstrip s).
Proof.
  induction s as [|c s IH]; [discriminate|]. cbn [lstrip].
  destruct (is_space c) eqn:Hc; [exact IH|]. intros _. exact Hc.
Qed.

Lemma lstrip_of_bare_head (s : string) : bare_head s -> lstrip s = s.
Proof. destruct s as [|c s]; [intros []|]. cbn. now intros ->. Qed.

Lemma rstrip_bare_head (s : string) : bare_head s -> bare_head (rstrip s).
Proof.
  destruct s as [|c s]; [intros []|]. cbn [bare_head]. intros Hc. rewrite rstrip_cons.
  destruct (truthy (rstrip s)); [exact Hc|]. rewrite Hc. exact Hc.
Qed.

Lemma strip_of_bare_head (s : string) : bare_head s -> strip s = rstrip s.
Proof. intros H. unfold strip. now rewrite lstrip_of_bare_head. Qed.

Lemma strip_bare_head (s : string) : truthy (strip s) = true -> bare_head (strip s).
Proof.
  unfold strip. intros H. apply rstrip_bare_head, lstrip_bare_head.
  destruct (lstrip s); [discriminate H | reflexivity].
Qed.

Lemma strip_idem (s : string) : strip (strip s) = strip s.
Proof.
  destruct (truthy (strip s)) eqn:Ht.
  - rewrite (strip_of_bare_head (strip s)) by now apply strip_bare_head.
    unfold strip. apply rstrip_idem.
  - apply not_truthy in Ht. now rewrite Ht.
Qed.

Lemma bare_head_truthy (s : string) : bare_head s -> truthy s = true.
Proof. now destruct s. Qed.

Lemma contains_strip (needle s : string) :
  contains needle s = false -> contains needle (strip s) = false.
Proof.
  intros H. destruct (contains needle (strip s)) eqn:Hc; [|reflexivity].
  destruct (lstrip_suffix s) as [t Ht]. destruct (rstrip_prefix (lstrip s)) as [u Hu].
  rewrite <- H, Ht. symmetry. apply contains_append_r. rewrite Hu.
  now apply contains_append_l.
Qed.

Lemma before_first_prefix (sep s : string) : exists t, s = before_first sep s +:+ t.
Proof.
  induction s as [|c s [t Ht]]; cbn [before_first].
  - destruct (String.prefix sep ""); now exists "".
  - destruct (String.prefix sep (String c s)); [now exists (String c s)|].
    exists t. rewrite append_cons. now f_equal.
Qed.

Lemma before_first_free (sep s : string) :
  sep <> "" -> contains sep (before_first sep s) = false.
Proof.
  intros Hsep. induction s as [|c s IH]; cbn [before_first].
  - destruct (String.prefix sep "") eqn:Hp; cbn; rewrite orb_false_r.
    + destruct sep; [contradiction | reflexivity].
    + exact Hp.
  - destruct (String.prefix sep (String c s)) eqn:Hp.
    + cbn. rewrite orb_false_r. destruct sep; [contradiction | reflexivity].
    + cbn [contains]. rewrite IH, orb_false_r.
      destruct (String.prefix sep (String c (before_first sep s))) eqn:Hq; [|reflexivity].
      destruct (before_first_prefix sep s) as [t Ht].
      rewrite <- Hp. rewrite Ht. rewrite <- append_cons. symmetry.
      now apply prefix_append.
Qed.

Lemma before_first_bare_head (sep s : string) :
  bare_head s -> String.prefix sep s = false -> bare_head (before_first sep s).
Proof. destruct s as [|c s]; [intros []|]. cbn [before_first]. now intros Hc ->. Qed.

(** Cutting a line at a comment mark and stripping the result keeps the
    first character of the line when the line does not start with the
    mark. *)
Lemma cut_bare_head (sep line : string) :
  bare_head line -> String.prefix sep line = false ->
  bare_head (strip (before_first sep line))
  /\ exists t, line = strip (before_first sep line) +:+ t.
Proof.
  intros Hhead Hp. pose proof (before_first_bare_head sep line Hhead Hp) as Hb.
  rewrite (strip_of_bare_head _ Hb). split; [now apply rstrip_bare_head|].
  destruct (before_first_prefix sep line) as [t Ht].
  destruct (rstrip_prefix (before_first sep line)) as [u Hu].
  exists (u +:+ t). rewrite <- append_assoc, <- Hu. exact Ht.
Qed.

(** What the loop body appends for a line. *)
Lemma parse_line_spec (line : string) :
  match parse_line line with
  | Some name =>
      content_line line = true
      /\ name <> "" /\ strip name = name
      /\ contains "#" name = false /\ contains "//" name = false
      /\ String.prefix name (strip line) = true
  | None => content_line line = false
  end.
Proof.
  unfold parse_line, content_line.
  destruct (truthy (strip line)) eqn:Ht; cbn [negb andb]; [|reflexivity].
  destruct (startswith (strip line) "#" || startswith (strip line) "//") eqn:Hc;
    cbn [negb]; [reflexivity|].
  apply orb_false_iff in Hc as [Hhash Hslash]. unfold startswith in *.
  pose proof (strip_bare_head line Ht) as Hhead.
  set (line1 := strip line) in *.
  set (line2 := if contains "#" line1 then strip (before_first "#" line1) else line1).
  assert (H2 : bare_head line2 /\ strip line2 = line2 /\ contains "#" line2 = false
                /\ exists t, line1 = line2 +:+ t).
  { subst line2. destruct (contains "#" line1) eqn:Hin.
    - destruct (cut_bare_head "#" line1 Hhead Hhash) as [Hb Hpre].
      split; [exact Hb|]. split; [apply strip_idem|]. split; [|exact Hpre].
      apply contains_strip, before_first_free. discriminate.
    - split; [exact Hhead|]. split; [apply strip_idem|]. split; [exact Hin|].
      exists "". clear. induction line1 as [|c s IH]; [reflexivity|].
      rewrite append_cons. now f_equal. }
  destruct H2 as (Hhead2 & Hstrip2 & Hfree2 & t2 & Ht2).
  assert (Hslash2 : String.prefix "//" line2 = false).
  { destruct (String.prefix "//" line2) eqn:Hp; [|reflexivity].
    rewrite <- Hslash, Ht2. symmetry. now apply prefix_append. }
  set (line3 := if contains "//" line2 then strip (before_first "//" line2) else line2).
  assert (H3 : bare_head line3 /\ strip line3 = line3 /\ contains "//" line3 = false
                /\ exists t, line2 = line3 +:+ t).
  { subst line3. destruct (contains "//" line2) eqn:Hin.
    - destruct (cut_bare_head "//" line2 Hhead2 Hslash2) as [Hb Hpre].
      split; [exact Hb|]. split; [apply strip_idem|]. split; [|exact Hpre].
      apply contains_strip, before_first_free. discriminate.
    - split; [exact Hhead2|]. split; [exact Hstrip2|]. split; [exact Hin|].
      exists "". clear. induction line2 as [|c s IH]; [reflexivity|].
      rewrite append_cons. now f_equal. }
  destruct H3 as (Hhead3 & Hstrip3 & Hfree3 & t3 & Ht3).
  rewrite (bare_head_truthy _ Hhead3).
  split; [reflexivity|]. split; [intros He; rewrite He in Hhead3; exact Hhead3|].
  split; [exact Hstrip3|]. split; [|split; [exact Hfree3|]].
  - destruct (contains "#" line3) eqn:Hc; [|reflexivity].
    rewrite <- Hfree2, Ht3. symmetry. now apply contains_append_l.
  - rewrite Ht2, Ht3, append_assoc. apply prefix_of_append.
Qed.

(** X18: every name read from a text file is non-empty, has no white
    space around it and holds neither [#] nor [//]; it is the start of
    its line without the surrounding white space.  Every line after the
    header that is neither blank nor a comment gives one name: cutting
    the inline comments never empties a line. *)
Theorem text_names_clean (lines : list string) :
  let names := _parse_txt lines in
  (forall name, name ∈ names ->
     name <> "" /\ strip name = name
     /\ contains "#" name = false /\ contains "//" name = false
     /\ exists line, line ∈ body_lines lines /\ content_line line = true
                     /\ String.prefix name (strip line) = true)
  /\ length names = length (List.filter content_line (body_lines lines)).
Proof.
  cbv zeta. unfold _parse_txt. generalize (body_lines lines). intros body. split.
  - intros name Hin. apply list_elem_of_omap in Hin as (line & Hline & Hparse).
    pose proof (parse_line_spec line) as Hspec. rewrite Hparse in Hspec.
    destruct Hspec as (Hc & Hne & Hstrip & Hhash & Hslash & Hpre).
    repeat split; try assumption. exists line. auto.
  - induction body as [|line body IH]; [reflexivity|]. cbn [omap list_omap List.filter].
    pose proof (parse_line_spec line) as Hspec.
    destruct (parse_line line) as [name|].
    + destruct Hspec as [-> _]. cbn [length]. now f_equal.
    + rewrite Hspec. exact IH.
Qed.

End TextFormat.

(** ** What the stores give back *)

Section StoreRoundTrips.
Import PyStr MappingTool Stores.
Local Open Scope list_scope.





(** X20: the cache of search intents is keyed by the lower-cased name
    without surrounding white space: after an intent is saved, it is
    served for every spelling with that key, and every other key is
    served as before; after the cache is cleared nothing is served. *)
Theorem cached_intent_served_again {V} (ingredient : string) (search_intent : V)
    (st : Cache V) :
  let st' := snd (save_search_intent_cache ingredient search_intent st) in
  (forall spelling,
     fst (get_cached_search_intent spelling st')
     = if decide (strip (lower spelling) = strip (lower ingredient))
       then Some search_intent
       else fst (get_cached_search_intent spelling st))
  /\ (forall spelling,
        fst (get_cached_search_intent spelling (snd (clear_cache st))) = None).
Proof.
  cbv zeta. split; intros spelling.
  - unfold save_search_intent_cache, get_cached_search_intent, _load_cache, _save_cache.
    destruct (_cache st) as [cache|]; cbn [_cache cache_files fst snd];
      destruct (decide (strip (lower spelling) = strip (lower ingredient))) as [->|Hne];
      try apply lookup_insert_eq; apply lookup_insert_ne; congruence.
  - unfold clear_cache, get_cached_search_intent, _load_cache, _save_cache.
    cbn [_cache cache_files fst snd]. apply lookup_empty.
Qed.

End StoreRoundTrips.

Section StoreRoundTripsWitness.
Import PyStr MappingTool Stores.


End StoreRoundTripsWitness.

(** ** The summary of the batch file *)

Section BatchFileSummary.
Import Py PyStr Catalog NutrientMapper MappingTool UsdaApi Orchestrator Accounting BatchFile.
Local Open Scope list_scope.

Variable w : World.

Ltac unfold_monad :=
  cbv [bind ret raise lift call log modify_stats try_except
       get_usda_food_details search_comprehensive verify_semantic_match
       calculate_nutritional_similarity_score plan_query].

Lemma process_one_filed (ingredient : string) (results : list ResultRecord)
    (failed : list string) (processing_times : list (option Seconds)) (st : State) :
  filed st results failed ->
  exists results' failed' processing_times' st',
    process_one w ingredient (results, failed, processing_times) st
    = (Returned (results', failed', processing_times'), st')
    /\ filed st' results' failed'.
Proof.
  intros (Hok & Hnone & Hsub).
  unfold process_one. unfold_monad.
  pose proof (fetch_counted w ingredient st) as Hcount. cbv zeta in Hcount.
  pose proof (fetch_emits w ingredient st) as Hem.
  destruct (fetch_nutrition_for_ingredient w ingredient st) as [[r|e] st1];
    cbn [fst snd counted_fetch] in *.
  - specialize (Hem r st1 eq_refl).
    pose proof (emitted_not_exception w ingredient r Hem) as [_ Hname].
    unfold counted_record in Hcount.
    destruct (emitted_classified w ingredient r Hem) as [[[src Hsrc] Hflag]|[Hsrc Hflag]];
      rewrite Hsrc in Hcount; rewrite Hflag.
    + assert (Hfok : List.filter is_successful [r] = [r])
        by (cbn [List.filter]; unfold is_successful; now rewrite Hflag).
      assert (Hfno : List.filter (fun r => negb (is_successful r)) [r] = [])
        by (cbn [List.filter]; unfold is_successful; now rewrite Hflag).
      eexists _, _, _, _. split; [reflexivity|].
      unfold filed. cbn [stats events tick].
      rewrite !List.filter_app, Hfok, Hfno, !app_nil_r, !length_app. cbn [length].
      destruct (String.eqb src "curated_mapping"); rewrite Hcount;
        cbn [bump_successful bump_from_mappings bump_from_search st_successful
             st_no_mapping_found];
        (split; [lia|]); (split; [exact Hnone | exact Hsub]).
    + assert (Hfok : List.filter is_successful [r] = [])
        by (cbn [List.filter]; unfold is_successful; now rewrite Hflag).
      assert (Hfno : List.filter (fun r => negb (is_successful r)) [r] = [r])
        by (cbn [List.filter]; unfold is_successful; now rewrite Hflag).
      assert (Hgoal : filed
                {| tick := tick st1; events := events st1; stats := bump_failed (stats st1) |}
                (results ++ [r]) (failed ++ [ingredient])).
      { unfold filed. cbn [stats events tick].
        rewrite !List.filter_app, Hfok, Hfno, !app_nil_r, !length_app, Hcount.
        cbn [length bump_failed bump_no_mapping_found st_successful st_no_mapping_found].
        split; [exact Hok|]. split; [lia|].
        rewrite fmap_app. cbn [fmap list_fmap]. rewrite Hname.
        apply sublist_app; [exact Hsub | reflexivity]. }
      destruct (String.eqb (r_flag r) "LOW_CONFIDENCE");
        eexists _, _, _, _; (split; [reflexivity | exact Hgoal]).
  - eexists _, _, _, _. split; [reflexivity|].
    unfold filed. cbn [stats events tick]. rewrite Hcount.
    cbn [bump_failed st_successful st_no_mapping_found].
    split; [exact Hok|]. split; [exact Hnone|].
    apply sublist_inserts_r. exact Hsub.
Qed.

Lemma process_loop_filed (format output_mode : string) (saver : Saver)
    (ingredients : list string) :
  save_results_enhanced format output_mode = Returned saver ->
  forall (i : Z) (results : list ResultRecord) (failed : list string)
         (processing_times : list (option Seconds)) (st : State),
  filed st results failed ->
  exists results' failed' processing_times' st',
    process_loop w format output_mode ingredients i (results, failed, processing_times) st
    = (Returned (results', failed', processing_times'), st')
    /\ filed st' results' failed'.
Proof.
  intros Hformat.
  induction ingredients as [|ingredient ingredients IH];
    intros i results failed processing_times st Hf; cbn [process_loop].
  - eexists _, _, _, _. split; [reflexivity | exact Hf].
  - unfold bind at 1.
    destruct (process_one_filed ingredient results failed processing_times st Hf)
      as (results1 & failed1 & times1 & st1 & -> & Hf1).
    unfold bind at 1. rewrite (periodic_save_returns _ _ saver i st1 Hformat).
    exact (IH (i + 1)%Z results1 failed1 times1 st1 Hf1).
Qed.

(** X21: the summary that the batch format writes for the results of a
    run agrees with the statistics of the run on the successes, and
    counts as failed the ingredients without a mapping only: an
    ingredient whose processing raised has no record, so it is missing
    from the total and from the failed count of the file, although the
    run counts it.  The failed names of the file are among the failed
    names of the run, in order.  The format json-batch is routed to the
    saver of the batch format, and the run hands these results and
    statistics to its caller when the code after the loop ends well. *)
Theorem batch_file_summary (ending : Ending) (ingredients : list string)
    (format : string) (limit : option Z) (start_from : Z) (output_mode : string)
    (saver : Saver) (st : State) :
  let selected := slice_to limit (slice_from start_from ingredients) in
  let run :=
    process_ingredients w ending ingredients format limit start_from output_mode st in
  selected <> [] ->
  fresh (stats st) ->
  save_results_enhanced format output_mode = Returned saver ->
  exists results failed st',
    process_loop w format output_mode selected 1 ([], [], [])
      {| tick := tick st; events := events st;
         stats := set_total (Z.of_nat (length selected)) (stats st) |}
    = (Returned (results, failed, r_processing_time_seconds <$> results), st')
    /\ (ends_well ending results failed ->
        run = (Returned {| sum_stats := stats st'; sum_results := results;
                           sum_failed_ingredients := failed |}, st'))
    /\ (~ ends_well ending results failed -> exists e, run = (Raised e, st'))
    /\ save_results_enhanced "json-batch" output_mode = Returned json_batch
    /\ let s := stats st' in
       let file := batch_output results in
       let exceptions :=
         Z.of_nat (count_events is_logged_exception st'
                   - count_events is_logged_exception st) in
       b_successful (b_summary file) = st_successful s
       /\ (b_failed (b_summary file) + exceptions = st_failed s)%Z
       /\ (b_total (b_summary file) + exceptions = st_total s)%Z
       /\ b_failed_ingredients file `sublist_of` failed
       /\ (results <> [] -> save_json_batch results true = (true, Some file)).
Proof.
  intros selected run Hne Hfresh Hformat.
  destruct (process_ingredients_tally w ending ingredients format limit start_from
              output_mode saver st Hne Hfresh Hformat)
    as (results & failed & st1 & Hloop & Hrun & Hraise & Ht & Hsum).
  pose proof Hfresh as (Hs & Hf & Hm & Hsr & Hn).
  set (st0 := {| tick := tick st; events := events st;
                 stats := set_total (Z.of_nat (length selected)) (stats st) |}) in *.
  assert (Hf0 : filed st0 [] []).
  { unfold filed. subst st0. cbn. rewrite Hs, Hn. repeat split; reflexivity. }
  destruct (process_loop_filed format output_mode saver selected Hformat 1 [] [] [] st0 Hf0)
    as (results' & failed' & times' & st1' & Hloop' & Hok & Hnone & Hsub).
  assert (Heq : (Returned (results, failed, r_processing_time_seconds <$> results), st1)
                = (Returned (results', failed', times'), st1'))
    by (etransitivity; [symmetry; exact Hloop | exact Hloop']).
  injection Heq as <- <- _ <-.
  exists results, failed, st1. split; [exact Hloop|].
  split; [exact Hrun|]. split; [exact Hraise|]. split; [reflexivity|].
  cbn [batch_output b_summary b_successful b_failed b_total b_failed_ingredients].
  destruct Ht as (Hlog1 & Hsucc1 & Hfail1 & Hres1 & Hfailed1).
  split; [exact Hok|]. split; [lia|]. split; [lia|]. split; [exact Hsub|].
  intros Hres. destruct results; [contradiction | reflexivity].
Qed.

End BatchFileSummary.

Section BatchFileSummaryWitness.
Import Py PyStr Catalog NutrientMapper MappingTool UsdaApi Orchestrator Accounting BatchFile
  Samples.

Lemma batch_file_summary_witness :
  exists summary st',
    process_ingredients
      (world_of cinnamon_store 0 0 (Raised (ValueError "API key required")))
      good_ending ["cinnamon"] "json-batch" None 0 "standard" initial_state
    = (Returned summary, st')
    /\ save_results_enhanced "json-batch" "standard" = Returned json_batch
    /\ (b_total (b_summary (batch_output (sum_results summary))) + 1
        = st_total (sum_stats summary))%Z.
Proof.
  set (w := world_of cinnamon_store 0 0 (Raised (ValueError "API key required"))).
  destruct (batch_file_summary w good_ending ["cinnamon"] "json-batch" None 0 "standard"
              json_batch initial_state)
    as (results & failed & st' & Hloop & Hrun & _ & Hroute & _ & _ & Htotal & _).
  - discriminate.
  - repeat split; reflexivity.
  - reflexivity.
  - match type of Hloop with
    | ?l = _ =>
        assert (Hfst : fst l = Returned ([], ["cinnamon"], []))
          by (vm_compute; reflexivity);
        assert (Hlogged : count_events is_logged_exception (snd l) = 1%nat)
          by (vm_compute; reflexivity)
    end.
    rewrite Hloop in Hfst, Hlogged. cbn [fst snd] in Hfst, Hlogged.
    injection Hfst as -> -> _.
    eexists _, st'. split.
    + apply Hrun. split; [right; reflexivity|]. split; [constructor | left; reflexivity].
    + split; [exact Hroute|]. cbv zeta in Htotal. cbn [sum_stats sum_results].
      rewrite Hlogged in Htotal. exact Htotal.
Defined.

End BatchFileSummaryWitness.

(** ** The retry strategy *)

Section RetryStrategy.
Import PyStr Orchestrator RetryTool.
Local Open Scope list_scope.

(** X22: the retry strategy raises in two situations only: on the first
    attempt for an ingredient without a word, where [words[0]] is read
    from an empty list, and on an attempt other than 1, 2 and 3 when the
    generated intent gives no query, where [intent["search_query"]] is
    read from a dictionary without that key.  On the attempts 1, 2 and 3
    a strategy that is returned carries a reason; the second attempt, the
    only one for which the orchestrator asks a strategy, always returns
    one. *)
Theorem retry_strategy_failures (generated : option Intent) (ingredient : string)
    (attempt : Z) (previous_queries : list string) :
  let out := generate_retry_search_strategy generated ingredient attempt previous_queries in
  let intent_query :=
    match generated with
    | Some intent => i_search_query intent
    | None => None
    end in
  (out = Fails IndexError <-> attempt = 1%Z /\ split (lower ingredient) = [])
  /\ (out = Fails (KeyError "search_query")
      <-> attempt <> 1%Z /\ attempt <> 2%Z /\ attempt <> 3%Z /\ intent_query = None)
  /\ (forall e, out = Fails e -> e = IndexError \/ e = KeyError "search_query")
  /\ (forall search_query retry_reason,
        out = Retry search_query retry_reason ->
        is_Some retry_reason <-> (attempt = 1 \/ attempt = 2 \/ attempt = 3)%Z)
  /\ (attempt = 2%Z -> exists search_query reason, out = Retry search_query (Some reason)).
Proof.
  cbv zeta. unfold generate_retry_search_strategy.
  set (intent_query := match generated with
                       | Some intent => i_search_query intent
                       | None => None
                       end).
  set (words := split (lower ingredient)).
  destruct (Z.eqb_spec attempt 1) as [->|H1].
  { destruct (1 <? length words)%nat eqn:Hlen.
    - assert (Hne : words <> []) by (intros Hw; rewrite Hw in Hlen; discriminate Hlen).
      destruct (in_list _ previous_queries);
        (split; [split; [discriminate | intros [_ Hw]; contradiction]|]);
        (split; [split; [discriminate | intros [Hn _]; contradiction]|]);
        (split; [discriminate|]);
        (split; [intros q r Hq; injection Hq as <- <-; split; eauto | discriminate]).
    - destruct words as [|word rest].
      + split; [split; auto|].
        split; [split; [discriminate | intros [Hn _]; contradiction]|].
        split; [intros e He; injection He as <-; auto|].
        split; discriminate.
      + destruct (in_list _ previous_queries);
          (split; [split; [discriminate | intros [_ Hw]; discriminate Hw]|]);
          (split; [split; [discriminate | intros [Hn _]; contradiction]|]);
          (split; [discriminate|]);
          (split; [intros q r Hq; injection Hq as <- <-; split; eauto | discriminate]). }
  destruct (Z.eqb_spec attempt 2) as [->|H2].
  { destruct (untried_variation _ _) as [variant|];
      [|destruct (find _ modifiers) as [modifier|]];
      destruct (in_list _ previous_queries);
      (split; [split; [discriminate | intros [Hn _]; discriminate Hn]|]);
      (split; [split; [discriminate | intros (_ & Hn & _); contradiction]|]);
      (split; [discriminate|]);
      (split; [intros q r Hq; injection Hq as <- <-; split; eauto | eauto]). }
  destruct (Z.eqb_spec attempt 3) as [->|H3].
  { destruct (categorised_word words) as [[category word]|];
      destruct (in_list _ previous_queries);
      (split; [split; [discriminate | intros [Hn _]; discriminate Hn]|]);
      (split; [split; [discriminate | intros (_ & _ & Hn & _); contradiction]|]);
      (split; [discriminate|]);
      (split; [intros q r Hq; injection Hq as <- <-; split; eauto | discriminate]). }
  destruct intent_query as [q0|].
  - destruct (in_list q0 previous_queries);
      (split; [split; [discriminate | intros [Hn _]; contradiction]|]);
      (split; [split; [discriminate | intros (_ & _ & _ & Hn); discriminate Hn]|]);
      (split; [discriminate|]);
      (split; [intros q r Hq; injection Hq as <- <-;
               split; [intros [x Hx]; discriminate Hx | lia]
              | intros Hn; contradiction]).
  - split; [split; [discriminate | intros [Hn _]; contradiction]|].
    split; [split; auto|].
    split; [intros e He; injection He as <-; auto|].
    split; [discriminate | intros Hn; contradiction].
Qed.

(** Every member of a split string is a word. *)
Lemma split_from_words (s : string) :
  forall cur,
    match cur with Some word => is_word word | None => True end ->
    Forall is_word (split_from cur s).
Proof.
  induction s as [|c s IH]; intros cur Hcur; cbn [split_from].
  - destruct cur; [constructor; [exact Hcur | constructor] | constructor].
  - destruct (is_space c) eqn:Hc.
    + destruct cur as [word|]; [constructor; [exact Hcur|]|]; now apply IH.
    + apply IH. destruct cur as [word|].
      * destruct Hcur as [Hne Hchars]. split.
        -- destruct word; discriminate.
        -- intros d Hd. rewrite list_ascii_of_append in Hd.
           apply in_app_or in Hd as [Hd|[<-|[]]]; [now apply Hchars | exact Hc].
      * split; [discriminate|]. intros d [<-|[]]. exact Hc.
Qed.

Lemma split_from_head (word rest : string) :
  (forall c, In c (list_ascii_of_string word) -> is_space c = false) ->
  forall cur,
    split_from cur (word +:+ rest)
    = split_from (match word with
                  | EmptyString => cur
                  | String _ _ =>
                      Some (match cur with Some w => w +:+ word | None => word end)
                  end) rest.
Proof.
  induction word as [|c word IH]; intros Hchars cur; [reflexivity|].
  rewrite append_cons. cbn [split_from]. rewrite (Hchars c) by (left; reflexivity).
  rewrite IH by (intros d Hd; apply Hchars; right; exact Hd).
  destruct word as [|d word]; [reflexivity|]. f_equal. f_equal.
  destruct cur as [w|]; [|reflexivity]. now rewrite append_assoc.
Qed.

Lemma append_nil_r (s : string) : s +:+ "" = s.
Proof. induction s as [|c s IH]; [reflexivity|]. rewrite append_cons. now f_equal. Qed.

(** Splitting words joined by single spaces gives the words back. *)
Lemma split_concat_words (words : list string) :
  Forall is_word words -> split (String.concat " " words) = words.
Proof.
  unfold split. induction 1 as [|word words [Hne Hchars] Hwords IH]; [reflexivity|].
  destruct words as [|word' words].
  - cbn [String.concat]. rewrite <- (append_nil_r word) at 1.
    rewrite (split_from_head word "" Hchars).
    destruct word; [contradiction | reflexivity].
  - change (String.concat " " (word :: word' :: words))
      with (word +:+ String " " (String.concat " " (word' :: words))).
    rewrite (split_from_head word _ Hchars).
    destruct word as [|c word]; [contradiction|]. cbn [split_from].
    change (is_space " ") with true. cbv iota. now rewrite IH.
Qed.

(** X23: on the first attempt, for an ingredient of two words or more,
    the retry searches the words of the ingredient in reverse order, in
    lower case; when that query was tried before, it searches the last
    word alone. *)
Theorem word_order_retry_reverses (generated : option Intent) (ingredient : string)
    (previous_queries : list string) :
  let words := split (lower ingredient) in
  (1 < length words)%nat ->
  exists search_query,
    generate_retry_search_strategy generated ingredient 1 previous_queries
    = Retry search_query (Some WordOrderOrPlural)
    /\ if in_list (String.concat " " (rev words)) previous_queries
       then search_query = List.last words ""
       else split search_query = rev words.
Proof.
  intros words Hlen. unfold generate_retry_search_strategy. fold words.
  apply Nat.ltb_lt in Hlen. rewrite Hlen. cbn [Z.eqb Pos.eqb].
  destruct (in_list (String.concat " " (rev words)) previous_queries);
    eexists; (split; [reflexivity|]); [reflexivity|].
  apply split_concat_words, Forall_rev.
  apply (split_from_words (lower ingredient) None I).
Qed.

End RetryStrategy.

Section RetryStrategyWitness.
Import PyStr Orchestrator RetryTool.

Lemma retry_strategy_failures_witness :
  generate_retry_search_strategy None "Cinnamon Sticks" 2 ["cinnamon sticks"]
  = Retry "Cinnamon Sticks raw" (Some (AddingModifier "raw")).
Proof.
  destruct (retry_strategy_failures None "Cinnamon Sticks" 2 ["cinnamon sticks"])
    as (_ & _ & _ & _ & Hsecond).
  destruct (Hsecond eq_refl) as (search_query & reason & Hout).
  rewrite Hout. vm_compute in Hout. injection Hout as <- <-. reflexivity.
Defined.

Lemma word_order_retry_reverses_witness :
  generate_retry_search_strategy None "Basmati  Rice" 1 []
  = Retry "rice basmati" (Some WordOrderOrPlural).
Proof.
  destruct (word_order_retry_reverses None "Basmati  Rice" []) as (search_query & Hout & _).
  - vm_compute. lia.
  - rewrite Hout. vm_compute in Hout. injection Hout as <-. reflexivity.
Defined.

End RetryStrategyWitness.

(** ** The fallbacks of the first orchestrator *)

Section FirstOrchestratorFallbacks.
Import Py PyStr Catalog NutrientMapper MappingTool UsdaApi Orchestrator MatchQuality
  FirstOrchestrator.
Local Open Scope list_scope.

Variable w : World.

(** X24: neither fallback of the first orchestrator finds anything new.
    The search repeated "without filter" leaves the filter to its default,
    which is the filter of the first search, and the ranked filter with a
    [max_score] of 200 keeps the rows that it keeps with 50.  So with a
    catalog that answers that search in the same way whenever asked, an
    ingredient without a curated entry whose first search has no row
    that passes the filter gets no record: the detail endpoint is not
    called and no counter moves. *)
Theorem first_orchestrator_fallbacks_idle (ingredient : string) (st : State)
    (search_results : list Food) :
  steady_search w ->
  search_mappings ingredient (w_mappings w) = None ->
  let search_query := planned_query w ingredient 1 [] (tick st) in
  w_search_food w (S (tick st)) search_query 50 (Some "Foundation,SR Legacy")
  = Returned search_results ->
  filter_search_results search_results ingredient 50 true = [] ->
  let out := FirstOrchestrator.fetch_nutrition_for_ingredient w ingredient st in
  fst out = Returned None
  /\ count_events is_details_call (snd out) = count_events is_details_call st
  /\ stats (snd out) = stats st.
Proof.
  intros Hsteady Hmap search_query Hsearch Hfilter. cbv zeta.
  unfold FirstOrchestrator.fetch_nutrition_for_ingredient. rewrite Hmap.
  unfold search_path, search_usda_food, default_data_type.
  cbv [bind ret lift call plan_query]. cbn [fst snd tick events stats].
  fold search_query. rewrite Hsearch.
  destruct search_results as [|row rows].
  - cbn [tick]. rewrite (Hsteady _ (S (tick st))), Hsearch. cbn [fst snd].
    split; [reflexivity|]. split; [|reflexivity].
    unfold count_events. cbn [events]. rewrite !List.filter_app, !length_app. cbn. lia.
  - rewrite Hfilter.
    rewrite <- (enhanced_filter_fixed (row :: rows) ingredient 50 200) by lia.
    rewrite Hfilter. cbn [fst snd].
    split; [reflexivity|]. split; [|reflexivity].
    unfold count_events. cbn [events]. rewrite !List.filter_app, !length_app. cbn. lia.
Qed.

End FirstOrchestratorFallbacks.

Section FirstOrchestratorFallbacksWitness.
Import Py PyStr Catalog NutrientMapper MappingTool UsdaApi Orchestrator MatchQuality
  FirstOrchestrator Samples.

(** A catalog whose only row for any query is a cheese spread. *)
Let spread : Food :=
  {| f_fdcId := Some 173460%Z; f_fdc_id := None;
     f_description := Some "Cheese spread, canned, with bacon bits";
     f_dataType := Some "SR Legacy"; f_foodCategory := None;
     f_search_tier := None; f_semantic_match_score := None |}.

Let spreads : World :=
  let w := world_of ∅ 0 0 (Returned (Some cinnamon_detail)) in
  {| w_mappings := w_mappings w;
     w_nutrient_ids := w_nutrient_ids w;
     w_first_intent := w_first_intent w;
     w_retry_intent := w_retry_intent w;
     w_search_food := fun _ _ _ _ => Returned [spread];
     w_verify_semantic := w_verify_semantic w;
     w_nutritional := w_nutritional w;
     w_food_details := w_food_details w |}.

Lemma first_orchestrator_fallbacks_idle_witness :
  fst (FirstOrchestrator.fetch_nutrition_for_ingredient spreads "bacon" initial_state)
  = Returned None.
Proof.
  refine (proj1 (first_orchestrator_fallbacks_idle spreads "bacon" initial_state [spread]
                   _ eq_refl eq_refl _)).
  - intros t t' query. reflexivity.
  - vm_compute. reflexivity.
Defined.

End FirstOrchestratorFallbacksWitness.

(** ** What the semantic verification returns *)

Section VerifiedRows.
Import Py PyStr Catalog UsdaApi TieredSearch SemanticVerification.
Local Open Scope list_scope.













End VerifiedRows.
